(** * DuktapeContext: the bridge between the JVM and the Duktape heap

    A shallow embedding of [duktape/src/main/jni/DuktapeContext.cpp].

    The C++ code drives two external machines through their C APIs: the
    Duktape engine (a value stack, a heap of objects with properties) and
    the JNI environment (host objects, references to them, one pending
    exception).  Both are modelled as explicit state, threaded through a
    small state-and-error monad; a function of the source file is a
    monadic definition with the same name and the same sequence of API
    calls.  What the engine and the JVM decide on their own (the host
    methods, the texts the engine converts values to, the properties
    its builtin prototypes carry) is a parameter of the model, the
    class [HostRuntime].  Modelled are the helpers of the anonymous namespace, the
    finalizer, the two traps, the constructor, [pushObject], [popObject],
    [call], [callProperty], [setGlobalProperty], the key accessors and
    [set]; [evaluate] and [compile], which hand source text to the
    interpreter, [get] and the debugger attachment are not. *)

From Stdlib Require Import ZArith String Ascii List Lia.
From stdpp Require Import base option list gmap strings pretty.

Local Open Scope string_scope.
Local Open Scope Z_scope.

(** ** Engine values *)

(** Property keys.  A property is named by a string, [KStr].  [KPtr p]
    is the key operand of an operation that is handed the heap object
    [p] for a key ([duk_put_prop_heapptr], or a key marshalled from a
    handle): the engine converts the object to a string when the
    operation runs ([property_name] below), and it is that string which
    names the property. *)
Inductive propkey :=
| KStr (s : string)
| KPtr (p : Z).

#[global] Instance propkey_eq_dec : EqDecision propkey.
Proof. solve_decision. Defined.

(** The [\xff\xff] prefix that hides a property from script code. *)
Definition xff : ascii := ascii_of_nat 255.
Definition hidden (s : string) : string := String xff (String xff s).

Definition JAVA_VM_PROP_NAME : string := hidden "javaVM".
Definition JAVA_THIS_PROP_NAME : string := hidden "java_this".
Definition JAVA_METHOD_PROP_NAME : string := hidden "java_method".
Definition DUKTAPE_CONTEXT_PROP_NAME : string := hidden "java_duktapecontext".

Definition is_hidden (k : propkey) : bool :=
  match k with
  | KStr (String c _) => bool_decide (c = xff)
  | _ => false
  end.

(** Tagged values of the engine.  Pointers ([void*], [jobject], [jlong])
    are addresses, [0] is [nullptr]. *)
Inductive jsval :=
| VUndefined
| VNull
| VBool (b : bool)
| VNumber (n : Z)
| VString (s : string)
| VObject (p : Z)
| VBuffer (p : Z)
| VPointer (p : Z)
| VLightfunc (p : Z).

#[global] Instance jsval_eq_dec : EqDecision jsval.
Proof. solve_decision. Defined.

(** Type tags and masks of [duktape.h]. *)
Definition DUK_TYPE_NONE : Z := 0.
Definition DUK_TYPE_UNDEFINED : Z := 1.
Definition DUK_TYPE_NULL : Z := 2.
Definition DUK_TYPE_BOOLEAN : Z := 3.
Definition DUK_TYPE_NUMBER : Z := 4.
Definition DUK_TYPE_STRING : Z := 5.
Definition DUK_TYPE_OBJECT : Z := 6.
Definition DUK_TYPE_BUFFER : Z := 7.
Definition DUK_TYPE_POINTER : Z := 8.
Definition DUK_TYPE_LIGHTFUNC : Z := 9.

Definition DUK_TYPE_MASK_BOOLEAN : Z := Z.shiftl 1 DUK_TYPE_BOOLEAN.
Definition DUK_TYPE_MASK_NUMBER : Z := Z.shiftl 1 DUK_TYPE_NUMBER.
Definition DUK_TYPE_MASK_STRING : Z := Z.shiftl 1 DUK_TYPE_STRING.

(** Result codes of protected calls, error codes and the negative
    return values by which a C function asks the engine to throw. *)
Definition DUK_EXEC_SUCCESS : Z := 0.
Definition DUK_EXEC_ERROR : Z := 1.
Definition DUK_ERR_ERROR : Z := 1.
Definition DUK_ERR_RANGE_ERROR : Z := 3.
Definition DUK_ERR_REFERENCE_ERROR : Z := 4.
Definition DUK_ERR_TYPE_ERROR : Z := 6.
Definition DUK_RET_ERROR : Z := - DUK_ERR_ERROR.
Definition DUK_RET_REFERENCE_ERROR : Z := - DUK_ERR_REFERENCE_ERROR.
Definition DUK_VARARGS : Z := -1.

Definition type_of (v : jsval) : Z :=
  match v with
  | VUndefined => DUK_TYPE_UNDEFINED
  | VNull => DUK_TYPE_NULL
  | VBool _ => DUK_TYPE_BOOLEAN
  | VNumber _ => DUK_TYPE_NUMBER
  | VString _ => DUK_TYPE_STRING
  | VObject _ => DUK_TYPE_OBJECT
  | VBuffer _ => DUK_TYPE_BUFFER
  | VPointer _ => DUK_TYPE_POINTER
  | VLightfunc _ => DUK_TYPE_LIGHTFUNC
  end.

(** The native functions this file registers with the engine. *)
Inductive cfunction :=
| fn_javaMethodHandler
| fn_javaObjectFinalizer
| fn_duktape_get
| fn_duktape_apply.

#[global] Instance cfunction_eq_dec : EqDecision cfunction.
Proof. solve_decision. Defined.

(** Kinds of engine-heap objects the bridge creates or inspects.
    [KMakeProxy] is the script function bound to the global
    [__makeProxy] and [KProxy] a proxy it returned for a target;
    [has_trap] tells whether the handler it wires has a [has] trap that
    answers for the reserved key ["__java_this"], which is for the
    script, not for this file, to decide.  [KForward f guarded] is a
    script function that passes its call on: its body calls the function
    at [f] with the [this] and the arguments of its own call and returns
    what that call returns, like [function () { return f() }] for a call
    without arguments; the call stands inside [try { ... } catch (e) { }]
    when the function is guarded.  It is the script code there can be
    between a call of the bridge and the function finally called. *)
Inductive okind :=
| KPlain
| KArray (elems : list jsval)
| KError (code : Z) (msg : string)
| KCFunction (f : cfunction) (nargs : Z)
| KEnum (target : Z) (keys : list propkey)
| KMakeProxy (has_trap : bool)
| KProxy (target : Z) (has_trap : bool)
| KForward (callee : Z) (guarded : bool).

(** An engine-heap object: own properties in insertion order (the order
    [duk_enum] walks them in) and the finalizer slot. *)
Record hobject := HObject {
  kind : okind;
  props : list (propkey * jsval);
  finalizer : jsval
}.

Definition new_object (k : okind) : hobject := HObject k [] VUndefined.

(** One Duktape thread: the value stack of the running activation (top
    at the head of the list), the heap, the two roots, and the [this]
    binding and function of the running activation. *)
Record duk_context := DukContext {
  stack : list jsval;
  heap : gmap Z hobject;
  heap_next : Z;
  global_object : Z;
  global_stash : Z;
  this_binding : jsval;
  current_function : jsval
}.

(** ** Host (JNI) state *)

(** Host objects, by what the bridge can observe of their class. *)
Inductive hostobj :=
| HBoxed (v : jsval)                         (* a registered native type *)
| HJavaScriptObject (context pointer : Z)    (* com/squareup/duktape/JavaScriptObject *)
| HDuktapeObject (tag : Z)                   (* implements DuktapeObject *)
| HJavaObject (wrapped : Z)                  (* com/squareup/duktape/JavaObject *)
| HDuktape (context : Z)                     (* com/squareup/duktape/Duktape *)
| HArray (elems : list Z)                    (* Object[] *)
| HPlain (tag : Z).                          (* any other class *)

Inductive refkind := LocalRef | GlobalRef | WeakGlobalRef.

#[global] Instance refkind_eq_dec : EqDecision refkind.
Proof. solve_decision. Defined.

(** A JNI reference: its kind and the host object it designates; a weak
    reference whose referent was collected designates nothing. *)
Record refcell := RefCell {
  ref_kind : refkind;
  ref_target : option Z
}.

Inductive jthrowable :=
| IllegalArgumentException (msg : string)
| DuktapeException (code : Z) (msg : string)
| HostException (id : Z).

(** The part of the JVM the bridge touches.  [released] logs every
    [DeleteGlobalRef]/[DeleteWeakGlobalRef]; [methods] holds the live
    [JavaMethod] descriptors allocated with [new] and [destroyed] logs
    every [delete] of one. *)
Record jni_env := JniEnv {
  objects : gmap Z hostobj;
  refs : gmap Z refcell;
  jni_next : Z;
  pending : option jthrowable;
  released : list Z;
  methods : gmap Z Z;
  destroyed : list Z
}.

(** A [DuktapeContext] together with the JVM it runs in. *)
Record world := World {
  m_context : duk_context;
  env : jni_env;
  m_javaDuktape : Z;
  this_context : Z
}.

(** ** The monad *)

(** A computation finishes normally, throws an engine error (a
    [longjmp] caught by the nearest protected call), or ends the run in
    a way nothing in this file recovers from: a C++ exception
    ([fatalErrorHandler]), a JNI abort or an invalid memory access.
    [OutOfFuel] is the answer of the model where its bound on a
    recursion or a loop is used up. *)
Inductive outcome (A : Type) :=
| Ok (a : A) (w : world)
| Throw (code : Z) (msg : string) (w : world)
| Fatal (msg : string) (w : world)
| OutOfFuel.

Arguments Ok {A} a w.
Arguments Throw {A} code msg w.
Arguments Fatal {A} msg w.
Arguments OutOfFuel {A}.

Definition M (A : Type) : Type := world -> outcome A.

Definition ret {A} (a : A) : M A := fun w => Ok a w.

Definition bind {A B} (m : M A) (k : A -> M B) : M B := fun w =>
  match m w with
  | Ok a w' => k a w'
  | Throw c msg w' => Throw c msg w'
  | Fatal msg w' => Fatal msg w'
  | OutOfFuel => OutOfFuel
  end.

Declare Scope M_scope.
Delimit Scope M_scope with M.
Bind Scope M_scope with M.

Notation "x ← y ; z" := (bind y (fun x => z))
  (at level 20, y at level 100, z at level 200, only parsing) : M_scope.
Notation "x ;; z" := (bind x (fun _ => z))
  (at level 100, z at level 200, only parsing, right associativity) : M_scope.

Local Open Scope M_scope.

Definition fatal {A} (msg : string) : M A := fun w => Fatal msg w.

Definition set_duk (d : duk_context) (w : world) : world :=
  World d (env w) (m_javaDuktape w) (this_context w).
Definition set_env (e : jni_env) (w : world) : world :=
  World (m_context w) e (m_javaDuktape w) (this_context w).

Definition set_stack (s : list jsval) (d : duk_context) : duk_context :=
  DukContext s (heap d) (heap_next d) (global_object d) (global_stash d)
             (this_binding d) (current_function d).
Definition set_heap (h : gmap Z hobject) (d : duk_context) : duk_context :=
  DukContext (stack d) h (heap_next d) (global_object d) (global_stash d)
             (this_binding d) (current_function d).

(** ** External collaborators *)

(** The names the bridge keeps for itself: the hidden ones, and the
    four it spells out for the proxy factory and for [popObject]. *)
Definition bridge_name (s : string) : bool :=
  is_hidden (KStr s) ||
  bool_decide (s ∈ ["__java_this"; "__makeProxy"; "__duktape_get"; "__duktape_apply"]).

(** What the bridge needs of what it only calls or is built with: the
    marshaller of native types ([JavaType], [JavaValues]), the host
    methods reached through [CallObjectMethod], [JavaMethod], the
    build variant, and, of the engine, the texts it converts values to
    and the properties of its builtin prototypes. *)
Class HostRuntime := {
  (** [m_javaValues.get(env, clazz)]: whether the class is a registered
      native type; when it is not, the lookup throws. *)
  JavaValues_get : hostobj -> bool;
  (** [type->push(ctx, env, value)]; [None] when it throws. *)
  JavaType_push : Z -> world -> option world;
  (** [m_objectType->pop(ctx, env, false).l] *)
  JavaType_pop : M Z;
  (** [m_objectType->popArray(ctx, env, 1, false, false)] *)
  JavaType_popArray : M Z;
  (** [DuktapeObject.get(Object)] and [DuktapeObject.invoke(Object,
      Object[])]: the returned reference and the JVM afterwards, a
      raised exception being pending there. *)
  DuktapeObject_get : Z -> string -> jni_env -> Z * jni_env;
  DuktapeObject_invoke : Z -> Z -> list Z -> jni_env -> Z * jni_env;
  (** [JavaMethod::invoke(ctx, env, javaThis)] *)
  JavaMethod_invoke : Z -> Z -> M Z;
  (** [Method.getName()] *)
  Method_getName : Z -> jni_env -> string;
  (** The [std::invalid_argument] the [JavaMethod] constructor throws
      for a method it cannot marshal, if any. *)
  JavaMethod_invalid : Z -> jni_env -> option string;
  (** Whether the library is compiled with [NDEBUG] defined. *)
  NDEBUG : bool;
  (** The text [duk_push_context_dump] pushes for a context. *)
  context_dump : duk_context -> string;
  (** The property an object of a kind answers with under a name that
      is not in its property table, if there is one: a property found
      along the prototype chain (the objects of the model have the
      builtin prototype of their kind), or one the engine computes for
      the kind, like the length of an array. *)
  inherited_property : okind -> string -> option jsval;
  (** No prototype carries a name the bridge keeps for itself. *)
  inherited_bridge_name :
    forall k s, bridge_name s = true -> inherited_property k s = None;
  (** [ToString] of the heap object at a pointer, no proxy, where the
      model does not compute the text itself (see [object_name]).  The
      conversion is taken to yield a text: an object whose conversion
      throws is not among the objects of the model. *)
  ToString_object : gmap Z hobject -> Z -> string;
  (** [ToString] of a buffer, a pointer or a lightfunc. *)
  ToString_opaque : jsval -> string;
  (** [ToString] of a proxy: the conversion reads [toString] and
      [valueOf] through the proxy's get trap, handler script and host
      code that run before the text is known. *)
  ToString_proxy : Z -> M string
}.

(** ** The Duktape C API, as far as the bridge uses it *)

Definition top_of (w : world) : list jsval := stack (m_context w).
Definition heap_of (w : world) : gmap Z hobject := heap (m_context w).

Definition put_stack (s : list jsval) : M unit := fun w =>
  Ok tt (set_duk (set_stack s (m_context w)) w).
Definition put_heap (h : gmap Z hobject) : M unit := fun w =>
  Ok tt (set_duk (set_heap h (m_context w)) w).

(** Value at a stack index: negative indices count from the top,
    non-negative ones from the bottom of the activation. *)
Definition stack_at (idx : Z) (s : list jsval) : option jsval :=
  if idx <? 0 then s !! Z.to_nat (- idx - 1)
  else if idx <? Z.of_nat (length s)
       then s !! Z.to_nat (Z.of_nat (length s) - 1 - idx)
       else None.

Definition peek (idx : Z) : M (option jsval) := fun w =>
  Ok (stack_at idx (top_of w)) w.

Definition duk_push (v : jsval) : M unit := fun w =>
  Ok tt (set_duk (set_stack (v :: top_of w) (m_context w)) w).

Definition duk_push_null : M unit := duk_push VNull.
Definition duk_push_pointer (p : Z) : M unit := duk_push (VPointer p).

(** [duk_push_heapptr]: a [NULL] pointer pushes [undefined]. *)
Definition duk_push_heapptr (ptr : Z) : M unit :=
  if bool_decide (ptr = 0) then duk_push VUndefined else duk_push (VObject ptr).

Definition duk_push_global_object : M unit := fun w =>
  duk_push (VObject (global_object (m_context w))) w.
Definition duk_push_global_stash : M unit := fun w =>
  duk_push (VObject (global_stash (m_context w))) w.
Definition duk_push_this : M unit := fun w =>
  duk_push (this_binding (m_context w)) w.
Definition duk_push_current_function : M unit := fun w =>
  duk_push (current_function (m_context w)) w.

Definition duk_pop_n (n : nat) : M unit := fun w =>
  if (length (top_of w) <? n)%nat
  then Throw DUK_ERR_RANGE_ERROR "invalid count" w
  else put_stack (drop n (top_of w)) w.

Definition duk_pop : M unit := duk_pop_n 1.
Definition duk_pop_2 : M unit := duk_pop_n 2.
Definition duk_pop_3 : M unit := duk_pop_n 3.

(** Allocation of an engine-heap object; the new pointer is returned. *)
Definition alloc (o : hobject) : M Z := fun w =>
  let d := m_context w in
  let p := heap_next d in
  Ok p (set_duk (DukContext (stack d) (<[p := o]> (heap d)) (p + 1)
                            (global_object d) (global_stash d)
                            (this_binding d) (current_function d)) w).

(** Absolute index of the value on top of the stack. *)
Definition top_index : M Z := fun w => Ok (Z.of_nat (length (top_of w)) - 1) w.

Definition duk_push_object : M Z :=
  p ← alloc (new_object KPlain); duk_push (VObject p);; top_index.

Definition duk_push_c_function (f : cfunction) (nargs : Z) : M Z :=
  p ← alloc (new_object (KCFunction f nargs)); duk_push (VObject p);; top_index.

Definition duk_require_normalize_index (idx : Z) : M Z := fun w =>
  let n := Z.of_nat (length (top_of w)) in
  if idx <? 0
  then (if - idx <=? n then Ok (n + idx) w
        else Throw DUK_ERR_RANGE_ERROR "invalid stack index" w)
  else (if idx <? n then Ok idx w
        else Throw DUK_ERR_RANGE_ERROR "invalid stack index" w).

Definition duk_normalize_index (idx : Z) : M Z := fun w =>
  let n := Z.of_nat (length (top_of w)) in
  if idx <? 0 then Ok (if - idx <=? n then n + idx else -1) w
  else Ok (if idx <? n then idx else -1) w.

(** *** Own properties *)

Definition lookup_prop (k : propkey) (ps : list (propkey * jsval)) : option jsval :=
  snd <$> find (fun kv => bool_decide (fst kv = k)) ps.

Fixpoint store_prop (k : propkey) (v : jsval) (ps : list (propkey * jsval))
  : list (propkey * jsval) :=
  match ps with
  | [] => [(k, v)]
  | (k', v') :: rest =>
      if decide (k' = k) then (k, v) :: rest else (k', v') :: store_prop k v rest
  end.

Definition remove_prop (k : propkey) (ps : list (propkey * jsval))
  : list (propkey * jsval) :=
  filter (fun kv => fst kv <> k) ps.

Definition own_prop (h : gmap Z hobject) (p : Z) (k : propkey) : option jsval :=
  h !! p ≫= fun o => lookup_prop k (props o).

(** The object that holds the properties seen through [p]: a proxy has
    no [set], [deleteProperty] or [ownKeys] trap, so these operations
    reach its target. *)
Definition holder (h : gmap Z hobject) (p : Z) : Z :=
  match h !! p with
  | Some (HObject (KProxy t _) _ _) => t
  | _ => p
  end.

Definition with_props (f : list (propkey * jsval) -> list (propkey * jsval))
    (o : hobject) : hobject :=
  HObject (kind o) (f (props o)) (finalizer o).

(** The base value of a property operation: an object pointer, a
    primitive (reads find nothing, writes are dropped) or a value that
    is not object-coercible. *)
Inductive base :=
| BaseObject (p : Z)
| BasePrimitive
| BaseInvalid.

Definition base_of (v : option jsval) : base :=
  match v with
  | Some (VObject p) => BaseObject p
  | Some VUndefined | Some VNull | None => BaseInvalid
  | Some _ => BasePrimitive
  end.

Section Properties.

Context `{HostRuntime}.

(** A plain object that converts to a string by the builtin
    [Object.prototype.toString]: it has no [toString] or [valueOf] of
    its own, and it is neither the global object nor the stash (at [g]
    and [st]), whose class or prototype differ. *)
Definition converts_by_default (g st p : Z) (o : hobject) : bool :=
  match kind o with
  | KPlain =>
      negb (bool_decide (p = g)) &&
      negb (bool_decide (p = st)) &&
      negb (bool_decide (is_Some (lookup_prop (KStr "toString") (props o)))) &&
      negb (bool_decide (is_Some (lookup_prop (KStr "valueOf") (props o))))
  | _ => false
  end.

(** The string the object [o] at [p], no proxy, converts to: every
    plain object that converts by default gives ["[object Object]"];
    the text of any other object is the engine's. *)
Definition object_name (h : gmap Z hobject) (g st p : Z) (o : hobject) : string :=
  if converts_by_default g st p o then "[object Object]" else ToString_object h p.

(** The name a key operand stands for.  A string names itself; a heap
    object is converted to a string, a proxy through its get trap. *)
Definition property_name (k : propkey) : M string := fun w =>
  match k with
  | KStr s => Ok s w
  | KPtr p =>
      match heap_of w !! p with
      | Some (HObject (KProxy _ _) _ _) => ToString_proxy p w
      | Some o =>
          Ok (object_name (heap_of w) (global_object (m_context w))
                          (global_stash (m_context w)) p o) w
      | None => Fatal "invalid heap pointer" w
      end
  end.

(** A write of the property [name]: the value is on top of the stack
    and is popped; the base is found at [idx] before the pop.  The
    property is created or overwritten on the object itself, which is
    what the engine does unless the object inherits the name as an
    accessor or as a read-only property. *)
Definition put_prop_name (idx : Z) (name : string) : M unit := fun w =>
  match top_of w with
  | [] => Throw DUK_ERR_RANGE_ERROR "invalid stack index" w
  | v :: rest =>
      match base_of (stack_at idx (v :: rest)) with
      | BaseObject p =>
          let h := heap_of w in
          let q := holder h p in
          match h !! q with
          | Some o =>
              Ok tt (set_duk (set_stack rest
                       (set_heap (<[q := with_props (store_prop (KStr name) v) o]> h)
                                 (m_context w))) w)
          | None => Fatal "invalid heap pointer" w
          end
      | BasePrimitive => put_stack rest w
      | BaseInvalid => Throw DUK_ERR_TYPE_ERROR "cannot write property" w
      end
  end.

Definition put_prop_key (idx : Z) (k : propkey) : M unit :=
  name ← property_name k;
  put_prop_name idx name.

Definition duk_put_prop_string (idx : Z) (key : string) : M unit :=
  put_prop_key idx (KStr key).

(** [duk_put_prop_heapptr]: the engine pushes the pointer as the key, a
    null pointer as [undefined], and writes the property the key
    converts to. *)
Definition duk_put_prop_heapptr (idx : Z) (ptr : Z) : M unit :=
  put_prop_key idx (if bool_decide (ptr = 0) then KStr "undefined" else KPtr ptr).

Definition duk_del_prop_string (idx : Z) (key : string) : M bool := fun w =>
  match base_of (stack_at idx (top_of w)) with
  | BaseObject p =>
      let h := heap_of w in
      let q := holder h p in
      match h !! q with
      | Some o => Ok true (set_duk (set_heap
                     (<[q := with_props (remove_prop (KStr key)) o]> h)
                     (m_context w)) w)
      | None => Fatal "invalid heap pointer" w
      end
  | BasePrimitive => Ok true w
  | BaseInvalid => Throw DUK_ERR_TYPE_ERROR "cannot delete property" w
  end.

(** [key in obj] for an object that is no proxy: a property in its
    table, or one found along the prototype chain. *)
Definition has_property (h : gmap Z hobject) (p : Z) (key : string) : bool :=
  match h !! p with
  | Some o =>
      bool_decide (is_Some (lookup_prop (KStr key) (props o))) ||
      bool_decide (is_Some (inherited_property (kind o) key))
  | None => false
  end.

(** [duk_has_prop_string], the engine's [key in obj]: the base must be
    an object.  A proxy whose handler has a [has] trap answers for the
    reserved ["__java_this"] key itself; everything else is looked up
    in the target. *)
Definition duk_has_prop_string (idx : Z) (key : string) : M bool := fun w =>
  match stack_at idx (top_of w) with
  | Some (VObject p) =>
      let h := heap_of w in
      match h !! p with
      | Some (HObject (KProxy t true) _ _) =>
          if bool_decide (key = "__java_this") then Ok true w
          else Ok (has_property h t key) w
      | Some (HObject (KProxy t false) _ _) => Ok (has_property h t key) w
      | Some _ => Ok (has_property h p key) w
      | None => Fatal "invalid heap pointer" w
      end
  | _ => Throw DUK_ERR_TYPE_ERROR "object required" w
  end.

End Properties.

Definition duk_set_finalizer (idx : Z) : M unit := fun w =>
  match top_of w with
  | [] => Throw DUK_ERR_RANGE_ERROR "invalid stack index" w
  | v :: rest =>
      match stack_at idx (v :: rest) with
      | Some (VObject p) =>
          match heap_of w !! p with
          | Some o =>
              Ok tt (set_duk (set_stack rest
                       (set_heap (<[p := HObject (kind o) (props o) v]> (heap_of w))
                                 (m_context w))) w)
          | None => Fatal "invalid heap pointer" w
          end
      | _ => Throw DUK_ERR_TYPE_ERROR "object required" w
      end
  end.

(** *** Typed reads of stack slots *)

Definition duk_require_pointer (idx : Z) : M Z := fun w =>
  match stack_at idx (top_of w) with
  | Some (VPointer p) => Ok p w
  | _ => Throw DUK_ERR_TYPE_ERROR "pointer required" w
  end.

Definition duk_get_pointer (idx : Z) : M Z := fun w =>
  match stack_at idx (top_of w) with
  | Some (VPointer p) => Ok p w
  | _ => Ok 0 w
  end.

Definition duk_get_string (idx : Z) : M (option string) := fun w =>
  match stack_at idx (top_of w) with
  | Some (VString s) => Ok (Some s) w
  | _ => Ok None w
  end.

Definition duk_get_heapptr (idx : Z) : M Z := fun w =>
  match stack_at idx (top_of w) with
  | Some (VObject p) => Ok p w
  | _ => Ok 0 w
  end.

Definition duk_get_type (idx : Z) : M Z := fun w =>
  match stack_at idx (top_of w) with
  | Some v => Ok (type_of v) w
  | None => Ok DUK_TYPE_NONE w
  end.

Definition duk_check_type_mask (idx : Z) (mask : Z) : M bool :=
  t ← duk_get_type idx;
  ret (negb (Z.land (Z.shiftl 1 t) mask =? 0)).

Definition duk_is_array (idx : Z) : M bool := fun w =>
  match stack_at idx (top_of w) with
  | Some (VObject p) =>
      match heap_of w !! p with
      | Some (HObject (KArray _) _ _) => Ok true w
      | _ => Ok false w
      end
  | _ => Ok false w
  end.

Definition duk_get_length (idx : Z) : M nat := fun w =>
  match stack_at idx (top_of w) with
  | Some (VObject p) =>
      match heap_of w !! p with
      | Some (HObject (KArray elems) _ _) => Ok (length elems) w
      | _ => Ok 0%nat w
      end
  | Some (VString s) => Ok (String.length s) w
  | _ => Ok 0%nat w
  end.

(** [duk_get_prop_index] on the argument list of a call, an array. *)
Definition duk_get_prop_index (idx : Z) (i : nat) : M bool := fun w =>
  match base_of (stack_at idx (top_of w)) with
  | BaseObject p =>
      match heap_of w !! p with
      | Some (HObject (KArray elems) _ _) =>
          match elems !! i with
          | Some v => (duk_push v;; ret true) w
          | None => (duk_push VUndefined;; ret false) w
          end
      | Some _ => (duk_push VUndefined;; ret false) w
      | None => Fatal "invalid heap pointer" w
      end
  | BasePrimitive => (duk_push VUndefined;; ret false) w
  | BaseInvalid => Throw DUK_ERR_TYPE_ERROR "cannot read property" w
  end.

(** *** Enumeration *)

Definition key_value (k : propkey) : jsval :=
  match k with
  | KStr s => VString s
  | KPtr p => VObject p
  end.

(** [duk_enum] with [DUK_ENUM_OWN_PROPERTIES_ONLY]: a snapshot of the own
    keys that are not hidden, in insertion order. *)
Definition duk_enum (idx : Z) : M unit := fun w =>
  match base_of (stack_at idx (top_of w)) with
  | BaseObject p =>
      let h := heap_of w in
      let q := holder h p in
      match h !! q with
      | Some o =>
          let keys := filter (fun k => is_hidden k = false) (fst <$> props o) in
          (e ← alloc (new_object (KEnum q keys)); duk_push (VObject e)) w
      | None => Fatal "invalid heap pointer" w
      end
  | BasePrimitive =>
      (e ← alloc (new_object (KEnum 0 [])); duk_push (VObject e)) w
  | BaseInvalid => Throw DUK_ERR_TYPE_ERROR "not object coercible" w
  end.

(** First key of the snapshot that the target still has. *)
Fixpoint next_key (h : gmap Z hobject) (t : Z) (keys : list propkey)
  : option (propkey * jsval * list propkey) :=
  match keys with
  | [] => None
  | k :: rest =>
      match own_prop h t k with
      | Some v => Some (k, v, rest)
      | None => next_key h t rest
      end
  end.

(** [duk_next(ctx, idx, true)]: the slot must hold an enumerator; pushes
    the next key and its value, or nothing when exhausted. *)
Definition duk_next (idx : Z) : M bool := fun w =>
  match stack_at idx (top_of w) with
  | Some (VObject e) =>
      let h := heap_of w in
      match h !! e with
      | Some (HObject (KEnum t keys) ps fin) =>
          match next_key h t keys with
          | Some (k, v, rest) =>
              (put_heap (<[e := HObject (KEnum t rest) ps fin]> h);;
               duk_push (key_value k);; duk_push v;; ret true) w
          | None =>
              (put_heap (<[e := HObject (KEnum t []) ps fin]> h);; ret false) w
          end
      | Some _ => Throw DUK_ERR_TYPE_ERROR "enumerator required" w
      | None => Fatal "invalid heap pointer" w
      end
  | _ => Throw DUK_ERR_TYPE_ERROR "object required" w
  end.

(** Keys left in the enumerator at [idx]: the bound of a [duk_next] loop. *)
Definition enum_remaining (idx : Z) (w : world) : list propkey :=
  match stack_at idx (top_of w) with
  | Some (VObject e) =>
      match heap_of w !! e with
      | Some (HObject (KEnum _ keys) _ _) => keys
      | _ => []
      end
  | _ => []
  end.

(** ** The JNI calls the bridge makes *)

Definition set_pending (t : option jthrowable) (e : jni_env) : jni_env :=
  JniEnv (objects e) (refs e) (jni_next e) t (released e) (methods e) (destroyed e).

(** The host object a reference designates; [nullptr], a deleted
    reference and a cleared weak reference designate none. *)
Definition referent (e : jni_env) (r : Z) : option Z :=
  if bool_decide (r = 0) then None
  else refs e !! r ≫= ref_target.

Definition deref (e : jni_env) (r : Z) : option hostobj :=
  referent e r ≫= fun o => objects e !! o.

Definition IsSameObject (a b : Z) : M bool := fun w =>
  Ok (bool_decide (referent (env w) a = referent (env w) b)) w.

Definition new_ref (k : refkind) (target : Z) : M Z := fun w =>
  let e := env w in
  let r := jni_next e in
  Ok r (set_env (JniEnv (objects e) (<[r := RefCell k (Some target)]> (refs e))
                        (r + 1) (pending e) (released e) (methods e)
                        (destroyed e)) w).

Definition NewGlobalRef (obj : Z) : M Z := fun w =>
  match referent (env w) obj with
  | Some o => new_ref GlobalRef o w
  | None => Ok 0 w
  end.

Definition NewWeakGlobalRef (obj : Z) : M Z := fun w =>
  match referent (env w) obj with
  | Some o => new_ref WeakGlobalRef o w
  | None => Ok 0 w
  end.

Definition delete_ref (r : Z) : M unit := fun w =>
  let e := env w in
  Ok tt (set_env (JniEnv (objects e) (delete r (refs e)) (jni_next e)
                         (pending e) (r :: released e) (methods e)
                         (destroyed e)) w).

Definition DeleteGlobalRef (r : Z) : M unit := delete_ref r.
Definition DeleteWeakGlobalRef (r : Z) : M unit := delete_ref r.

(** [NewObject]: a new host object and a local reference to it. *)
Definition NewObject (o : hostobj) : M Z := fun w =>
  let e := env w in
  let id := jni_next e in
  new_ref LocalRef id
    (set_env (JniEnv (<[id := o]> (objects e)) (refs e) (id + 1) (pending e)
                     (released e) (methods e) (destroyed e)) w).

(** [GetObjectClass] aborts the VM on a reference that designates
    nothing. *)
Definition GetObjectClass (r : Z) : M hostobj := fun w =>
  match deref (env w) r with
  | Some o => Ok o w
  | None => Fatal "JNI: GetObjectClass on a null reference" w
  end.

(** [IsAssignableFrom(objectClass, JavaScriptObject)]. *)
Definition is_JavaScriptObject (o : hostobj) : bool :=
  match o with
  | HJavaScriptObject _ _ => true
  | _ => false
  end.

(** [IsAssignableFrom(objectClass, DuktapeObject)]: the interface is
    implemented by user classes, by [JavaScriptObject] and by the
    [JavaObject] adapter. *)
Definition is_DuktapeObject (o : hostobj) : bool :=
  match o with
  | HJavaScriptObject _ _ | HDuktapeObject _ | HJavaObject _ => true
  | _ => false
  end.

Definition contextField (o : hostobj) : Z :=
  match o with
  | HJavaScriptObject c _ => c
  | _ => 0
  end.

Definition pointerField (o : hostobj) : Z :=
  match o with
  | HJavaScriptObject _ p => p
  | _ => 0
  end.

Definition ExceptionCheck : M bool := fun w =>
  Ok (bool_decide (is_Some (pending (env w)))) w.

Definition ThrowNew (t : jthrowable) : M unit := fun w =>
  Ok tt (set_env (set_pending (Some t) (env w)) w).

Definition ExceptionClear : M unit := fun w =>
  Ok tt (set_env (set_pending None (env w)) w).

(** [new JavaMethod(...)] and [delete] of one. *)
Definition new_JavaMethod (method : Z) : M Z := fun w =>
  let e := env w in
  let p := jni_next e in
  Ok p (set_env (JniEnv (objects e) (refs e) (p + 1) (pending e) (released e)
                        (<[p := method]> (methods e)) (destroyed e)) w).

Definition delete_JavaMethod (p : Z) : M unit := fun w =>
  if bool_decide (p = 0) then Ok tt w
  else
    let e := env w in
    Ok tt (set_env (JniEnv (objects e) (refs e) (jni_next e) (pending e)
                           (released e) (delete p (methods e))
                           (p :: destroyed e)) w).

(** Modelled from the spec: the constructor of the host-visible handle,
    Java code outside this file.  The new handle carries the Context
    identity of the [Duktape] object it is given and the engine-heap
    pointer. *)
Definition new_JavaScriptObject (duktape : Z) (ptr : Z) : M Z := fun w =>
  match deref (env w) duktape with
  | Some (HDuktape c) => NewObject (HJavaScriptObject c ptr) w
  | _ => NewObject (HJavaScriptObject 0 ptr) w
  end.

(** Modelled from the spec: [queueIllegalArgumentException] of
    [java/JavaExceptions.h], which reports a condition to the host as a
    pending exception. *)
Definition queueIllegalArgumentException (msg : string) : M unit :=
  ThrowNew (IllegalArgumentException msg).

(** Modelled from the spec: [queueJavaExceptionForDuktapeError] of
    [java/JavaExceptions.h].  The engine error on top of the stack is
    converted to a pending host-visible exception and popped. *)
Definition queueJavaExceptionForDuktapeError : M unit := fun w =>
  let t :=
    match top_of w with
    | VObject p :: _ =>
        match heap_of w !! p with
        | Some (HObject (KError c msg) _ _) => DuktapeException c msg
        | _ => DuktapeException DUK_ERR_ERROR ""
        end
    | _ => DuktapeException DUK_ERR_ERROR ""
    end in
  (ThrowNew t;; duk_pop) w.

(** Modelled from the spec: [checkRethrowDuktapeError] of
    [java/JavaExceptions.h].  When the host call raised, the exception
    is surfaced as an engine error object and the answer is [false]. *)
Definition checkRethrowDuktapeError : M bool :=
  raised ← ExceptionCheck;
  if raised then
    e ← alloc (new_object (KError DUK_ERR_ERROR "Java Exception"));
    duk_push (VObject e);;
    ExceptionClear;;
    ret false
  else ret true.

Definition CallObjectMethod (f : jni_env -> Z * jni_env) : M Z := fun w =>
  let (r, e) := f (env w) in Ok r (set_env e w).

(** ** The functions of DuktapeContext.cpp *)

Section Bridge.

Context `{HostRuntime}.

(** The engine's call operation, [[Call]] of a value on a [this] binding
    and arguments.  It is tied to [engine_call_step] after the section;
    inside, the source functions see it as the engine they run on. *)
Variable engine_call : jsval -> jsval -> list jsval -> M jsval.

(** *** Property reads, which may run a trap *)

(** The property [k] of the object at [p], which is no proxy: the one
    in its table, or else the one found along the prototype chain. *)
Definition read_prop (h : gmap Z hobject) (p : Z) (k : propkey) : bool * jsval :=
  match own_prop h p k with
  | Some v => (true, v)
  | None =>
      match h !! p, k with
      | Some o, KStr s =>
          match inherited_property (kind o) s with
          | Some v => (true, v)
          | None => (false, VUndefined)
          end
      | _, _ => (false, VUndefined)
      end
  end.

(** Modelled from the spec: the handler that the make-proxy factory
    wires, script code outside this file.  A property read on a proxy
    runs the [__duktape_get] function of the configuration object with
    (target, key, receiver); hidden keys bypass the trap. *)
Definition getprop_name (p : Z) (name : string) : M (bool * jsval) := fun w =>
  let h := heap_of w in
  match h !! p with
  | Some (HObject (KProxy t _) _ _) =>
      if is_hidden (KStr name) then Ok (read_prop h t (KStr name)) w
      else
        (v ← engine_call (snd (read_prop h t (KStr "__duktape_get")))
                         (VObject t) [VObject t; VString name; VObject p];
         ret (true, v)) w
  | Some _ => Ok (read_prop h p (KStr name)) w
  | None => Fatal "invalid heap pointer" w
  end.

Definition getprop (b : option jsval) (k : propkey) : M (bool * jsval) :=
  match base_of b with
  | BaseObject p => name ← property_name k; getprop_name p name
  | BasePrimitive => ret (false, VUndefined)
  | BaseInvalid => fun w => Throw DUK_ERR_TYPE_ERROR "cannot read property" w
  end.

Definition duk_get_prop_string (idx : Z) (key : string) : M bool :=
  b ← peek idx;
  r ← getprop b (KStr key);
  duk_push (snd r);;
  ret (fst r).

Definition duk_get_global_string (key : string) : M bool := fun w =>
  (r ← getprop (Some (VObject (global_object (m_context w)))) (KStr key);
   duk_push (snd r);;
   ret (fst r)) w.

(** *** Protected calls *)

(** Runs [body] protected: its value, or the error it threw, replaces
    the consumed slots on top of [rest].  A C++ exception is not caught. *)
Definition protected (body : M jsval) (rest : list jsval) : M Z := fun w =>
  match body w with
  | Ok v w' => (put_stack (v :: rest);; ret DUK_EXEC_SUCCESS) w'
  | Throw c msg w' =>
      (e ← alloc (new_object (KError c msg));
       put_stack (VObject e :: rest);;
       ret DUK_EXEC_ERROR) w'
  | Fatal msg w' => Fatal msg w'
  | OutOfFuel => OutOfFuel
  end.

(** [duk_pcall]: [... func arg1 .. argN] becomes [... retval] or
    [... err]. *)
Definition duk_pcall (nargs : nat) : M Z := fun w =>
  let s := top_of w in
  match s !! nargs with
  | Some func =>
      protected (engine_call func VUndefined (rev (take nargs s)))
                (drop (S nargs) s) w
  | None => Throw DUK_ERR_TYPE_ERROR "invalid args" w
  end.

(** The key operand a value makes: a primitive is converted to its
    string here, an object when the operation runs. *)
Definition to_property_key (v : jsval) : propkey :=
  match v with
  | VString s => KStr s
  | VObject p => KPtr p
  | VUndefined => KStr "undefined"
  | VNull => KStr "null"
  | VBool true => KStr "true"
  | VBool false => KStr "false"
  | VNumber n => KStr (pretty n)
  | VBuffer _ | VPointer _ | VLightfunc _ => KStr (ToString_opaque v)
  end.

(** [duk_pcall_prop]: [... key arg1 .. argN] becomes [... retval] or
    [... err]; the function is the property [key] of the value at
    [obj_idx], which is the [this] binding of the call. *)
Definition duk_pcall_prop (obj_idx : Z) (nargs : nat) : M Z := fun w =>
  let s := top_of w in
  match s !! nargs with
  | Some key =>
      let obj := stack_at obj_idx s in
      protected (f ← getprop obj (to_property_key key);
                 engine_call (snd f) (default VUndefined obj) (rev (take nargs s)))
                (drop (S nargs) s) w
  | None => Throw DUK_ERR_TYPE_ERROR "invalid args" w
  end.

(** *** Helpers of the anonymous namespace *)

Definition getJNIEnv : M Z :=
  duk_push_global_stash;;
  duk_get_prop_string (-1) JAVA_VM_PROP_NAME;;
  javaVM ← duk_require_pointer (-1);
  duk_pop_2;;
  ret javaVM.

Definition getDuktapeContext : M Z :=
  duk_push_global_stash;;
  duk_get_prop_string (-1) DUKTAPE_CONTEXT_PROP_NAME;;
  duktapeContext ← duk_require_pointer (-1);
  duk_pop_2;;
  ret duktapeContext.

Definition getJavaThis : M Z :=
  duk_push_this;;
  duk_get_prop_string (-1) JAVA_THIS_PROP_NAME;;
  thisObject ← duk_require_pointer (-1);
  duk_pop_2;;
  ret thisObject.

Definition getJavaMethod : M Z :=
  duk_push_current_function;;
  duk_get_prop_string (-1) JAVA_METHOD_PROP_NAME;;
  method ← duk_require_pointer (-1);
  duk_pop_2;;
  ret method.

Definition javaMethodHandler : M Z :=
  method ← getJavaMethod;
  if bool_decide (method <> 0)
  then (getJNIEnv;; this ← getJavaThis; JavaMethod_invoke method this)
  else ret DUK_RET_ERROR.

(** The [while (duk_next(ctx, -1, true))] loop of the finalizer.  Every
    iteration consumes a key of the enumerator it started on, so the
    keys left in it bound the number of iterations. *)
Fixpoint javaObjectFinalizer_loop (keys : list propkey) : M unit :=
  match keys with
  | [] =>
      more ← duk_next (-1);
      if more then (fun _ => OutOfFuel) else ret tt
  | _ :: rest =>
      more ← duk_next (-1);
      if more then
        found ← duk_get_prop_string (-1) JAVA_METHOD_PROP_NAME;
        if negb found then
          duk_pop_2;;
          javaObjectFinalizer_loop rest
        else
          p ← duk_require_pointer (-1);
          delete_JavaMethod p;;
          duk_pop_3;;
          javaObjectFinalizer_loop rest
      else ret tt
  end.

Definition javaObjectFinalizer : M Z :=
  found ← duk_get_prop_string (-1) JAVA_THIS_PROP_NAME;
  (if found then
     getJNIEnv;;
     r ← duk_require_pointer (-1);
     DeleteGlobalRef r;;
     duk_pop;;
     duk_del_prop_string (-1) JAVA_METHOD_PROP_NAME;;
     ret tt
   else ret tt);;
  duk_enum (-1);;
  (fun w => javaObjectFinalizer_loop (enum_remaining (-1) w) w);;
  duk_pop_2;;
  ret 0.

(** What the [void* udata] handed to [fatalErrorHandler] points to: the
    member [m_context], whose address the constructor registers with
    the heap, or a host object, for the [jobject] (null included) that
    the traps pass. *)
Inductive udata :=
| AddressOfContext
| HostReference (object : Z).

Definition duk_push_context_dump : M unit := fun w =>
  duk_push (VString (context_dump (m_context w))) w.

(** How a run ends that reads a [duk_context*] where there is none. *)
Definition invalid_udata : string :=
  "fatalErrorHandler: udata does not point to a duk_context*".

(** [fatalErrorHandler].  Built with [NDEBUG] it throws
    [std::runtime_error(msg)].  Built without, it first reads a
    [duk_context*] through [udata] and appends a dump of that context
    to the message; through a [jobject] there is no such pointer to
    read, and the run ends at the read. *)
Definition fatalErrorHandler (u : udata) (msg : string) : M unit :=
  if NDEBUG then fatal msg
  else
    match u with
    | AddressOfContext =>
        duk_push_context_dump;;
        debugContext ← duk_get_string (-1);
        fatal (String.append msg (String.append " - " (default "" debugContext)))
    | HostReference _ => fatal invalid_udata
    end.

(** *** Host to engine: [pushObject] *)

(** [pushObject(JNIEnv*, jlong)] *)
Definition pushObject_heapptr (object : Z) : M unit :=
  duk_push_heapptr object.

(** The tail of [pushObject]: the configuration object, its hidden
    reference, finalizer and traps, and the call of [__makeProxy]. *)
Definition pushObject_proxy (object : Z) : M unit :=
  duk_get_global_string "__makeProxy";;
  i ← duk_push_object;
  objIndex ← duk_require_normalize_index i;
  g ← NewGlobalRef object;
  duk_push_pointer g;;
  duk_put_prop_string objIndex JAVA_THIS_PROP_NAME;;
  duk_push_c_function fn_javaObjectFinalizer 1;;
  duk_set_finalizer objIndex;;
  duk_push_c_function fn_duktape_get 3;;
  duk_put_prop_string objIndex "__duktape_get";;
  duk_push_c_function fn_duktape_apply 3;;
  duk_put_prop_string objIndex "__duktape_apply";;
  rc ← duk_pcall 1;
  if bool_decide (rc <> DUK_EXEC_SUCCESS)
  then queueJavaExceptionForDuktapeError
  else ret tt.

(** [pushObject(JNIEnv*, jobject)], a method of the context at address
    [this]. *)
Definition pushObject (this : Z) (object : Z) : M unit :=
  if bool_decide (object = 0) then duk_push_null
  else
    clazz ← GetObjectClass object;
    fun w =>
      match (if JavaValues_get clazz then JavaType_push object w else None) with
      | Some w' => Ok tt w'
      | None =>
          (objectClass ← GetObjectClass object;
           if is_JavaScriptObject objectClass then
             let context := contextField objectClass in
             if bool_decide (context = this) then
               let ptr := pointerField objectClass in
               duk_push_heapptr ptr
             else pushObject_proxy object
           else if negb (is_DuktapeObject objectClass) then
             o ← (fun w => NewObject (HJavaObject (default 0 (referent (env w) object))) w);
             pushObject_proxy o
           else pushObject_proxy object) w
      end.

(** *** Engine to host: [popObject] *)

Definition supportedTypeMask : Z :=
  Z.lor (Z.lor DUK_TYPE_MASK_BOOLEAN DUK_TYPE_MASK_NUMBER) DUK_TYPE_MASK_STRING.

(** The generic-object branch of [popObject], first part: the host
    reference cached on the object under ["__java_this"], or null when
    there is none or it went stale. *)
Definition popObject_cached : M Z :=
  has ← duk_has_prop_string (-1) "__java_this";
  if has then
    duk_get_prop_string (-1) "__java_this";;
    javaThis ← duk_get_pointer (-1);
    duk_pop;;
    stale ← (if bool_decide (javaThis <> 0)
             then IsSameObject javaThis 0 else ret false);
    if stale then
      DeleteWeakGlobalRef javaThis;;
      duk_del_prop_string (-1) "__java_this";;
      ret 0
    else ret javaThis
  else ret 0.

(** Second part: a new holder for the script object. *)
Definition popObject_fresh : M Z :=
  ptr ← duk_get_heapptr (-1);
  duk_push_global_stash;;
  duk_push_heapptr ptr;;
  duk_put_prop_heapptr (-2) ptr;;
  duk_pop;;
  javaThis ← (fun w => new_JavaScriptObject (m_javaDuktape w) ptr w);
  weakRef ← NewWeakGlobalRef javaThis;
  duk_push_pointer weakRef;;
  duk_put_prop_string (-2) "__java_this";;
  duk_pop;;
  ret javaThis.

Definition popObject_object : M Z :=
  javaThis ← popObject_cached;
  if bool_decide (javaThis <> 0) then
    duk_pop;;
    ret javaThis
  else popObject_fresh.

Definition popObject : M Z :=
  scalar ← duk_check_type_mask (-1) supportedTypeMask;
  if scalar then JavaType_pop
  else
    array ← duk_is_array (-1);
    if array then JavaType_popArray
    else
      t ← duk_get_type (-1);
      if bool_decide (t = DUK_TYPE_OBJECT) then popObject_object
      else
        duk_pop;;
        ret 0.

Definition popObject2 : M Z :=
  r ← popObject;
  duk_pop;;
  ret r.

(** *** The traps *)

(** The operands of the get trap: the property name and the host
    reference bound to the target. *)
Definition __duktape_get_operands : M (option string * Z) :=
  duk_pop;;
  prop ← duk_get_string (-1);
  duk_pop;;
  duk_get_prop_string (-1) JAVA_THIS_PROP_NAME;;
  object ← duk_require_pointer (-1);
  duk_pop;;
  ret (prop, object).

Definition __duktape_get : M Z :=
  operands ← __duktape_get_operands;
  let object := snd operands in
  if bool_decide (object = 0) then
    fatalErrorHandler (HostReference object) "DuktapeObject is null";;
    ret DUK_RET_REFERENCE_ERROR
  else
    match fst operands with
    | None => fatal "strcmp on a null string"
    | Some prop =>
        if bool_decide (prop = "__java_this") then
          duk_push_pointer object;;
          ret 1
        else
          getJNIEnv;;
          objectClass ← GetObjectClass object;
          if negb (is_DuktapeObject objectClass) then
            fatalErrorHandler (HostReference object) "Object is not DuktapeObject";;
            ret DUK_RET_REFERENCE_ERROR
          else
            push ← CallObjectMethod (DuktapeObject_get object prop);
            duktapeContext ← getDuktapeContext;
            pushObject duktapeContext push;;
            ret 1
    end.

(** The [for] loop of the apply trap, over the indices of the argument
    list; the host array it fills is the list of references. *)
Fixpoint unpack_arguments (indices : list nat) : M (list Z) :=
  match indices with
  | [] => ret []
  | i :: rest =>
      duk_get_prop_index (-1) i;;
      a ← popObject;
      l ← unpack_arguments rest;
      ret (a :: l)
  end.

(** What the apply trap has in hand when it reaches the host call. *)
Record apply_operands := ApplyOperands {
  apply_context : Z;
  apply_args : list Z;
  apply_this : Z;
  apply_object : Z
}.

(** The operands of the apply trap: the Context, the unpacked argument
    list, the [this] binding and the host reference bound to the target. *)
Definition __duktape_apply_operands : M apply_operands :=
  getJNIEnv;;
  duktapeContext ← getDuktapeContext;
  argLen ← duk_get_length (-1);
  javaArgs ← unpack_arguments (seq 0 argLen);
  duk_pop;;
  javaThis ← popObject;
  duk_get_prop_string (-1) JAVA_THIS_PROP_NAME;;
  object ← duk_require_pointer (-1);
  duk_pop;;
  ret (ApplyOperands duktapeContext javaArgs javaThis object).

Definition __duktape_apply : M Z :=
  operands ← __duktape_apply_operands;
  let object := apply_object operands in
  objectClass ← GetObjectClass object;
  if negb (is_DuktapeObject objectClass) then
    fatalErrorHandler (HostReference object) "Object is not DuktapeObject";;
    ret DUK_RET_REFERENCE_ERROR
  else
    push ← CallObjectMethod
             (DuktapeObject_invoke object (apply_this operands) (apply_args operands));
    ok ← checkRethrowDuktapeError;
    if negb ok then ret DUK_RET_ERROR
    else
      pushObject (apply_context operands) push;;
      ret 1.

(** *** The call surface *)

Fixpoint pushObjects (this : Z) (args : list Z) : M unit :=
  match args with
  | [] => ret tt
  | arg :: rest => pushObject this arg;; pushObjects this rest
  end.

(** [args] is [None] for a null array. *)
Definition push_arguments (this : Z) (args : option (list Z)) : M nat :=
  match args with
  | Some l => pushObjects this l;; ret (length l)
  | None => ret 0%nat
  end.

(** [CHECK_STACK], the debug-build assertion of [StackChecker.h] that
    the stack is balanced when the scope is left, is not part of the
    model of the functions below. *)
Definition call (object : Z) (args : option (list Z)) : M Z := fun w =>
  (pushObject_heapptr object;;
   length ← push_arguments (this_context w) args;
   rc ← duk_pcall length;
   if bool_decide (rc <> DUK_EXEC_SUCCESS) then
     queueJavaExceptionForDuktapeError;;
     ret 0
   else popObject) w.

Definition callProperty (object : Z) (property : Z) (args : option (list Z)) : M Z :=
  fun w =>
  (pushObject_heapptr object;;
   objectIndex ← duk_normalize_index (-1);
   pushObject (this_context w) property;;
   length ← push_arguments (this_context w) args;
   rc ← duk_pcall_prop objectIndex length;
   if bool_decide (rc <> DUK_EXEC_SUCCESS) then
     queueJavaExceptionForDuktapeError;;
     duk_pop;;
     ret 0
   else popObject2) w.

(** The double-quote character of the message below. *)
Definition dquote : string := String (ascii_of_nat 34) EmptyString.

(** The loop of [set] over the method list: [false] when a method could
    not be bound and the operation was abandoned. *)
Fixpoint bind_methods (instanceName : string) (objIndex : Z) (ms : list Z) : M bool :=
  match ms with
  | [] => ret true
  | method :: rest =>
      fun w =>
        let methodName := Method_getName method (env w) in
        match JavaMethod_invalid method (env w) with
        | Some what =>
            (queueIllegalArgumentException
               (String.append "In bound method "
                 (String.append dquote
                   (String.append instanceName
                     (String.append "."
                       (String.append methodName
                         (String.append dquote (String.append ": " what)))))));;
             duk_pop_2;;
             ret false) w
        | None =>
            (javaMethod ← new_JavaMethod method;
             func ← duk_push_c_function fn_javaMethodHandler DUK_VARARGS;
             duk_push_pointer javaMethod;;
             duk_put_prop_string func JAVA_METHOD_PROP_NAME;;
             duk_put_prop_string objIndex methodName;;
             bind_methods instanceName objIndex rest) w
        end
  end.

(** [DuktapeContext::set], the implementation of [bindObject]. *)
Definition set (name : string) (object : Z) (methods : list Z) : M unit :=
  duk_push_global_object;;
  has ← duk_has_prop_string (-1) name;
  if has then
    duk_pop;;
    queueIllegalArgumentException
      (String.append "A global object called "
                     (String.append name " already exists"))
  else
    i ← duk_push_object;
    objIndex ← duk_require_normalize_index i;
    duk_push_c_function fn_javaObjectFinalizer 1;;
    duk_set_finalizer objIndex;;
    bound ← bind_methods name objIndex methods;
    if bound then
      g ← NewGlobalRef object;
      duk_push_pointer g;;
      duk_put_prop_string objIndex JAVA_THIS_PROP_NAME;;
      duk_put_prop_string (-2) name;;
      duk_pop
    else ret tt.

(** *** One step of the engine's call operation *)

(** Arguments as a C function registered with [nargs] sees them. *)
Definition adjust_arguments (nargs : Z) (args : list jsval) : list jsval :=
  if nargs <? 0 then args
  else take (Z.to_nat nargs) (args ++ replicate (Z.to_nat nargs) VUndefined).

Definition run_cfunction (f : cfunction) : M Z :=
  match f with
  | fn_javaMethodHandler => javaMethodHandler
  | fn_javaObjectFinalizer => javaObjectFinalizer
  | fn_duktape_get => __duktape_get
  | fn_duktape_apply => __duktape_apply
  end.

(** Leaves an activation: the caller's stack and bindings come back. *)
Definition leave (caller : duk_context) (w : world) : world :=
  let d := m_context w in
  set_duk (DukContext (stack caller) (heap d) (heap_next d) (global_object d)
                      (global_stash d) (this_binding caller)
                      (current_function caller)) w.

(** A native function runs on a fresh activation holding its arguments;
    it returns 1 for the value on top of its stack, 0 for [undefined]
    and a negative code to make the engine throw. *)
Definition call_cfunction (f : cfunction) (nargs : Z)
    (callee this : jsval) (args : list jsval) : M jsval := fun w =>
  let d := m_context w in
  let frame := DukContext (rev (adjust_arguments nargs args)) (heap d)
                          (heap_next d) (global_object d) (global_stash d)
                          this callee in
  match run_cfunction f (set_duk frame w) with
  | Ok rc w' =>
      if rc <? 0 then Throw (- rc) "error thrown by a native function" (leave d w')
      else if rc =? 0 then Ok VUndefined (leave d w')
      else Ok (default VUndefined (head (top_of w'))) (leave d w')
  | Throw c msg w' => Throw c msg (leave d w')
  | Fatal msg w' => Fatal msg (leave d w')
  | OutOfFuel => OutOfFuel
  end.

(** Modelled from the spec: the make-proxy factory and the proxies it
    returns, script code outside this file.  The factory wraps its
    configuration object in a new proxy; calling a proxy runs the
    [__duktape_apply] function of the configuration object with
    (target, this, argument list).

    A [KForward] function is script code: it passes its [this] and
    arguments on to its callee; a guarded one catches the error the
    callee throws, drops the error object and returns [undefined]. *)
Definition engine_call_step (callee this : jsval) (args : list jsval) : M jsval :=
  fun w =>
  match callee with
  | VObject p =>
      match heap_of w !! p with
      | Some (HObject (KCFunction f nargs) _ _) =>
          call_cfunction f nargs callee this args w
      | Some (HObject (KMakeProxy has_trap) _ _) =>
          match args with
          | VObject t :: _ =>
              (q ← alloc (new_object (KProxy t has_trap)); ret (VObject q)) w
          | _ => Throw DUK_ERR_TYPE_ERROR "proxy target must be an object" w
          end
      | Some (HObject (KProxy t _) _ _) =>
          (a ← alloc (new_object (KArray args));
           engine_call (snd (read_prop (heap_of w) t (KStr "__duktape_apply")))
                       (VObject t) [VObject t; this; VObject a]) w
      | Some (HObject (KForward f guarded) _ _) =>
          match engine_call (VObject f) this args w with
          | Throw c msg w' =>
              if guarded then (alloc (new_object (KError c msg));; ret VUndefined) w'
              else Throw c msg w'
          | r => r
          end
      | Some _ => Throw DUK_ERR_TYPE_ERROR "not callable" w
      | None => Fatal "invalid heap pointer" w
      end
  | _ => Throw DUK_ERR_TYPE_ERROR "not callable" w
  end.

End Bridge.

(** The engine's call operation, to a nesting depth of [fuel] calls. *)
Fixpoint engine_call `{HostRuntime} (fuel : nat)
    (callee this : jsval) (args : list jsval) : M jsval :=
  match fuel with
  | O => fun _ => OutOfFuel
  | S n => engine_call_step (engine_call n) callee this args
  end.

(** ** A reference host runtime and Context *)

(** A small host on which the statements below can be run: boxed scalars
    are the native types, a [DuktapeObject] with tag 1 raises from both of
    its methods, any other returns null; a method with a negative tag
    cannot be marshalled.  In its engine a startup script has put the
    proxy factory on [Object.prototype] as well, under the name
    ["makeProxy"], which every object therefore inherits; the builtin
    properties of the prototypes are left out. *)
Module Reference.

Definition push_native (r : Z) (w : world) : option world :=
  match deref (env w) r with
  | Some (HBoxed v) =>
      Some (set_duk (set_stack (v :: top_of w) (m_context w)) w)
  | _ => None
  end.

Definition pop_scalar : M Z := fun w =>
  match top_of w with
  | v :: rest => (put_stack rest;; NewObject (HBoxed v)) w
  | [] => Throw DUK_ERR_RANGE_ERROR "invalid count" w
  end.

Fixpoint box_all (vs : list jsval) : M (list Z) :=
  match vs with
  | [] => ret []
  | v :: rest =>
      r ← (match v with
           | VBool _ | VNumber _ | VString _ => NewObject (HBoxed v)
           | _ => ret 0
           end);
      l ← box_all rest;
      ret (r :: l)
  end.

Definition pop_array : M Z := fun w =>
  match top_of w with
  | VObject p :: rest =>
      match heap_of w !! p with
      | Some (HObject (KArray elems) _ _) =>
          (put_stack rest;; l ← box_all elems; NewObject (HArray l)) w
      | _ => Throw DUK_ERR_TYPE_ERROR "array required" w
      end
  | _ => Throw DUK_ERR_TYPE_ERROR "array required" w
  end.

Definition raises (e : jni_env) (object : Z) : bool :=
  match deref e object with
  | Some (HDuktapeObject 1) => true
  | _ => false
  end.

Definition host_method (object : Z) (e : jni_env) : Z * jni_env :=
  if raises e object then (0, set_pending (Some (HostException 1)) e)
  else (0, e).

Definition method_tag (e : jni_env) (m : Z) : Z :=
  match deref e m with
  | Some (HPlain n) => n
  | _ => 0
  end.

Definition native (o : hostobj) : bool :=
  match o with
  | HBoxed _ => true
  | _ => false
  end.

Definition dump (d : duk_context) : string :=
  String.append "ctx: top=" (pretty (Z.of_nat (length (stack d)))).

Definition inherited (k : okind) (s : string) : option jsval :=
  if bridge_name s then None
  else if bool_decide (s = "makeProxy") then Some (VObject 3) else None.

Definition inherited_none (k : okind) (s : string) (Hs : bridge_name s = true)
  : inherited k s = None :=
  eq_ind_r (x := true)
           (fun b : bool =>
              (if b then None
               else if bool_decide (s = "makeProxy") then Some (VObject 3) else None)
              = None)
           eq_refl Hs.

Definition object_text (h : gmap Z hobject) (p : Z) : string :=
  match h !! p with
  | Some (HObject (KError _ msg) _ _) => String.append "Error: " msg
  | Some (HObject KPlain _ _) => "[object global]"
  | Some (HObject (KArray _) _ _) => "[object Array]"
  | _ => "function () { [native code] }"
  end.

#[global] Instance host : HostRuntime := {
  JavaValues_get := native;
  JavaType_push := push_native;
  JavaType_pop := pop_scalar;
  JavaType_popArray := pop_array;
  DuktapeObject_get := fun object _ => host_method object;
  DuktapeObject_invoke := fun object _ _ => host_method object;
  JavaMethod_invoke := fun _ _ => ret 0;
  Method_getName := fun m e => String.append "m" (pretty (method_tag e m));
  JavaMethod_invalid := fun m e =>
    if method_tag e m <? 0 then Some "Unsupported Java type" else None;
  NDEBUG := true;
  context_dump := dump;
  inherited_property := inherited;
  inherited_bridge_name := inherited_none;
  ToString_object := object_text;
  ToString_opaque := fun _ => "[object Pointer]";
  ToString_proxy := fun _ => ret "[object Object]"
}.

(** The same host with the bridge built without [NDEBUG]. *)
Definition debug_host : HostRuntime := {|
  JavaValues_get := native;
  JavaType_push := push_native;
  JavaType_pop := pop_scalar;
  JavaType_popArray := pop_array;
  DuktapeObject_get := fun object _ => host_method object;
  DuktapeObject_invoke := fun object _ _ => host_method object;
  JavaMethod_invoke := fun _ _ => ret 0;
  Method_getName := fun m e => String.append "m" (pretty (method_tag e m));
  JavaMethod_invalid := fun m e =>
    if method_tag e m <? 0 then Some "Unsupported Java type" else None;
  NDEBUG := false;
  context_dump := dump;
  inherited_property := inherited;
  inherited_bridge_name := inherited_none;
  ToString_object := object_text;
  ToString_opaque := fun _ => "[object Pointer]";
  ToString_proxy := fun _ => ret "[object Object]"
|}.

(** Engine heap: 1 the global object, 2 the global stash, 3 the
    make-proxy factory, 4 a script object no handle was made for, 5 one
    whose handle is alive, 6 one whose handle was collected, 7 an object
    whose hidden reference designates a plain host object. *)
Definition heap0 (has_trap : bool) : gmap Z hobject :=
  <[1 := HObject KPlain [(KStr "__makeProxy", VObject 3)] VUndefined]>
  (<[2 := HObject KPlain [(KStr JAVA_VM_PROP_NAME, VPointer 1000);
                          (KStr DUKTAPE_CONTEXT_PROP_NAME, VPointer 2000)]
                  VUndefined]>
  (<[3 := new_object (KMakeProxy has_trap)]>
  (<[4 := new_object KPlain]>
  (<[5 := HObject KPlain [(KStr "__java_this", VPointer 58)] VUndefined]>
  (<[6 := HObject KPlain [(KStr "__java_this", VPointer 59)] VUndefined]>
  (<[7 := HObject KPlain [(KStr JAVA_THIS_PROP_NAME, VPointer 51)] VUndefined]>
   ∅)))))).

Definition duk0 (has_trap : bool) : duk_context :=
  DukContext [] (heap0 has_trap) 10 1 2 VUndefined VUndefined.

(** Host objects: 100 the [Duktape] instance of Context 2000, 101 a plain
    object, 102 and 103 two [DuktapeObject]s (103 raises), 104 a boxed
    number, 105 a handle of this Context for script object 4, 106 a
    handle of Context 3000, 107 a reflected method, 108 the handle of
    script object 5.  Reference [r] designates object [r + 50]; the
    referent of reference 59 was collected. *)
Definition objects0 : gmap Z hostobj :=
  <[100 := HDuktape 2000]>
  (<[101 := HPlain 7]>
  (<[102 := HDuktapeObject 0]>
  (<[103 := HDuktapeObject 1]>
  (<[104 := HBoxed (VNumber 5)]>
  (<[105 := HJavaScriptObject 2000 4]>
  (<[106 := HJavaScriptObject 3000 4]>
  (<[107 := HPlain 0]>
  (<[108 := HJavaScriptObject 2000 5]> ∅)))))))).

Definition refs0 : gmap Z refcell :=
  <[50 := RefCell WeakGlobalRef (Some 100)]>
  (<[51 := RefCell LocalRef (Some 101)]>
  (<[52 := RefCell LocalRef (Some 102)]>
  (<[53 := RefCell LocalRef (Some 103)]>
  (<[54 := RefCell LocalRef (Some 104)]>
  (<[55 := RefCell LocalRef (Some 105)]>
  (<[56 := RefCell LocalRef (Some 106)]>
  (<[57 := RefCell LocalRef (Some 107)]>
  (<[58 := RefCell WeakGlobalRef (Some 108)]>
  (<[59 := RefCell WeakGlobalRef None]> ∅))))))))).

Definition env0 : jni_env := JniEnv objects0 refs0 200 None [] ∅ [].

Definition world0 (has_trap : bool) : world :=
  World (duk0 has_trap) env0 50 2000.

End Reference.

(** ** The constructor and the property surface *)

Section Surface.

Context `{HostRuntime}.
Variable engine_call : jsval -> jsval -> list jsval -> M jsval.

(** A property read with a key that is a value.  An array answers a
    number that is not negative by position; any other read goes by the
    property key of the value. *)
Definition getprop_value (b : option jsval) (key : jsval) : M (bool * jsval) :=
  fun w =>
  match b, key with
  | Some (VObject p), VNumber n =>
      match heap_of w !! p with
      | Some (HObject (KArray elems) _ _) =>
          if 0 <=? n then
            match elems !! Z.to_nat n with
            | Some v => Ok (true, v) w
            | None => Ok (false, VUndefined) w
            end
          else getprop engine_call b (to_property_key key) w
      | _ => getprop engine_call b (to_property_key key) w
      end
  | _, _ => getprop engine_call b (to_property_key key) w
  end.

(** [duk_get_prop]: [... key] becomes [... value]; the base is found at
    [idx] before the key is replaced. *)
Definition duk_get_prop (idx : Z) : M bool := fun w =>
  match top_of w with
  | [] => Throw DUK_ERR_RANGE_ERROR "invalid stack index" w
  | key :: _ =>
      (b ← peek idx;
       r ← getprop_value b key;
       (fun w' => put_stack (snd r :: drop 1 (top_of w')) w');;
       ret (fst r)) w
  end.

(** [duk_get_prop_index] with the index as the engine receives it, a
    [duk_uarridx_t]. *)
Definition duk_get_prop_uarridx (idx : Z) (i : Z) : M bool :=
  b ← peek idx;
  r ← getprop_value b (VNumber i);
  duk_push (snd r);;
  ret (fst r).

(** [duk_put_prop]: [... key value] becomes [...]; the base is found at
    [idx] before the two are popped, and the property written is the
    one the key converts to.  The one base this file writes to in this
    way is the global object. *)
Definition duk_put_prop (idx : Z) : M unit := fun w =>
  match top_of w with
  | v :: key :: rest =>
      match base_of (stack_at idx (v :: key :: rest)) with
      | BaseObject p =>
          (name ← property_name (to_property_key key);
           fun w' =>
             let h := heap_of w' in
             let q := holder h p in
             match h !! q with
             | Some o =>
                 Ok tt (set_duk (set_stack rest
                          (set_heap (<[q := with_props (store_prop (KStr name) v) o]> h)
                                    (m_context w'))) w')
             | None => Fatal "invalid heap pointer" w'
             end) w
      | BasePrimitive => put_stack rest w
      | BaseInvalid => Throw DUK_ERR_TYPE_ERROR "cannot write property" w
      end
  | _ => Throw DUK_ERR_RANGE_ERROR "invalid stack index" w
  end.

(** The conversion of a [jint] to [duk_uarridx_t], an unsigned 32-bit
    integer. *)
Definition to_uarridx (index : Z) : Z := index mod 2 ^ 32.

(** The body of the constructor, on the heap [duk_create_heap] returned
    (a null heap makes it throw [std::bad_alloc] before anything else):
    the weak reference to the [Duktape] instance, and the JVM and the
    Context itself stashed for the native callbacks. *)
Definition DuktapeContext (javaVM javaDuktape : Z) : M unit :=
  weak ← NewWeakGlobalRef javaDuktape;
  (fun w => Ok tt (World (m_context w) (env w) weak (this_context w)));;
  duk_push_global_stash;;
  duk_push_pointer javaVM;;
  duk_put_prop_string (-2) JAVA_VM_PROP_NAME;;
  (fun w => duk_push_pointer (this_context w) w);;
  duk_put_prop_string (-2) DUKTAPE_CONTEXT_PROP_NAME;;
  duk_pop.

Definition setGlobalProperty (property value : Z) : M unit := fun w =>
  (duk_push_global_object;;
   pushObject engine_call (this_context w) property;;
   pushObject engine_call (this_context w) value;;
   duk_put_prop (-3);;
   duk_pop) w.

Definition getKeyInteger (object : Z) (index : Z) : M Z :=
  pushObject_heapptr object;;
  duk_get_prop_uarridx (-1) (to_uarridx index);;
  popObject2 engine_call.

Definition getKeyObject (object : Z) (key : Z) : M Z := fun w =>
  (pushObject_heapptr object;;
   pushObject engine_call (this_context w) key;;
   duk_get_prop (-2);;
   popObject2 engine_call) w.

Definition getKeyString (object : Z) (key : string) : M Z :=
  pushObject_heapptr object;;
  duk_get_prop_string engine_call (-1) key;;
  popObject2 engine_call.

End Surface.

(** ** Vocabulary of the statements *)

(** The state in which a run ended. *)
Definition world_of {A} (o : outcome A) : option world :=
  match o with
  | Ok _ w | Throw _ _ w | Fatal _ w => Some w
  | OutOfFuel => None
  end.

(** The world with another value stack. *)
Definition with_stack (s : list jsval) (w : world) : world :=
  set_duk (set_stack s (m_context w)) w.

(** An engine-heap object that is not a proxy. *)
Definition ordinary (o : hobject) : Prop := forall t b, kind o <> KProxy t b.

(** No object lives at or above the allocation pointer. *)
Definition heap_fresh (d : duk_context) : Prop :=
  forall k, heap_next d <= k -> heap d !! k = None.

(** No reference and no host object of the JVM lives at or above its
    allocation counter. *)
Definition jni_fresh (e : jni_env) : Prop :=
  forall k, jni_next e <= k -> refs e !! k = None /\ objects e !! k = None.

(** The global [__makeProxy] is the make-proxy factory. *)
Definition has_makeProxy (d : duk_context) (has_trap : bool) : Prop :=
  exists go f ps fin,
    heap d !! global_object d = Some go /\ ordinary go /\
    lookup_prop (KStr "__makeProxy") (props go) = Some (VObject f) /\
    heap d !! f = Some (HObject (KMakeProxy has_trap) ps fin).

(** The three tests of [popObject], in the order it makes them. *)
Definition is_scalar (v : jsval) : bool :=
  match v with
  | VBool _ | VNumber _ | VString _ => true
  | _ => false
  end.

Definition is_array_object (h : gmap Z hobject) (v : jsval) : bool :=
  match v with
  | VObject p =>
      match h !! p with
      | Some (HObject (KArray _) _ _) => true
      | _ => false
      end
  | _ => false
  end.

Definition is_object (v : jsval) : bool :=
  match v with
  | VObject _ => true
  | _ => false
  end.

(** The configuration object [pushObject] builds at [nx] for the global
    reference [g], and the heap once the factory has wrapped it. *)
Definition proxy_config (g nx : Z) : hobject :=
  HObject KPlain
          [(KStr JAVA_THIS_PROP_NAME, VPointer g);
           (KStr "__duktape_get", VObject (nx + 2));
           (KStr "__duktape_apply", VObject (nx + 3))]
          (VObject (nx + 1)).

Definition proxy_heap (h : gmap Z hobject) (nx g : Z) (has_trap : bool)
  : gmap Z hobject :=
  <[nx + 4 := new_object (KProxy nx has_trap)]>
  (<[nx := proxy_config g nx]>
  (<[nx + 3 := new_object (KCFunction fn_duktape_apply 3)]>
  (<[nx + 2 := new_object (KCFunction fn_duktape_get 3)]>
  (<[nx + 1 := new_object (KCFunction fn_javaObjectFinalizer 1)]> h)))).

(** The JVM after [NewGlobalRef] of host object [o]. *)
Definition with_global_ref (o : Z) (e : jni_env) : jni_env :=
  JniEnv (objects e) (<[jni_next e := RefCell GlobalRef (Some o)]> (refs e))
         (jni_next e + 1) (pending e) (released e) (methods e) (destroyed e).

(** The two crossings of one host object, and what "the same proxy"
    would mean for them. *)
Definition proxy_reuse_claim : Prop :=
  forall (R : HostRuntime) (n : nat) (this O : Z) (w w1 w2 : world) (v1 v2 : jsval),
    pushObject (engine_call n) this O w = Ok tt w1 ->
    pushObject (engine_call n) this O w1 = Ok tt w2 ->
    top_of w1 = v1 :: top_of w ->
    top_of w2 = v2 :: top_of w1 ->
    v1 = v2.

(** A push followed by a pop, and what "reference-identical" would mean
    for the result: [IsSameObject(result, X)]. *)
Definition identity_roundtrip_claim : Prop :=
  forall (R : HostRuntime) (n : nat) (this X r : Z) (w w1 w2 : world),
    is_Some (referent (env w) X) ->
    pushObject (engine_call n) this X w = Ok tt w1 ->
    popObject (engine_call n) w1 = Ok r w2 ->
    referent (env w2) r = referent (env w2) X.

(** A host object that [pushObject] hands to the proxy factory as it
    is: it implements [DuktapeObject] and is not a handle of the pushing
    Context. *)
Definition proxied_as_is (this : Z) (cls : hostobj) : Prop :=
  is_DuktapeObject cls = true /\
  (is_JavaScriptObject cls = false \/ contextField cls <> this).

(** The host reference cached on a script object, null when the
    ["__java_this"] property is missing or is not a pointer. *)
Definition cached_handle (o : hobject) : Z :=
  match lookup_prop (KStr "__java_this") (props o) with
  | Some (VPointer r) => r
  | _ => 0
  end.


(** The JVM after the new handle and the weak reference to it. *)
Definition with_handle (c p : Z) (e : jni_env) : jni_env :=
  let id := jni_next e in
  JniEnv (<[id := HJavaScriptObject c p]> (objects e))
         (<[id + 2 := RefCell WeakGlobalRef (Some id)]>
            (<[id + 1 := RefCell LocalRef (Some id)]> (refs e)))
         (id + 3) (pending e) (released e) (methods e) (destroyed e).

(** The JVM after [DeleteWeakGlobalRef] of [r]. *)
Definition without_ref (r : Z) (e : jni_env) : jni_env :=
  JniEnv (objects e) (delete r (refs e)) (jni_next e) (pending e)
         (r :: released e) (methods e) (destroyed e).

(** How a run ends in [fatalErrorHandler] when a trap hands it the bound
    host reference with the message [msg]: by the [std::runtime_error]
    carrying the message in a build with [NDEBUG], at the read through
    [udata] in a build without. *)
Definition trap_fatal `{HostRuntime} (msg : string) : string :=
  if NDEBUG then msg else invalid_udata.

(** The message of the exception [set] queues for a taken name. *)
Definition duplicate_global_message (name : string) : string :=
  String.append "A global object called " (String.append name " already exists").

(** The collector running the finalizer of the object at [p]. *)
Definition run_finalizer `{HostRuntime} (fuel : nat) (p : Z) : M jsval := fun w =>
  match heap_of w !! p with
  | Some o => engine_call fuel (finalizer o) VUndefined [VObject p] w
  | None => Fatal "invalid heap pointer" w
  end.

(** The world [pushObject(JNIEnv*, jlong)] leaves. *)
Definition pushed_heapptr (object : Z) (w : world) : world :=
  with_stack ((if bool_decide (object = 0) then VUndefined else VObject object)
              :: top_of w) w.

(** The activation on which the apply trap [fa] of a proxy with target
    [t] runs, called on [this] with [args]: the engine has packed the
    arguments into a new array. *)
Definition apply_frame (t fa : Z) (this : jsval) (args : list jsval) (w : world)
  : world :=
  let d := m_context w in
  let a := heap_next d in
  set_duk (DukContext [VObject a; this; VObject t]
                      (<[a := new_object (KArray args)]> (heap d)) (a + 1)
                      (global_object d) (global_stash d)
                      (VObject t) (VObject fa)) w.

(** Whether a host method invoked by the apply trap raises while the
    engine runs a call of [callee], to a nesting depth of [fuel]: the
    reading of [engine_call] that records the event.  The trap raises
    when the bound object passes the capability test and the JVM has an
    exception pending after [invoke]; a proxy hands the call to its
    apply trap, a [KForward] function to its callee. *)
Fixpoint host_raises `{HostRuntime} (fuel : nat) (callee this : jsval)
    (args : list jsval) (w : world) : bool :=
  match fuel with
  | O => false
  | S n =>
      match callee with
      | VObject p =>
          match heap_of w !! p with
          | Some (HObject (KCFunction fn_duktape_apply nargs) _ _) =>
              let d := m_context w in
              let frame := DukContext (rev (adjust_arguments nargs args)) (heap d)
                                      (heap_next d) (global_object d)
                                      (global_stash d) this callee in
              match __duktape_apply_operands (engine_call n) (set_duk frame w) with
              | Ok ops w' =>
                  match deref (env w') (apply_object ops) with
                  | Some cls =>
                      is_DuktapeObject cls &&
                      bool_decide
                        (is_Some (pending (snd (DuktapeObject_invoke
                                                  (apply_object ops) (apply_this ops)
                                                  (apply_args ops) (env w')))))
                  | None => false
                  end
              | _ => false
              end
          | Some (HObject (KProxy t _) _ _) =>
              match alloc (new_object (KArray args)) w with
              | Ok a w' =>
                  host_raises n (snd (read_prop (heap_of w) t (KStr "__duktape_apply")))
                              (VObject t) [VObject t; this; VObject a] w'
              | _ => false
              end
          | Some (HObject (KForward f _) _ _) => host_raises n (VObject f) this args w
          | _ => false
          end
      | _ => false
      end
  end.

(** Whether script code catches what is thrown while the engine runs a
    call of [callee]: a function on the way from the callee to the
    apply trap is guarded. *)
Fixpoint script_catches `{HostRuntime} (fuel : nat) (callee this : jsval)
    (args : list jsval) (w : world) : bool :=
  match fuel with
  | O => false
  | S n =>
      match callee with
      | VObject p =>
          match heap_of w !! p with
          | Some (HObject (KProxy t _) _ _) =>
              match alloc (new_object (KArray args)) w with
              | Ok a w' =>
                  script_catches n (snd (read_prop (heap_of w) t (KStr "__duktape_apply")))
                                 (VObject t) [VObject t; this; VObject a] w'
              | _ => false
              end
          | Some (HObject (KForward f guarded) _ _) =>
              guarded || script_catches n (VObject f) this args w
          | _ => false
          end
      | _ => false
      end
  end.

(** A [call] during which a host method invoked through the apply trap
    raises, and what the claim promises for it: the call returns null
    and leaves an exception pending for the host. *)
Definition host_exception_claim : Prop :=
  forall (R : HostRuntime) (n : nat) (w w1 : world) (object : Z)
         (jargs : option (list Z)) (len : nat) (callee : jsval),
    push_arguments (engine_call n) (this_context w) jargs (pushed_heapptr object w) =
      Ok len w1 ->
    top_of w1 !! len = Some callee ->
    host_raises n callee VUndefined (rev (take len (top_of w1))) w1 = true ->
    exists w4 exn,
      call (engine_call n) object jargs w = Ok 0 w4 /\
      pending (env w4) = Some exn.

(** The world after a protected call caught the error ([c], [msg])
    thrown in [w]: the error object replaces the operands above [rest]. *)
Definition caught (c : Z) (msg : string) (rest : list jsval) (w : world) : world :=
  let d := m_context w in
  set_duk (DukContext (VObject (heap_next d) :: rest)
                      (<[heap_next d := new_object (KError c msg)]> (heap d))
                      (heap_next d + 1) (global_object d) (global_stash d)
                      (this_binding d) (current_function d)) w.

(** ** Vocabulary of the further statements *)

(** The global stash holds the two pointers the constructor puts there. *)
Definition stash_ready (d : duk_context) (javaVM context : Z) : Prop :=
  exists so,
    heap d !! global_stash d = Some so /\ ordinary so /\
    lookup_prop (KStr JAVA_VM_PROP_NAME) (props so) = Some (VPointer javaVM) /\
    lookup_prop (KStr DUKTAPE_CONTEXT_PROP_NAME) (props so) = Some (VPointer context).

(** The activation of a native function [f] called on [this] with
    [args], as [call_cfunction] sets it up for a function taking
    [DUK_VARARGS]. *)
Definition native_frame (f : Z) (this : jsval) (args : list jsval) (w : world)
  : world :=
  let d := m_context w in
  set_duk (DukContext (rev args) (heap d) (heap_next d) (global_object d)
                      (global_stash d) this (VObject f)) w.

(** A value that carries no hidden host reference: anything but an
    object, or an object that is no proxy and lacks the property. *)
Definition detached (h : gmap Z hobject) (v : jsval) : Prop :=
  match v with
  | VObject o =>
      exists oo, h !! o = Some oo /\ ordinary oo /\
                 lookup_prop (KStr JAVA_THIS_PROP_NAME) (props oo) = None
  | _ => True
  end.

(** A value the engine cannot call: anything but an object, or an
    object that is neither a function nor a proxy. *)
Definition not_callable (h : gmap Z hobject) (v : jsval) : Prop :=
  match v with
  | VObject p =>
      exists o, h !! p = Some o /\
        match kind o with
        | KPlain | KArray _ | KError _ _ | KEnum _ _ => True
        | _ => False
        end
  | _ => True
  end.

(** The function object [set] makes for one method: the handler, with
    the descriptor at [ptr] as its hidden property. *)
Definition method_function (ptr : Z) : hobject :=
  HObject (KCFunction fn_javaMethodHandler DUK_VARARGS)
          [(KStr JAVA_METHOD_PROP_NAME, VPointer ptr)] VUndefined.

(** The JVM after [new JavaMethod] for [m]. *)
Definition with_method (m : Z) (e : jni_env) : jni_env :=
  JniEnv (objects e) (refs e) (jni_next e + 1) (pending e) (released e)
         (<[jni_next e := m]> (methods e)) (destroyed e).

(** What the loop of [set] has done once the methods [ms] are bound to
    the object at [obj], between the heaps [h] and [h'] and the JVMs [e]
    and [e']: every method is reachable under its name as a function
    made by this loop whose descriptor is live and is for a method of
    that name; the other properties of the object, the other objects
    and the rest of the JVM are as before. *)
Definition methods_bound (name : Z -> string) (ms : list Z) (obj nx : Z)
    (h h' : gmap Z hobject) (o o' : hobject) (e e' : jni_env) : Prop :=
  h' !! obj = Some o' /\ kind o' = kind o /\ finalizer o' = finalizer o /\
  (forall k, k ∉ (fun m => KStr (name m)) <$> ms ->
             lookup_prop k (props o') = lookup_prop k (props o)) /\
  (forall m, m ∈ ms ->
     exists f ptr m',
       lookup_prop (KStr (name m)) (props o') = Some (VObject f) /\
       h' !! f = Some (method_function ptr) /\
       methods e' !! ptr = Some m' /\ name m' = name m /\
       nx <= f /\ jni_next e <= ptr) /\
  (forall k, k < nx -> k <> obj -> h' !! k = h !! k) /\
  objects e' = objects e /\ refs e' = refs e /\ pending e' = pending e /\
  released e' = released e /\ destroyed e' = destroyed e /\
  jni_next e' = jni_next e + Z.of_nat (length ms) /\
  (forall k, k < jni_next e -> methods e' !! k = methods e !! k).

(** The message of the exception [set] queues for a method the
    [JavaMethod] constructor rejects. *)
Definition invalid_method_message (instanceName methodName what : string) : string :=
  String.append "In bound method "
    (String.append dquote
      (String.append instanceName
        (String.append "."
          (String.append methodName
            (String.append dquote (String.append ": " what)))))).

(** The JVM after [delete] of the descriptors [ds], in this order. *)
Definition destroy_all (ds : list Z) (e : jni_env) : jni_env :=
  fold_left (fun e m => JniEnv (objects e) (refs e) (jni_next e) (pending e)
                               (released e) (delete m (methods e))
                               (m :: destroyed e)) ds e.

(** The property [k] of the object with properties [ps] is a function
    made by [set], with the live descriptor [d]. *)
Definition bound_method (h : gmap Z hobject) (ps : list (propkey * jsval))
    (nx p : Z) (k : propkey) (d : Z) : Prop :=
  exists f fo,
    lookup_prop k ps = Some (VObject f) /\
    h !! f = Some fo /\ ordinary fo /\
    lookup_prop (KStr JAVA_METHOD_PROP_NAME) (props fo) = Some (VPointer d) /\
    d <> 0 /\ f <> nx /\ f <> p.

(** The reference Context with one more reflected method, reference 60,
    which the marshaller rejects. *)
Definition world_rejecting : world :=
  set_env (JniEnv (<[109 := HPlain (-1)]> Reference.objects0)
                  (<[60 := RefCell LocalRef (Some 109)]> Reference.refs0)
                  200 None [] ∅ [])
          (Reference.world0 true).

(** The name of a reflected method in the reference JVM. *)
Definition reference_name (e : jni_env) (m : Z) : string :=
  String.append "m" (pretty (Reference.method_tag e m)).

(** The reference Context once ["svc"] is bound to host object 102 with
    the method 57: the bound object is at 10, its method function at 12. *)
Definition world_bound : world :=
  default (Reference.world0 true)
          (world_of (set "svc" 52 [57] (Reference.world0 true))).

(** The reference Context with, at 8, an object whose hidden reference
    is null. *)
Definition world_dangling : world :=
  set_duk (set_heap (<[8 := HObject KPlain [(KStr JAVA_THIS_PROP_NAME, VPointer 0)]
                                    VUndefined]>
                       (Reference.heap0 true))
                    (Reference.duk0 true))
          (Reference.world0 true).

(** The reference Context with an array of two elements at 8. *)
Definition world_array : world :=
  set_duk (set_heap (<[8 := new_object (KArray [VNull; VNumber 7])]>
                       (Reference.heap0 true))
                    (Reference.duk0 true))
          (Reference.world0 true).

(** A property value that is no bound method: it is not an object, or
    is an object, not a proxy, without a method descriptor. *)
Definition no_descriptor (h : gmap Z hobject) (nx : Z) (v : jsval) : Prop :=
  match v with
  | VObject f =>
      exists fo, h !! f = Some fo /\ ordinary fo /\
                 lookup_prop (KStr JAVA_METHOD_PROP_NAME) (props fo) = None /\
                 f <> nx
  | _ => True
  end.

(** The reference Context once the host object 102 has crossed to the
    engine: its configuration object is at 10. *)
Definition world_proxied : world :=
  default (Reference.world0 true)
          (world_of (pushObject (engine_call 1) 2000 52 (Reference.world0 true))).

(** The reference Context once host object 103, whose methods raise,
    has crossed to the engine, its proxy being at 14, and a script has
    made the function at 15, which passes its call on to the proxy,
    guarded or not. *)
Definition world_forwarding (guarded : bool) : world :=
  let w := default (Reference.world0 true)
             (world_of (pushObject (engine_call 1) 2000 53 (Reference.world0 true))) in
  let d := m_context w in
  set_duk (DukContext [] (<[15 := new_object (KForward 14 guarded)]> (heap d)) 16
                      (global_object d) (global_stash d)
                      (this_binding d) (current_function d)) w.

(** A host reference that [pushObject] marshals without running any
    host or script code: null becomes [null], a handle of the pushing
    Context the script object it wraps. *)
Definition marshals_pure `{HostRuntime} (this : Z) (e : jni_env) (r : Z) (v : jsval)
  : Prop :=
  (r = 0 /\ v = VNull) \/
  (exists p, deref e r = Some (HJavaScriptObject this p) /\
             JavaValues_get (HJavaScriptObject this p) = false /\
             p <> 0 /\ v = VObject p).

(** The methods [set] binds, each with the function object and the
    descriptor the loop allocates for it: functions from [nx] and
    descriptors from [jn], one after the other. *)
Fixpoint method_triples (ms : list Z) (nx jn : Z) : list (Z * Z * Z) :=
  match ms with
  | [] => []
  | m :: rest => (m, nx, jn) :: method_triples rest (nx + 1) (jn + 1)
  end.

(** The property [set] stores for a bound method. *)
Definition method_entry (name : Z -> string) (t : Z * Z * Z) : propkey * jsval :=
  (KStr (name t.1.1), VObject t.1.2).

(** The JVM after [new JavaMethod] for each of [ms] in turn. *)
Fixpoint with_methods (ms : list Z) (e : jni_env) : jni_env :=
  match ms with
  | [] => e
  | m :: rest => with_methods rest (with_method m e)
  end.
(** ** Running the monad *)

Lemma bind_Ok {A B} (m : M A) (k : A -> M B) w a w' :
  m w = Ok a w' -> bind m k w = k a w'.
Proof. intros E. unfold bind. rewrite E. reflexivity. Qed.

Lemma stack_at_abs (pre : list jsval) x s :
  stack_at (Z.of_nat (length s)) (pre ++ x :: s) = Some x.
Proof.
  unfold stack_at.
  rewrite length_app. simpl length.
  destruct (Z.ltb_spec (Z.of_nat (length s)) 0) as [?|_]; [lia|].
  destruct (Z.ltb_spec (Z.of_nat (length s))
                       (Z.of_nat (length pre + S (length s)))) as [_|?]; [|lia].
  replace (Z.to_nat (Z.of_nat (length pre + S (length s)) - 1 - Z.of_nat (length s)))
    with (length pre + 0)%nat by lia.
  rewrite lookup_app_r by lia.
  replace (length pre + 0 - length pre)%nat with 0%nat by lia.
  reflexivity.
Qed.

Lemma stack_at_abs_cons v (pre : list jsval) x s :
  stack_at (Z.of_nat (length s)) (v :: pre ++ x :: s) = Some x.
Proof. exact (stack_at_abs (v :: pre) x s). Qed.

Lemma holder_ordinary (h : gmap Z hobject) p o :
  h !! p = Some o -> ordinary o -> holder h p = p.
Proof.
  intros Hp Ho. unfold holder. rewrite Hp.
  destruct o as [[] ? ?]; try reflexivity.
  exfalso. eapply Ho. reflexivity.
Qed.

Lemma ordinary_with_props f o : ordinary o -> ordinary (with_props f o).
Proof. intros Ho t b. apply Ho. Qed.

Lemma ordinary_plain ps fin : ordinary (HObject KPlain ps fin).
Proof. intros t b. discriminate. Qed.

Lemma lookup_store_prop_eq k v ps : lookup_prop k (store_prop k v ps) = Some v.
Proof.
  induction ps as [|[k' v'] ps IH]; unfold lookup_prop in *; simpl.
  - rewrite bool_decide_eq_true_2 by reflexivity. reflexivity.
  - destruct (decide (k' = k)) as [->|Hne]; simpl.
    + rewrite bool_decide_eq_true_2 by reflexivity. reflexivity.
    + rewrite bool_decide_eq_false_2 by exact Hne. exact IH.
Qed.

Lemma lookup_store_prop_ne k k' v ps :
  k <> k' -> lookup_prop k (store_prop k' v ps) = lookup_prop k ps.
Proof.
  intros Hne.
  induction ps as [|[k0 v0] ps IH]; unfold lookup_prop in *; simpl.
  - rewrite bool_decide_eq_false_2 by (intros E; apply Hne; symmetry; exact E).
    reflexivity.
  - destruct (decide (k0 = k')) as [->|Hk]; simpl.
    + rewrite !bool_decide_eq_false_2
        by (intros E; apply Hne; symmetry; exact E).
      reflexivity.
    + destruct (bool_decide (k0 = k)); [reflexivity | exact IH].
Qed.


(** *** The API on a world given by its parts *)

Ltac proj :=
  unfold with_stack, top_of, heap_of, set_duk, set_stack, set_heap, set_env;
  cbn [m_context env stack heap heap_next global_object global_stash
       this_binding current_function m_javaDuktape this_context
       objects refs jni_next pending released methods destroyed].

Section Runs.

Context `{HostRuntime}.
Variable engine : jsval -> jsval -> list jsval -> M jsval.
Variables (g st : Z) (tb cf : jsval) (jd tc : Z).

Local Abbreviation mk s h nx e := (World (DukContext s h nx g st tb cf) e jd tc).

Lemma run_push_object s h nx e :
  duk_push_object (mk s h nx e) =
  Ok (Z.of_nat (length s))
     (mk (VObject nx :: s) (<[nx := new_object KPlain]> h) (nx + 1) e).
Proof.
  unfold duk_push_object, bind, alloc, duk_push, top_index, top_of.
  cbn [m_context stack set_duk set_stack heap heap_next length].
  f_equal. lia.
Qed.

Lemma run_push_c_function f k s h nx e :
  duk_push_c_function f k (mk s h nx e) =
  Ok (Z.of_nat (length s))
     (mk (VObject nx :: s) (<[nx := new_object (KCFunction f k)]> h) (nx + 1) e).
Proof.
  unfold duk_push_c_function, bind, alloc, duk_push, top_index, top_of.
  cbn [m_context stack set_duk set_stack heap heap_next length].
  f_equal. lia.
Qed.

Lemma run_normalize_abs x s h nx e :
  duk_require_normalize_index (Z.of_nat (length s)) (mk (x :: s) h nx e) =
  Ok (Z.of_nat (length s)) (mk (x :: s) h nx e).
Proof.
  unfold duk_require_normalize_index. proj. cbn [length].
  destruct (Z.ltb_spec (Z.of_nat (length s)) 0) as [?|_]; [lia|].
  destruct (Z.ltb_spec (Z.of_nat (length s)) (Z.of_nat (S (length s)))) as [_|?];
    [reflexivity | lia].
Qed.

Lemma run_put_prop_abs name v (pre : list jsval) p o s h nx e :
  h !! p = Some o -> ordinary o ->
  put_prop_key (Z.of_nat (length s)) (KStr name)
               (mk (v :: pre ++ VObject p :: s) h nx e) =
  Ok tt (mk (pre ++ VObject p :: s)
            (<[p := with_props (store_prop (KStr name) v) o]> h) nx e).
Proof.
  intros Hp Ho. unfold put_prop_key, bind, property_name, put_prop_name. proj.
  rewrite stack_at_abs_cons. cbn [base_of].
  rewrite (holder_ordinary _ _ _ Hp Ho), Hp. reflexivity.
Qed.

Lemma run_put_prop_name_m2 name v p o s h nx e :
  h !! p = Some o -> ordinary o ->
  put_prop_name (-2) name (mk (v :: VObject p :: s) h nx e) =
  Ok tt (mk (VObject p :: s) (<[p := with_props (store_prop (KStr name) v) o]> h) nx e).
Proof.
  intros Hp Ho. unfold put_prop_name. proj.
  change (stack_at (-2) (v :: VObject p :: s)) with (Some (VObject p)).
  cbn [base_of].
  rewrite (holder_ordinary _ _ _ Hp Ho), Hp. reflexivity.
Qed.

Lemma run_put_prop_m2 name v p o s h nx e :
  h !! p = Some o -> ordinary o ->
  put_prop_key (-2) (KStr name) (mk (v :: VObject p :: s) h nx e) =
  Ok tt (mk (VObject p :: s) (<[p := with_props (store_prop (KStr name) v) o]> h) nx e).
Proof.
  intros Hp Ho. unfold put_prop_key, bind, property_name.
  apply run_put_prop_name_m2; assumption.
Qed.

Lemma run_set_finalizer_abs v (pre : list jsval) p o s h nx e :
  h !! p = Some o ->
  duk_set_finalizer (Z.of_nat (length s)) (mk (v :: pre ++ VObject p :: s) h nx e) =
  Ok tt (mk (pre ++ VObject p :: s) (<[p := HObject (kind o) (props o) v]> h) nx e).
Proof.
  intros Hp. unfold duk_set_finalizer. proj.
  rewrite stack_at_abs_cons, Hp. reflexivity.
Qed.

Lemma getprop_name_own w p o name :
  heap_of w !! p = Some o -> ordinary o ->
  getprop_name engine p name w = Ok (read_prop (heap_of w) p (KStr name)) w.
Proof.
  intros Hp Ho. unfold getprop_name. rewrite Hp.
  destruct o as [[] ? ?]; try reflexivity.
  exfalso. eapply Ho. reflexivity.
Qed.

Lemma getprop_own w p o name :
  heap_of w !! p = Some o -> ordinary o ->
  getprop engine (Some (VObject p)) (KStr name) w =
  Ok (read_prop (heap_of w) p (KStr name)) w.
Proof.
  intros Hp Ho. unfold getprop, bind, property_name. cbn [base_of].
  eapply getprop_name_own; eassumption.
Qed.

(** A property the object has of its own is the one read. *)
Lemma read_prop_own h p o k v :
  h !! p = Some o -> lookup_prop k (props o) = Some v ->
  read_prop h p k = (true, v).
Proof.
  intros Hp Hl. unfold read_prop, own_prop. rewrite Hp.
  cbn [mbind option_bind]. rewrite Hl. reflexivity.
Qed.

(** A name the object neither has nor inherits reads [undefined]. *)
Lemma read_prop_missing h p o name :
  h !! p = Some o -> lookup_prop (KStr name) (props o) = None ->
  inherited_property (kind o) name = None ->
  read_prop h p (KStr name) = (false, VUndefined).
Proof.
  intros Hp Hl Hi. unfold read_prop, own_prop. rewrite Hp.
  cbn [mbind option_bind]. rewrite Hl, Hi. reflexivity.
Qed.

(** A name of the bridge is read from the object itself. *)
Lemma read_prop_bridge h p name :
  bridge_name name = true ->
  read_prop h p (KStr name) =
  match own_prop h p (KStr name) with
  | Some v => (true, v)
  | None => (false, VUndefined)
  end.
Proof.
  intros Hb. unfold read_prop.
  destruct (own_prop h p (KStr name)); [reflexivity|].
  destruct (h !! p) as [o|]; [|reflexivity].
  rewrite (inherited_bridge_name _ _ Hb). reflexivity.
Qed.

Lemma has_property_bridge h p o name :
  bridge_name name = true -> h !! p = Some o ->
  has_property h p name = bool_decide (is_Some (lookup_prop (KStr name) (props o))).
Proof.
  intros Hb Hp. unfold has_property. rewrite Hp.
  rewrite (inherited_bridge_name _ _ Hb).
  rewrite (bool_decide_eq_false_2 (is_Some None)) by (intros [? ?]; discriminate).
  apply orb_false_r.
Qed.

Lemma run_get_prop_string_own idx key p o s h nx e :
  stack_at idx s = Some (VObject p) ->
  h !! p = Some o -> ordinary o ->
  duk_get_prop_string engine idx key (mk s h nx e) =
  Ok (fst (read_prop h p (KStr key))) (mk (snd (read_prop h p (KStr key)) :: s) h nx e).
Proof.
  intros Hs Hp Ho. unfold duk_get_prop_string.
  erewrite bind_Ok by (unfold peek; proj; rewrite Hs; reflexivity).
  erewrite bind_Ok by (eapply getprop_own; [exact Hp | exact Ho]).
  reflexivity.
Qed.

Lemma run_get_global_string key go s h nx e :
  h !! g = Some go -> ordinary go ->
  duk_get_global_string engine key (mk s h nx e) =
  Ok (fst (read_prop h g (KStr key))) (mk (snd (read_prop h g (KStr key)) :: s) h nx e).
Proof.
  intros Hg Ho. unfold duk_get_global_string.
  erewrite bind_Ok by (eapply getprop_own; [exact Hg | exact Ho]).
  reflexivity.
Qed.

Lemma run_NewGlobalRef obj o s h nx e :
  referent e obj = Some o ->
  NewGlobalRef obj (mk s h nx e) = Ok (jni_next e) (mk s h nx (with_global_ref o e)).
Proof. intros Hr. unfold NewGlobalRef. proj. rewrite Hr. reflexivity. Qed.

End Runs.

Ltac solve_lookup :=
  proj;
  repeat first [ rewrite lookup_insert_eq | rewrite lookup_insert_ne by lia ];
  try reflexivity; try eassumption.

Ltac solve_ordinary :=
  first [ eassumption
        | intros ? ?; cbn [kind with_props new_object]; discriminate ].

Section PushProxy.

Context `{HostRuntime}.
Variables (g st : Z) (tb cf : jsval) (jd tc : Z).

Local Abbreviation mk s h nx e := (World (DukContext s h nx g st tb cf) e jd tc).

Lemma run_pcall_factory n f b ps fin cfg s h nx e :
  h !! f = Some (HObject (KMakeProxy b) ps fin) ->
  duk_pcall (engine_call (S n)) 1 (mk (VObject cfg :: VObject f :: s) h nx e) =
  Ok DUK_EXEC_SUCCESS
     (mk (VObject nx :: s) (<[nx := new_object (KProxy cfg b)]> h) (nx + 1) e).
Proof.
  intros Hf. unfold duk_pcall. proj.
  change ((VObject cfg :: VObject f :: s) !! 1%nat) with (Some (VObject f)).
  unfold protected.
  cbn [take rev app drop engine_call].
  unfold engine_call_step. proj. rewrite Hf.
  reflexivity.
Qed.

Lemma run_pushObject_proxy n object o b s h nx e :
  has_makeProxy (DukContext s h nx g st tb cf) b ->
  heap_fresh (DukContext s h nx g st tb cf) ->
  referent e object = Some o ->
  pushObject_proxy (engine_call (S n)) object (mk s h nx e) =
  Ok tt (mk (VObject (nx + 4) :: s) (proxy_heap h nx (jni_next e) b) (nx + 5)
            (with_global_ref o e)).
Proof.
  intros (go & f & ps & fin & Hg & Hgo & Hmp & Hf) Hfresh Hobj.
  cbn [heap global_object] in Hg, Hf.
  unfold heap_fresh in Hfresh. cbn [heap heap_next] in Hfresh.
  assert (Hfn : f < nx).
  { destruct (Z.lt_ge_cases f nx) as [?|Hge]; [assumption|].
    rewrite (Hfresh f Hge) in Hf. discriminate. }
  unfold pushObject_proxy.
  erewrite bind_Ok by (eapply run_get_global_string; eassumption).
  rewrite (read_prop_own _ _ _ _ _ Hg Hmp).
  cbn [snd].
  erewrite bind_Ok by apply run_push_object.
  erewrite bind_Ok by apply run_normalize_abs.
  erewrite bind_Ok by (apply run_NewGlobalRef; eassumption).
  erewrite bind_Ok by reflexivity.
  erewrite bind_Ok
    by (apply run_put_prop_abs with (pre := []); [solve_lookup | solve_ordinary]).
  erewrite bind_Ok by apply run_push_c_function.
  erewrite bind_Ok by (apply run_set_finalizer_abs with (pre := []); solve_lookup).
  erewrite bind_Ok by apply run_push_c_function.
  erewrite bind_Ok
    by (apply run_put_prop_abs with (pre := []); [solve_lookup | solve_ordinary]).
  erewrite bind_Ok by apply run_push_c_function.
  erewrite bind_Ok
    by (apply run_put_prop_abs with (pre := []); [solve_lookup | solve_ordinary]).
  erewrite bind_Ok by (eapply run_pcall_factory; solve_lookup).
  rewrite bool_decide_eq_false_2 by (intros Hne; apply Hne; reflexivity).
  unfold ret. proj.
  replace (nx + 1 + 1 + 1 + 1 + 1) with (nx + 5) by lia.
  replace (nx + 1 + 1 + 1 + 1) with (nx + 4) by lia.
  replace (nx + 1 + 1 + 1) with (nx + 3) by lia.
  replace (nx + 1 + 1) with (nx + 2) by lia.
  do 3 f_equal.
  unfold proxy_heap, proxy_config.
  apply map_eq. intros k.
  rewrite !lookup_insert.
  repeat case_decide; subst; try lia; try reflexivity.
Qed.

End PushProxy.

Section PopProxy.

Context `{HostRuntime}.
Variables (g st : Z) (jd tc : Z).

Local Abbreviation mk tb cf s h nx e := (World (DukContext s h nx g st tb cf) e jd tc).

(** The get trap asked for the reserved key answers with the hidden
    reference of its target. *)
Lemma run_duktape_get_shortcut engine tb cf recv t ot r s h nx e :
  h !! t = Some ot -> ordinary ot ->
  lookup_prop (KStr JAVA_THIS_PROP_NAME) (props ot) = Some (VPointer r) ->
  r <> 0 ->
  __duktape_get engine (mk tb cf (recv :: VString "__java_this" :: VObject t :: s) h nx e) =
  Ok 1 (mk tb cf (VPointer r :: VObject t :: s) h nx e).
Proof.
  intros Ht Hot Hr Hr0. unfold __duktape_get.
  erewrite (bind_Ok _ _ _ (Some "__java_this", r)); cycle 1.
  { unfold __duktape_get_operands.
    erewrite bind_Ok by reflexivity.
    erewrite bind_Ok by reflexivity.
    erewrite bind_Ok by reflexivity.
    erewrite bind_Ok
      by (eapply run_get_prop_string_own; [reflexivity | solve_lookup | exact Hot]).
    proj. rewrite (read_prop_own _ _ _ _ _ Ht Hr).
    cbn [snd fst].
    erewrite bind_Ok by reflexivity.
    erewrite bind_Ok by reflexivity.
    reflexivity. }
  cbn [snd fst].
  rewrite bool_decide_eq_false_2 by exact Hr0.
  reflexivity.
Qed.

Lemma run_getprop_proxy_shortcut n tb cf q t b ot fg ps fin r s h nx e :
  h !! q = Some (new_object (KProxy t b)) ->
  h !! t = Some ot -> ordinary ot ->
  lookup_prop (KStr JAVA_THIS_PROP_NAME) (props ot) = Some (VPointer r) ->
  lookup_prop (KStr "__duktape_get") (props ot) = Some (VObject fg) ->
  h !! fg = Some (HObject (KCFunction fn_duktape_get 3) ps fin) ->
  r <> 0 ->
  getprop (engine_call (S n)) (Some (VObject q)) (KStr "__java_this")
          (mk tb cf s h nx e) =
  Ok (true, VPointer r) (mk tb cf s h nx e).
Proof.
  intros Hq Ht Hot Hr Hg Hfg Hr0.
  unfold getprop, bind, property_name, getprop_name. cbn [base_of]. proj. rewrite Hq.
  cbn [new_object is_hidden]. 
  change (bool_decide ("_"%char = xff)) with false. cbv iota.
  rewrite (read_prop_own _ _ _ _ _ Ht Hg).
  cbn [snd].
  erewrite bind_Ok; [reflexivity|].
  cbn [engine_call]. unfold engine_call_step. proj. rewrite Hfg.
  unfold call_cfunction, adjust_arguments.
  change (3 <? 0) with false. cbv iota.
  change (Z.to_nat 3) with 3%nat.
  cbn [app replicate take rev run_cfunction]. proj.
  erewrite (run_duktape_get_shortcut _ _ _ _ _ _ _ [] _ _ _ Ht Hot Hr Hr0).
  reflexivity.
Qed.

Lemma run_popObject_proxy n tb cf q t ot fg ps fin r o s h nx e :
  h !! q = Some (new_object (KProxy t true)) ->
  h !! t = Some ot -> ordinary ot ->
  lookup_prop (KStr JAVA_THIS_PROP_NAME) (props ot) = Some (VPointer r) ->
  lookup_prop (KStr "__duktape_get") (props ot) = Some (VObject fg) ->
  h !! fg = Some (HObject (KCFunction fn_duktape_get 3) ps fin) ->
  referent e r = Some o ->
  popObject (engine_call (S n)) (mk tb cf (VObject q :: s) h nx e) =
  Ok r (mk tb cf s h nx e).
Proof.
  intros Hq Ht Hot Hr Hg Hfg Href.
  assert (Hr0 : r <> 0).
  { intros ->. unfold referent in Href. simpl in Href. discriminate. }
  unfold popObject.
  erewrite (bind_Ok _ _ _ false) by reflexivity. cbv iota.
  erewrite (bind_Ok _ _ _ false)
    by (unfold duk_is_array; proj;
        change (stack_at (-1) (VObject q :: s)) with (Some (VObject q));
        cbv iota; rewrite Hq; reflexivity).
  cbv iota.
  erewrite (bind_Ok _ _ _ DUK_TYPE_OBJECT) by reflexivity.
  rewrite bool_decide_eq_true_2 by reflexivity.
  unfold popObject_object.
  erewrite bind_Ok; cycle 1.
  { unfold popObject_cached.
    erewrite (bind_Ok _ _ _ true)
      by (unfold duk_has_prop_string; proj;
          change (stack_at (-1) (VObject q :: s)) with (Some (VObject q));
          cbv iota; rewrite Hq; reflexivity).
    cbv iota.
    erewrite bind_Ok; cycle 1.
    { unfold duk_get_prop_string.
      erewrite bind_Ok by reflexivity.
      erewrite bind_Ok
        by (eapply run_getprop_proxy_shortcut; eassumption).
      reflexivity. }
    erewrite (bind_Ok _ _ _ r) by reflexivity.
    erewrite bind_Ok by reflexivity.
    rewrite bool_decide_eq_true_2 by exact Hr0.
    erewrite (bind_Ok _ _ _ false); cycle 1.
    { unfold IsSameObject. proj. rewrite Href.
      rewrite bool_decide_eq_false_2 by (unfold referent; simpl; discriminate).
      reflexivity. }
    reflexivity. }
  rewrite bool_decide_eq_true_2 by exact Hr0.
  reflexivity.
Qed.

End PopProxy.

(** ** [pushObject] *)

Section PushObject.

Context `{HostRuntime}.

Lemma deref_referent e r cls : deref e r = Some cls -> exists o, referent e r = Some o.
Proof.
  unfold deref. destruct (referent e r) as [o|]; [eauto | discriminate].
Qed.

Lemma deref_nonnull e r cls : deref e r = Some cls -> r <> 0.
Proof.
  intros Hd ->. unfold deref, referent in Hd. simpl in Hd. discriminate.
Qed.

(** Past the null test and the native types, [pushObject] decides on
    the class alone. *)
Lemma pushObject_not_native engine this X cls w :
  deref (env w) X = Some cls ->
  JavaValues_get cls = false ->
  pushObject engine this X w =
    if is_JavaScriptObject cls then
      if bool_decide (contextField cls = this)
      then duk_push_heapptr (pointerField cls) w
      else pushObject_proxy engine X w
    else if negb (is_DuktapeObject cls) then
      bind (fun w => NewObject (HJavaObject (default 0 (referent (env w) X))) w)
           (pushObject_proxy engine) w
    else pushObject_proxy engine X w.
Proof.
  intros Hd Hn. unfold pushObject.
  rewrite bool_decide_eq_false_2 by (eapply deref_nonnull; eassumption).
  assert (Hc : GetObjectClass X w = Ok cls w).
  { unfold GetObjectClass. rewrite Hd. reflexivity. }
  rewrite (bind_Ok _ _ _ _ _ Hc). rewrite Hn.
  rewrite (bind_Ok _ _ _ _ _ Hc).
  destruct (is_JavaScriptObject cls);
    [destruct (bool_decide (contextField cls = this)) | destruct (is_DuktapeObject cls)];
    reflexivity.
Qed.

Lemma pushObject_as_is engine this X cls w :
  deref (env w) X = Some cls ->
  JavaValues_get cls = false ->
  proxied_as_is this cls ->
  pushObject engine this X w = pushObject_proxy engine X w.
Proof.
  intros Hd Hn [Hdo Hjs].
  rewrite (pushObject_not_native _ _ _ _ _ Hd Hn). rewrite Hdo.
  destruct (is_JavaScriptObject cls); simpl.
  - destruct Hjs as [?|Hne]; [discriminate|].
    rewrite bool_decide_eq_false_2 by exact Hne. reflexivity.
  - reflexivity.
Qed.

(** The factory and the freshness of the heap survive a crossing. *)
Lemma has_makeProxy_proxy_heap s s' h nx g st tb cf r b :
  has_makeProxy (DukContext s h nx g st tb cf) b ->
  heap_fresh (DukContext s h nx g st tb cf) ->
  has_makeProxy (DukContext s' (proxy_heap h nx r b) (nx + 5) g st tb cf) b.
Proof.
  intros (go & f & ps & fin & Hg & Hgo & Hmp & Hf) Hfresh.
  unfold heap_fresh in Hfresh. cbn [heap heap_next global_object] in *.
  assert (Hlt : forall k o, h !! k = Some o -> k < nx).
  { intros k o Hk. destruct (Z.lt_ge_cases k nx) as [?|Hge]; [assumption|].
    rewrite (Hfresh k Hge) in Hk. discriminate. }
  pose proof (Hlt _ _ Hg). pose proof (Hlt _ _ Hf).
  exists go, f, ps, fin. cbn [heap global_object]. unfold proxy_heap.
  repeat split; try assumption; solve_lookup.
Qed.

Lemma heap_fresh_proxy_heap s s' h nx g st tb cf r b :
  heap_fresh (DukContext s h nx g st tb cf) ->
  heap_fresh (DukContext s' (proxy_heap h nx r b) (nx + 5) g st tb cf).
Proof.
  unfold heap_fresh. cbn [heap heap_next]. intros Hfresh k Hk.
  unfold proxy_heap. rewrite !lookup_insert_ne by lia. apply Hfresh. lia.
Qed.

Lemma proxy_heap_proxy h nx r b :
  proxy_heap h nx r b !! (nx + 4) = Some (new_object (KProxy nx b)).
Proof. unfold proxy_heap. solve_lookup. Qed.

Lemma proxy_heap_config h nx r b :
  proxy_heap h nx r b !! nx = Some (proxy_config r nx).
Proof. unfold proxy_heap. solve_lookup. Qed.

Lemma proxy_heap_get h nx r b :
  proxy_heap h nx r b !! (nx + 2) = Some (new_object (KCFunction fn_duktape_get 3)).
Proof. unfold proxy_heap. solve_lookup. Qed.

Lemma proxy_heap_below h nx r b k :
  k < nx -> proxy_heap h nx r b !! k = h !! k.
Proof. intros Hk. unfold proxy_heap. solve_lookup. Qed.

Lemma referent_with_global_ref_new o e :
  jni_next e <> 0 -> referent (with_global_ref o e) (jni_next e) = Some o.
Proof.
  intros Hn. unfold referent, with_global_ref. cbn [refs].
  rewrite bool_decide_eq_false_2 by exact Hn.
  rewrite lookup_insert_eq. reflexivity.
Qed.

Lemma referent_with_global_ref_old o e X :
  referent e X = Some o -> referent (with_global_ref o e) X = Some o.
Proof.
  unfold referent, with_global_ref. cbn [refs].
  destruct (bool_decide (X = 0)); [discriminate|].
  intros Hx. destruct (decide (jni_next e = X)) as [->|Hne].
  - rewrite lookup_insert_eq. reflexivity.
  - rewrite lookup_insert_ne by exact Hne. exact Hx.
Qed.

Lemma deref_with_global_ref o e X cls :
  referent e X = Some o -> deref e X = Some cls ->
  deref (with_global_ref o e) X = Some cls.
Proof.
  intros Hr Hd. unfold deref in *.
  rewrite (referent_with_global_ref_old _ _ _ Hr). rewrite Hr in Hd. exact Hd.
Qed.

(** C10: pushing a null host reference pushes the engine's [null]: one
    slot, heap and JVM untouched, no error; a null element of the
    argument array of [call], [callProperty] or [setGlobalProperty] is
    marshalled the same way. *)
Theorem pushObject_null engine (this : Z) (w : world) :
  pushObject engine this 0 w = Ok tt (with_stack (VNull :: top_of w) w) /\
  push_arguments engine this (Some [0]) w = Ok 1%nat (with_stack (VNull :: top_of w) w).
Proof. split; reflexivity. Qed.

(** C3: a host handle that wraps an engine-heap pointer is pushed as
    that very pointer by the Context that created it, heap and JVM
    untouched; pushed into any other Context it becomes the hidden
    reference of a configuration object wrapped in a proxy that did not
    exist before. *)
Theorem pushObject_handle_context_scoped (n : nat) (this X c p : Z) (b : bool) (w : world) :
  deref (env w) X = Some (HJavaScriptObject c p) ->
  JavaValues_get (HJavaScriptObject c p) = false ->
  p <> 0 ->
  has_makeProxy (m_context w) b ->
  heap_fresh (m_context w) ->
  let nx := heap_next (m_context w) in
  (c = this ->
     pushObject (engine_call (S n)) this X w =
       Ok tt (with_stack (VObject p :: top_of w) w))
  /\
  (c <> this ->
     exists o w',
       referent (env w) X = Some o /\
       pushObject (engine_call (S n)) this X w = Ok tt w' /\
       top_of w' = VObject (nx + 4) :: top_of w /\
       heap_of w !! (nx + 4) = None /\
       heap_of w' !! (nx + 4) = Some (new_object (KProxy nx b)) /\
       heap_of w' !! nx = Some (proxy_config (jni_next (env w)) nx) /\
       refs (env w') !! jni_next (env w) = Some (RefCell GlobalRef (Some o))).
Proof.
  intros Hd Hn Hp Hmp Hfresh nx. split.
  - intros ->.
    rewrite (pushObject_not_native _ _ _ _ _ Hd Hn). cbn [is_JavaScriptObject contextField].
    rewrite bool_decide_eq_true_2 by reflexivity.
    unfold duk_push_heapptr. cbn [pointerField].
    rewrite bool_decide_eq_false_2 by exact Hp. reflexivity.
  - intros Hne.
    destruct (deref_referent _ _ _ Hd) as [o Ho].
    rewrite (pushObject_as_is _ this _ _ _ Hd Hn)
      by (split; [reflexivity | right; exact Hne]).
    destruct w as [[s h nx0 g st tb cf] e jd tc]. subst nx. proj.
    cbn [env m_context heap_next] in *.
    exists o. eexists. split; [exact Ho|].
    split; [apply run_pushObject_proxy; eassumption|]. proj.
    split; [reflexivity|].
    split; [apply Hfresh; cbn [heap_next]; lia|].
    split; [apply proxy_heap_proxy|].
    split; [apply proxy_heap_config|].
    unfold with_global_ref. cbn [refs]. apply lookup_insert_eq.
Qed.

(** C1, as the code has it: a handle of the pushing Context crosses as
    the same engine-heap object every time; a host object that is
    proxied gets a new configuration object and a new proxy at every
    crossing, so two crossings leave two different proxies. *)
Theorem pushObject_twice (n : nat) (this X : Z) (cls : hostobj) (b : bool) (w : world) :
  deref (env w) X = Some cls ->
  JavaValues_get cls = false ->
  is_DuktapeObject cls = true ->
  has_makeProxy (m_context w) b ->
  heap_fresh (m_context w) ->
  let nx := heap_next (m_context w) in
  let twice := bind (pushObject (engine_call (S n)) this X)
                    (fun _ => pushObject (engine_call (S n)) this X) in
  (forall p, cls = HJavaScriptObject this p -> p <> 0 ->
     twice w = Ok tt (with_stack (VObject p :: VObject p :: top_of w) w))
  /\
  ((is_JavaScriptObject cls = false \/ contextField cls <> this) ->
     exists w2,
       twice w = Ok tt w2 /\
       top_of w2 = VObject (nx + 9) :: VObject (nx + 4) :: top_of w /\
       VObject (nx + 9) <> VObject (nx + 4) /\
       heap_of w2 !! (nx + 4) = Some (new_object (KProxy nx b)) /\
       heap_of w2 !! (nx + 9) = Some (new_object (KProxy (nx + 5) b))).
Proof.
  intros Hd Hn Hdo Hmp Hfresh nx twice. subst twice. split.
  - intros p -> Hp.
    assert (Hpush : forall w', deref (env w') X = Some (HJavaScriptObject this p) ->
              pushObject (engine_call (S n)) this X w' =
              Ok tt (with_stack (VObject p :: top_of w') w')).
    { intros w' Hd'. rewrite (pushObject_not_native _ _ _ _ _ Hd' Hn).
      cbn [is_JavaScriptObject contextField].
      rewrite bool_decide_eq_true_2 by reflexivity.
      unfold duk_push_heapptr. cbn [pointerField].
      rewrite bool_decide_eq_false_2 by exact Hp. reflexivity. }
    rewrite (bind_Ok _ _ _ _ _ (Hpush w Hd)).
    rewrite Hpush by exact Hd. reflexivity.
  - intros Hjs.
    destruct (deref_referent _ _ _ Hd) as [o Ho].
    destruct w as [[s h nx0 g st tb cf] e jd tc]. subst nx. proj.
    cbn [env m_context heap_next] in *.
    eexists. split.
    + erewrite bind_Ok; cycle 1.
      { erewrite pushObject_as_is;
          [apply run_pushObject_proxy; eassumption
          | exact Hd | exact Hn | split; assumption]. }
      erewrite pushObject_as_is;
        [ apply run_pushObject_proxy
        | cbn [env]; eapply deref_with_global_ref; eassumption
        | exact Hn | split; assumption ].
      * eapply has_makeProxy_proxy_heap; eassumption.
      * eapply heap_fresh_proxy_heap; eassumption.
      * eapply referent_with_global_ref_old; eassumption.
    + proj. replace (nx0 + 9) with (nx0 + 5 + 4) by lia.
      split; [reflexivity|].
      split; [intros E; injection E; lia|].
      split; [|apply proxy_heap_proxy].
      rewrite proxy_heap_below by lia. apply proxy_heap_proxy.
Qed.

(** C2, as the code has it: a host object that is proxied as it is, in
    a Context whose proxies answer for the reserved key, comes back from
    an immediate pop as a reference to the same host object, and the
    stack is as before. *)
Theorem push_pop_roundtrip (n : nat) (this X : Z) (cls : hostobj) (w : world) :
  deref (env w) X = Some cls ->
  JavaValues_get cls = false ->
  proxied_as_is this cls ->
  has_makeProxy (m_context w) true ->
  heap_fresh (m_context w) ->
  jni_next (env w) <> 0 ->
  exists r w2,
    bind (pushObject (engine_call (S n)) this X)
         (fun _ => popObject (engine_call (S n))) w = Ok r w2 /\
    is_Some (referent (env w2) X) /\
    referent (env w2) r = referent (env w2) X /\
    top_of w2 = top_of w.
Proof.
  intros Hd Hn Has Hmp Hfresh Hnext.
  destruct (deref_referent _ _ _ Hd) as [o Ho].
  destruct w as [[s h nx g st tb cf] e jd tc]. proj. cbn [env m_context heap_next] in *.
  exists (jni_next e). eexists. split.
  - erewrite bind_Ok; cycle 1.
    { erewrite pushObject_as_is;
        [apply run_pushObject_proxy; eassumption
        | exact Hd | exact Hn | exact Has]. }
    eapply run_popObject_proxy with (t := nx) (fg := nx + 2).
    + apply proxy_heap_proxy.
    + apply proxy_heap_config.
    + apply ordinary_plain.
    + reflexivity.
    + reflexivity.
    + apply proxy_heap_get.
    + apply referent_with_global_ref_new. exact Hnext.
  - proj.
    rewrite (referent_with_global_ref_old _ _ _ Ho).
    rewrite (referent_with_global_ref_new _ _ Hnext).
    split; [eexists; reflexivity|]. split; reflexivity.
Qed.

End PushObject.

(** The reference Context satisfies the standing assumptions. *)
Lemma reference_has_makeProxy b s :
  has_makeProxy (set_stack s (Reference.duk0 b)) b.
Proof.
  exists (HObject KPlain [(KStr "__makeProxy", VObject 3)] VUndefined), 3, [], VUndefined.
  split; [reflexivity|]. split; [apply ordinary_plain|]. split; reflexivity.
Defined.

Lemma reference_heap_fresh b s : heap_fresh (set_stack s (Reference.duk0 b)).
Proof.
  intros k Hk. cbn [heap heap_next set_stack Reference.duk0] in *.
  unfold Reference.heap0. rewrite !lookup_insert_ne by lia. apply lookup_empty.
Defined.

Lemma pushObject_handle_context_scoped_witness :
  pushObject (engine_call 1) 2000 55 (Reference.world0 true) =
    Ok tt (with_stack [VObject 4] (Reference.world0 true)) /\
  exists w',
    pushObject (engine_call 1) 2000 56 (Reference.world0 true) = Ok tt w' /\
    top_of w' = [VObject 14] /\
    heap_of (Reference.world0 true) !! 14 = None /\
    heap_of w' !! 14 = Some (new_object (KProxy 10 true)).
Proof.
  split.
  - apply (pushObject_handle_context_scoped 0 2000 55 2000 4 true (Reference.world0 true));
      [ reflexivity | reflexivity | lia
      | apply (reference_has_makeProxy true []) | apply (reference_heap_fresh true [])
      | reflexivity ].
  - destruct (pushObject_handle_context_scoped 0 2000 56 3000 4 true (Reference.world0 true))
      as [_ Hother];
      [ reflexivity | reflexivity | lia
      | apply (reference_has_makeProxy true []) | apply (reference_heap_fresh true []) | ].
    destruct Hother as (o & w' & _ & Hrun & Htop & Hnew & Hproxy & _); [lia|].
    exists w'. repeat split; assumption.
Defined.

Lemma proxy_reuse_counterexample : ~ proxy_reuse_claim.
Proof.
  intros claim.
  pose (w := Reference.world0 true).
  pose (run1 := pushObject (engine_call 1) 2000 52 w).
  pose (w1 := default w (world_of run1)).
  pose (run2 := pushObject (engine_call 1) 2000 52 w1).
  pose (w2 := default w (world_of run2)).
  assert (E : VObject 14 = VObject 19);
    [| discriminate E].
  apply (claim Reference.host 1%nat 2000 52 w w1 w2); vm_compute; reflexivity.
Qed.

Lemma pushObject_twice_witness :
  exists w2,
    bind (pushObject (engine_call 1) 2000 52)
         (fun _ => pushObject (engine_call 1) 2000 52) (Reference.world0 true) = Ok tt w2 /\
    top_of w2 = [VObject 19; VObject 14].
Proof.
  destruct (pushObject_twice 0 2000 52 (HDuktapeObject 0) true (Reference.world0 true))
    as [_ Hproxied];
    [ reflexivity | reflexivity | reflexivity
    | apply (reference_has_makeProxy true []) | apply (reference_heap_fresh true []) | ].
  destruct Hproxied as (w2 & Hrun & Htop & _); [left; reflexivity|].
  exists w2. split; assumption.
Defined.

Lemma identity_roundtrip_counterexample : ~ identity_roundtrip_claim.
Proof.
  intros claim.
  pose (w := Reference.world0 true).
  pose (run1 := pushObject (engine_call 1) 2000 51 w).
  pose (w1 := default w (world_of run1)).
  pose (run2 := popObject (engine_call 1) w1).
  pose (w2 := default w (world_of run2)).
  assert (E : referent (env w2) 202 = referent (env w2) 51).
  { apply (claim Reference.host 1%nat 2000 51 202 w w1 w2).
    - exists 101. reflexivity.
    - vm_compute. reflexivity.
    - vm_compute. reflexivity. }
  vm_compute in E. discriminate E.
Qed.

Lemma push_pop_roundtrip_witness :
  exists r w2,
    bind (pushObject (engine_call 1) 2000 52)
         (fun _ => popObject (engine_call 1)) (Reference.world0 true) = Ok r w2 /\
    referent (env w2) r = referent (env w2) 52 /\
    top_of w2 = [].
Proof.
  destruct (push_pop_roundtrip 0 2000 52 (HDuktapeObject 0) (Reference.world0 true))
    as (r & w2 & Hrun & _ & Hsame & Htop);
    [ reflexivity | reflexivity | split; [reflexivity | left; reflexivity]
    | apply (reference_has_makeProxy true []) | apply (reference_heap_fresh true [])
    | discriminate | ].
  exists r, w2. repeat split; assumption.
Defined.

(** ** [popObject] *)

Section PopObject.

Context `{HostRuntime}.
Variable engine : jsval -> jsval -> list jsval -> M jsval.

(** On an object that is not an array, [popObject] is its
    generic-object branch. *)
Lemma popObject_on_object (w : world) (p : Z) (rest : list jsval) :
  top_of w = VObject p :: rest ->
  is_array_object (heap_of w) (VObject p) = false ->
  popObject engine w = popObject_object engine w.
Proof.
  intros Htop Harr.
  unfold popObject, bind, duk_check_type_mask, duk_is_array, duk_get_type, bind, ret.
  rewrite Htop. simpl. rewrite Htop. simpl.
  unfold is_array_object in Harr.
  destruct (heap_of w !! p) as [[[] ? ?]|]; simpl; rewrite ?Htop; try reflexivity.
  discriminate Harr.
Qed.

(** C7: [popObject] tests the value on top of the stack for a scalar
    type first, for an array second and for an object third; a value of
    any other type is popped, one slot, and the result is null with the
    heap and the JVM, its pending exception included, untouched. *)
Theorem popObject_classification (w : world) (v : jsval) (rest : list jsval) :
  top_of w = v :: rest ->
  popObject engine w =
    if is_scalar v then JavaType_pop w
    else if is_array_object (heap_of w) v then JavaType_popArray w
    else if is_object v then popObject_object engine w
    else Ok 0 (with_stack rest w).
Proof.
  intros Htop.
  unfold popObject, bind, duk_check_type_mask, duk_is_array, duk_get_type, bind, ret.
  destruct v as [| |b|n|s|p|p|p|p]; simpl;
    repeat (rewrite ?Htop; simpl); try reflexivity;
    try (unfold duk_pop, duk_pop_n, with_stack, put_stack; rewrite Htop; reflexivity).
  unfold heap_of.
  destruct (heap (m_context w) !! p) as [[[] ? ?]|]; simpl; rewrite ?Htop; reflexivity.
Qed.

End PopObject.

Lemma popObject_classification_witness :
  popObject (engine_call 1) (with_stack [VUndefined] (Reference.world0 true)) =
  Ok 0 (with_stack [] (with_stack [VUndefined] (Reference.world0 true))).
Proof.
  apply (popObject_classification (engine_call 1)
           (with_stack [VUndefined] (Reference.world0 true)) VUndefined []).
  reflexivity.
Defined.

Section PopHandle.

Context `{HostRuntime}.
Variable engine : jsval -> jsval -> list jsval -> M jsval.
Variables (g st : Z) (tb cf : jsval) (jd tc : Z).

Local Abbreviation mk s h nx e := (World (DukContext s h nx g st tb cf) e jd tc).

Lemma run_has_prop key p o s h nx e :
  h !! p = Some o -> ordinary o ->
  duk_has_prop_string (-1) key (mk (VObject p :: s) h nx e) =
  Ok (has_property h p key) (mk (VObject p :: s) h nx e).
Proof.
  intros Hp Ho. unfold duk_has_prop_string. proj.
  change (stack_at (-1) (VObject p :: s)) with (Some (VObject p)). cbv iota.
  rewrite Hp. destruct o as [[] ? ?]; try reflexivity.
  exfalso. eapply Ho. reflexivity.
Qed.

(** For a name of the bridge the answer is that of the object itself. *)
Lemma run_has_prop_own key p o s h nx e :
  bridge_name key = true ->
  h !! p = Some o -> ordinary o ->
  duk_has_prop_string (-1) key (mk (VObject p :: s) h nx e) =
  Ok (bool_decide (is_Some (lookup_prop (KStr key) (props o)))) (mk (VObject p :: s) h nx e).
Proof.
  intros Hb Hp Ho. rewrite (run_has_prop _ _ _ _ _ _ _ Hp Ho).
  rewrite (has_property_bridge _ _ _ _ Hb Hp). reflexivity.
Qed.

Lemma has_property_own h p o key :
  h !! p = Some o -> is_Some (lookup_prop (KStr key) (props o)) ->
  has_property h p key = true.
Proof.
  intros Hp Hl. unfold has_property. rewrite Hp.
  rewrite bool_decide_eq_true_2 by exact Hl. reflexivity.
Qed.

Lemma has_property_missing h p o key :
  h !! p = Some o -> lookup_prop (KStr key) (props o) = None ->
  inherited_property (kind o) key = None ->
  has_property h p key = false.
Proof.
  intros Hp Hl Hi. unfold has_property. rewrite Hp, Hl, Hi.
  rewrite bool_decide_eq_false_2 by (intros [? ?]; discriminate). reflexivity.
Qed.

Lemma has_property_inherited h p o key v :
  h !! p = Some o -> inherited_property (kind o) key = Some v ->
  has_property h p key = true.
Proof.
  intros Hp Hi. unfold has_property. rewrite Hp, Hi.
  rewrite (bool_decide_eq_true_2 (is_Some (Some v))) by (eexists; reflexivity).
  apply orb_true_r.
Qed.

(** The key [duk_put_prop_heapptr] derives from the object at [p]. *)
Lemma run_property_name_object p o s h nx e :
  h !! p = Some o -> ordinary o ->
  property_name (KPtr p) (mk s h nx e) = Ok (object_name h g st p o) (mk s h nx e).
Proof.
  intros Hp Ho. unfold property_name. proj. rewrite Hp.
  destruct o as [[] ? ?]; try reflexivity.
  exfalso. eapply Ho. reflexivity.
Qed.

Lemma run_popObject_fresh p c so o s h nx e :
  p <> 0 -> p <> st ->
  h !! st = Some so -> ordinary so ->
  h !! p = Some o -> ordinary o ->
  deref e jd = Some (HDuktape c) ->
  0 < jni_next e ->
  popObject_fresh (mk (VObject p :: s) h nx e) =
  Ok (jni_next e + 1)
     (mk s (<[p := with_props (store_prop (KStr "__java_this")
                                          (VPointer (jni_next e + 2))) o]>
              (<[st := with_props (store_prop (KStr (object_name h g st p o))
                                              (VObject p)) so]> h))
         nx (with_handle c p e)).
Proof.
  intros Hp Hpst Hst Hso Hpo Ho Hjd Hnext. unfold popObject_fresh.
  erewrite (bind_Ok _ _ _ p) by reflexivity.
  erewrite bind_Ok by reflexivity.
  erewrite bind_Ok
    by (unfold duk_push_heapptr; rewrite bool_decide_eq_false_2 by exact Hp; reflexivity).
  erewrite bind_Ok.
  2:{ unfold duk_put_prop_heapptr. rewrite bool_decide_eq_false_2 by exact Hp.
      unfold put_prop_key.
      erewrite bind_Ok by (eapply run_property_name_object; [exact Hpo | exact Ho]).
      apply run_put_prop_name_m2; [exact Hst | exact Hso]. }
  assert (Hp2 : <[st := with_props (store_prop (KStr (object_name h g st p o))
                                               (VObject p)) so]> h !! p = Some o).
  { rewrite lookup_insert_ne by (intros E; apply Hpst; symmetry; exact E). exact Hpo. }
  erewrite bind_Ok by reflexivity.
  erewrite (bind_Ok _ _ _ (jni_next e + 1))
    by (unfold new_JavaScriptObject; proj; rewrite Hjd; reflexivity).
  erewrite (bind_Ok _ _ _ (jni_next e + 2)); cycle 1.
  { unfold NewWeakGlobalRef, referent. proj. cbn [refs].
    rewrite bool_decide_eq_false_2 by lia.
    rewrite lookup_insert_eq. cbn [mbind option_bind ref_target].
    unfold new_ref. proj.
    replace (jni_next e + 2) with (jni_next e + 1 + 1) by lia. reflexivity. }
  erewrite bind_Ok by reflexivity.
  erewrite bind_Ok by (apply run_put_prop_m2; [exact Hp2 | exact Ho]).
  erewrite bind_Ok by reflexivity.
  unfold ret, with_handle. proj. cbn [drop].
  replace (jni_next e + 1 + 1 + 1) with (jni_next e + 3) by lia.
  replace (jni_next e + 1 + 1) with (jni_next e + 2) by lia.
  reflexivity.
Qed.


Lemma run_popObject_cached_keep p o s h nx e :
  h !! p = Some o -> ordinary o ->
  (cached_handle o <> 0 -> is_Some (referent e (cached_handle o))) ->
  popObject_cached engine (mk (VObject p :: s) h nx e) =
  Ok (cached_handle o) (mk (VObject p :: s) h nx e).
Proof.
  intros Hp Ho Halive. unfold popObject_cached.
  erewrite bind_Ok by (eapply run_has_prop_own; [reflexivity | eassumption..]).
  unfold cached_handle in *.
  destruct (lookup_prop (KStr "__java_this") (props o)) as [v|] eqn:Hl.
  - rewrite bool_decide_eq_true_2 by (eexists; reflexivity).
    erewrite bind_Ok
      by (eapply run_get_prop_string_own; [reflexivity | eassumption | exact Ho]).
    rewrite (read_prop_own _ _ _ _ _ Hp Hl).
    cbn [snd fst].
    destruct v as [| |b|n|str|q|q|r|q];
      try (erewrite (bind_Ok _ _ _ 0) by reflexivity;
           erewrite bind_Ok by reflexivity;
           rewrite bool_decide_eq_false_2 by (intros Hne; apply Hne; reflexivity);
           reflexivity).
    erewrite (bind_Ok _ _ _ r) by reflexivity.
    erewrite bind_Ok by reflexivity.
    destruct (decide (r = 0)) as [->|Hr].
    + rewrite bool_decide_eq_false_2 by (intros Hne; apply Hne; reflexivity).
      reflexivity.
    + rewrite bool_decide_eq_true_2 by exact Hr.
      destruct (Halive Hr) as [x Hx].
      erewrite (bind_Ok _ _ _ false); [reflexivity|].
      unfold IsSameObject. proj. rewrite Hx.
      rewrite bool_decide_eq_false_2 by (unfold referent; simpl; discriminate).
      reflexivity.
  - rewrite bool_decide_eq_false_2 by (intros [? ?]; discriminate).
    reflexivity.
Qed.


End PopHandle.

Section PopHandleClaim.

Context `{HostRuntime}.
Variable engine : jsval -> jsval -> list jsval -> M jsval.




Lemma converts_by_default_plain g st p o :
  converts_by_default g st p o = true ->
  kind o = KPlain /\ p <> g /\ p <> st.
Proof.
  unfold converts_by_default.
  destruct (kind o); try discriminate.
  intros Hc. split; [reflexivity|].
  repeat case_bool_decide; try discriminate Hc. split; assumption.
Qed.

Lemma object_name_default h g st p o :
  converts_by_default g st p o = true -> object_name h g st p o = "[object Object]".
Proof. intros Hc. unfold object_name. rewrite Hc. reflexivity. Qed.


(** The first crossing of a script object that has no handle yet. *)
Lemma run_popObject_first g st tb cf jd tc p c o so s h nx e :
  h !! p = Some o -> ordinary o ->
  is_array_object h (VObject p) = false ->
  p <> 0 -> p <> st ->
  h !! st = Some so -> ordinary so ->
  deref e jd = Some (HDuktape c) ->
  0 < jni_next e ->
  cached_handle o = 0 ->
  popObject engine (World (DukContext (VObject p :: s) h nx g st tb cf) e jd tc) =
  Ok (jni_next e + 1)
     (World (DukContext s
               (<[p := with_props (store_prop (KStr "__java_this")
                                              (VPointer (jni_next e + 2))) o]>
                  (<[st := with_props (store_prop (KStr (object_name h g st p o))
                                                  (VObject p)) so]> h))
               nx g st tb cf)
            (with_handle c p e) jd tc).
Proof.
  intros Hp Ho Harr Hp0 Hpst Hst Hso Hjd Hnext Hc.
  erewrite popObject_on_object; [| reflexivity | exact Harr].
  unfold popObject_object.
  erewrite bind_Ok
    by (apply run_popObject_cached_keep;
        [exact Hp | exact Ho | intros Hne; contradiction Hne]).
  rewrite Hc.
  rewrite bool_decide_eq_false_2 by (intros Hne; apply Hne; reflexivity).
  eapply run_popObject_fresh with (c := c) (so := so); assumption.
Qed.

(** References and objects of the JVM are older than the next one. *)
Lemma deref_with_handle_older c p e r x :
  jni_fresh e -> deref e r = Some x -> deref (with_handle c p e) r = Some x.
Proof.
  unfold deref, referent, with_handle. cbn [refs objects].
  intros Hfresh Hd.
  destruct (bool_decide (r = 0)); [discriminate Hd|].
  destruct (refs e !! r) as [[k [o|]]|] eqn:Hr;
    cbn [mbind option_bind ref_target] in Hd; try discriminate Hd.
  assert (Hr_old : r < jni_next e).
  { destruct (Z.lt_ge_cases r (jni_next e)) as [?|Hge]; [assumption|].
    rewrite (proj1 (Hfresh r Hge)) in Hr. discriminate Hr. }
  assert (Ho_old : o < jni_next e).
  { destruct (Z.lt_ge_cases o (jni_next e)) as [?|Hge]; [assumption|].
    rewrite (proj2 (Hfresh o Hge)) in Hd. discriminate Hd. }
  rewrite !lookup_insert_ne by lia. rewrite Hr.
  cbn [mbind option_bind ref_target].
  rewrite lookup_insert_ne by lia. exact Hd.
Qed.

(** C8 fails on the code where it registers the object: the entry of
    the global stash is named by the string the object converts to, not
    by its pointer.  Two plain script objects popped one after the other
    each get a handle, cached through a weak reference; the second pop
    writes its object over the first under ["[object Object]"], so that
    afterwards no property of the stash holds the first object although
    its handle is alive. *)
Theorem popObject_registration_overwritten (w : world) (p q c : Z)
    (op oq so : hobject) (rest : list jsval) :
  top_of w = VObject p :: VObject q :: rest ->
  heap_of w !! p = Some op ->
  heap_of w !! q = Some oq ->
  p <> q -> p <> 0 -> q <> 0 ->
  converts_by_default (global_object (m_context w)) (global_stash (m_context w))
                      p op = true ->
  converts_by_default (global_object (m_context w)) (global_stash (m_context w))
                      q oq = true ->
  cached_handle op = 0 ->
  cached_handle oq = 0 ->
  heap_of w !! global_stash (m_context w) = Some so ->
  ordinary so ->
  (forall k, lookup_prop k (props so) <> Some (VObject p)) ->
  deref (env w) (m_javaDuktape w) = Some (HDuktape c) ->
  jni_fresh (env w) ->
  0 < jni_next (env w) ->
  exists j1 j2 w1 w2,
    popObject engine w = Ok j1 w1 /\
    own_prop (heap_of w1) (global_stash (m_context w)) (KStr "[object Object]") =
      Some (VObject p) /\
    popObject engine w1 = Ok j2 w2 /\
    own_prop (heap_of w2) (global_stash (m_context w)) (KStr "[object Object]") =
      Some (VObject q) /\
    (forall k, own_prop (heap_of w2) (global_stash (m_context w)) k <>
               Some (VObject p)) /\
    referent (env w2) j1 = Some (jni_next (env w)) /\
    objects (env w2) !! jni_next (env w) = Some (HJavaScriptObject c p) /\
    (exists weakRef,
       own_prop (heap_of w2) p (KStr "__java_this") = Some (VPointer weakRef) /\
       refs (env w2) !! weakRef =
         Some (RefCell WeakGlobalRef (Some (jni_next (env w))))).
Proof.
  intros Htop Hp Hq Hpq Hp0 Hq0 Hdp Hdq Hcp Hcq Hst Hso Hfree Hjd Hfresh Hnext.
  destruct w as [[s h nx g st tb cf] e jd tc].
  unfold top_of, heap_of in *.
  cbn [m_context env stack heap global_object global_stash m_javaDuktape] in *.
  subst s.
  destruct (converts_by_default_plain _ _ _ _ Hdp) as (Hkp & _ & Hpst).
  destruct (converts_by_default_plain _ _ _ _ Hdq) as (Hkq & _ & Hqst).
  assert (Hop : ordinary op) by (intros t b; rewrite Hkp; discriminate).
  assert (Hoq : ordinary oq) by (intros t b; rewrite Hkq; discriminate).
  assert (Harrp : is_array_object h (VObject p) = false).
  { unfold is_array_object. rewrite Hp. destruct op as [k ? ?].
    cbn [kind] in Hkp. subst k. reflexivity. }
  set (so1 := with_props (store_prop (KStr "[object Object]") (VObject p)) so).
  set (op1 := with_props (store_prop (KStr "__java_this")
                                     (VPointer (jni_next e + 2))) op).
  set (h1 := <[p := op1]> (<[st := so1]> h)).
  assert (Hq1 : h1 !! q = Some oq).
  { unfold h1. rewrite lookup_insert_ne by exact Hpq.
    rewrite lookup_insert_ne by (intros E; apply Hqst; symmetry; exact E).
    exact Hq. }
  assert (Hst1 : h1 !! st = Some so1).
  { unfold h1. rewrite lookup_insert_ne by exact Hpst. apply lookup_insert_eq. }
  assert (Harrq : is_array_object h1 (VObject q) = false).
  { unfold is_array_object. rewrite Hq1. destruct oq as [k ? ?].
    cbn [kind] in Hkq. subst k. reflexivity. }
  exists (jni_next e + 1), (jni_next (with_handle c p e) + 1).
  eexists. eexists. split.
  { erewrite run_popObject_first; try eassumption.
    rewrite (object_name_default _ _ _ _ _ Hdp). reflexivity. }
  fold so1 op1 h1. proj.
  split.
  { unfold own_prop. rewrite Hst1. cbn [mbind option_bind]. unfold so1.
    cbn [with_props props]. apply lookup_store_prop_eq. }
  split.
  { erewrite run_popObject_first with (c := c) (so := so1) (o := oq);
      [ | exact Hq1 | exact Hoq | exact Harrq | exact Hq0 | exact Hqst | exact Hst1
        | apply ordinary_with_props; exact Hso
        | apply deref_with_handle_older; [exact Hfresh | exact Hjd]
        | unfold with_handle; cbn [jni_next]; lia
        | exact Hcq ].
    rewrite (object_name_default _ _ _ _ _ Hdq). reflexivity. }
  proj.
  assert (Hst2 :
    <[q := with_props (store_prop (KStr "__java_this")
                         (VPointer (jni_next (with_handle c p e) + 2))) oq]>
      (<[st := with_props (store_prop (KStr "[object Object]") (VObject q)) so1]> h1)
      !! st =
    Some (with_props (store_prop (KStr "[object Object]") (VObject q)) so1)).
  { rewrite lookup_insert_ne by exact Hqst. apply lookup_insert_eq. }
  split.
  { unfold own_prop. rewrite Hst2. cbn [mbind option_bind with_props props].
    apply lookup_store_prop_eq. }
  split.
  { intros k. unfold own_prop. rewrite Hst2.
    cbn [mbind option_bind with_props props so1].
    destruct (decide (k = KStr "[object Object]")) as [->|Hk].
    - rewrite lookup_store_prop_eq. intros E. injection E as E.
      apply Hpq. symmetry. exact E.
    - rewrite !lookup_store_prop_ne by exact Hk. apply Hfree. }
  unfold with_handle. cbn [refs objects jni_next].
  split.
  { unfold referent. cbn [refs]. rewrite bool_decide_eq_false_2 by lia.
    rewrite !lookup_insert_ne by lia. rewrite lookup_insert_eq. reflexivity. }
  split.
  { rewrite lookup_insert_ne by lia. apply lookup_insert_eq. }
  exists (jni_next e + 2). split.
  - unfold own_prop.
    rewrite lookup_insert_ne by (intros E; apply Hpq; symmetry; exact E).
    rewrite lookup_insert_ne by (intros E; apply Hpst; symmetry; exact E).
    unfold h1. rewrite lookup_insert_eq.
    cbn [mbind option_bind]. unfold op1. cbn [with_props props].
    apply lookup_store_prop_eq.
  - rewrite !lookup_insert_ne by lia. apply lookup_insert_eq.
Qed.

End PopHandleClaim.

Lemma reference_jni_fresh : jni_fresh Reference.env0.
Proof.
  intros k Hk. cbn [Reference.env0 jni_next refs objects] in *.
  unfold Reference.refs0, Reference.objects0.
  rewrite !lookup_insert_ne by lia. split; reflexivity.
Qed.

Lemma reference_stash_no_object (p : Z) (k : propkey) :
  lookup_prop k [(KStr JAVA_VM_PROP_NAME, VPointer 1000);
                 (KStr DUKTAPE_CONTEXT_PROP_NAME, VPointer 2000)] <> Some (VObject p).
Proof.
  unfold lookup_prop. cbn [find fst snd].
  repeat case_bool_decide; cbn; discriminate.
Qed.

Lemma popObject_registration_overwritten_witness :
  exists j1 j2 w1 w2,
    popObject (engine_call 0)
      (with_stack [VObject 4; VObject 7] (Reference.world0 true)) = Ok j1 w1 /\
    own_prop (heap_of w1) 2 (KStr "[object Object]") = Some (VObject 4) /\
    popObject (engine_call 0) w1 = Ok j2 w2 /\
    own_prop (heap_of w2) 2 (KStr "[object Object]") = Some (VObject 7) /\
    (forall k, own_prop (heap_of w2) 2 k <> Some (VObject 4)) /\
    referent (env w2) j1 = Some 200 /\
    objects (env w2) !! 200 = Some (HJavaScriptObject 2000 4).
Proof.
  destruct (popObject_registration_overwritten (engine_call 0)
              (with_stack [VObject 4; VObject 7] (Reference.world0 true)) 4 7 2000
              (new_object KPlain)
              (HObject KPlain [(KStr JAVA_THIS_PROP_NAME, VPointer 51)] VUndefined)
              (HObject KPlain [(KStr JAVA_VM_PROP_NAME, VPointer 1000);
                               (KStr DUKTAPE_CONTEXT_PROP_NAME, VPointer 2000)] VUndefined)
              [])
    as (j1 & j2 & w1 & w2 & H1 & Hs1 & H2 & Hs2 & Hgone & Hj1 & Hobj & _);
    [ reflexivity | reflexivity | reflexivity | lia | lia | lia
    | vm_compute; reflexivity | vm_compute; reflexivity | reflexivity | reflexivity
    | reflexivity | apply ordinary_plain
    | exact (reference_stash_no_object 4)
    | reflexivity | exact reference_jni_fresh | vm_compute; reflexivity | ].
  exists j1, j2, w1, w2. repeat split; assumption.
Defined.


(** ** [set], the implementation of [bindObject] *)

Section BindObject.

Context `{HostRuntime}.

(** C5: binding a name that is already a property of the global object
    queues an [IllegalArgumentException] for the host and does nothing
    else: the engine (stack, heap, the global object with it) is as
    before, no reference to the host object is taken and no method
    descriptor allocated. *)
Theorem set_duplicate_global (name : string) (object : Z) (methods_ : list Z)
    (w : world) (go : hobject) :
  heap_of w !! global_object (m_context w) = Some go ->
  ordinary go ->
  is_Some (lookup_prop (KStr name) (props go)) ->
  exists w',
    set name object methods_ w = Ok tt w' /\
    m_context w' = m_context w /\
    env w' = set_pending
               (Some (IllegalArgumentException (duplicate_global_message name)))
               (env w).
Proof.
  intros Hg Hgo Hname.
  destruct w as [[s h nx g st tb cf] e jd tc].
  unfold heap_of in Hg. cbn [m_context heap global_object] in Hg.
  eexists. split.
  - unfold set.
    erewrite bind_Ok by reflexivity.
    erewrite bind_Ok by (eapply run_has_prop; eassumption).
    rewrite (has_property_own _ _ _ _ Hg Hname).
    erewrite bind_Ok by reflexivity.
    reflexivity.
  - split; reflexivity.
Qed.

End BindObject.

Lemma set_duplicate_global_witness :
  exists w',
    set "__makeProxy" 52 [57] (Reference.world0 true) = Ok tt w' /\
    m_context w' = m_context (Reference.world0 true) /\
    pending (env w') =
      Some (IllegalArgumentException "A global object called __makeProxy already exists").
Proof.
  destruct (set_duplicate_global "__makeProxy" 52 [57] (Reference.world0 true)
              (HObject KPlain [(KStr "__makeProxy", VObject 3)] VUndefined))
    as (w' & Hrun & Hduk & Henv);
    [ reflexivity | apply ordinary_plain | exists (VObject 3); reflexivity | ].
  exists w'. split; [exact Hrun|]. split; [exact Hduk|].
  rewrite Henv. reflexivity.
Defined.

(** ** The traps *)

Section Traps.

Context `{HostRuntime}.
Variable engine : jsval -> jsval -> list jsval -> M jsval.

Lemma run_fatalErrorHandler_trap (object : Z) (msg : string) (w : world) :
  fatalErrorHandler (HostReference object) msg w = Fatal (trap_fatal msg) w.
Proof. unfold fatalErrorHandler, trap_fatal. destruct NDEBUG; reflexivity. Qed.


End Traps.


(** ** The finalizer *)

(** C9 fails on the code: the finalizer is not idempotent and can throw.
    Bound with one method and finalized twice, an object has its global
    reference deleted twice and its method descriptor destroyed twice;
    and on the configuration object of a proxy, whose properties are not
    bound methods, the loop leaves a key on the stack and the next
    [duk_next] throws. *)
Theorem javaObjectFinalizer_not_idempotent :
  (exists w1 w2 w3,
     set "svc" 52 [57] (Reference.world0 true) = Ok tt w1 /\
     finalizer <$> heap_of w1 !! 10 =
       Some (VObject 11) /\
     run_finalizer 1 10 w1 = Ok VUndefined w2 /\
     released (env w2) = [201] /\ destroyed (env w2) = [200] /\
     run_finalizer 1 10 w2 = Ok VUndefined w3 /\
     released (env w3) = [201; 201] /\ destroyed (env w3) = [200; 200])
  /\
  (exists w1 w2,
     pushObject (engine_call 1) 2000 52 (Reference.world0 true) = Ok tt w1 /\
     run_finalizer 1 10 w1 = Throw DUK_ERR_TYPE_ERROR "object required" w2).
Proof.
  split.
  - eexists. eexists. eexists.
    split; [vm_compute; reflexivity|].
    split; [vm_compute; reflexivity|].
    split; [vm_compute; reflexivity|].
    split; [vm_compute; reflexivity|].
    split; [vm_compute; reflexivity|].
    split; [vm_compute; reflexivity|].
    split; vm_compute; reflexivity.
  - eexists. eexists.
    split; [vm_compute; reflexivity | vm_compute; reflexivity].
Qed.

(** ** [call] and [callProperty] *)

Section Calls.

Context `{HostRuntime}.

Lemma protected_Throw (body : M jsval) (rest : list jsval) c msg w w' :
  body w = Throw c msg w' ->
  protected body rest w = Ok DUK_EXEC_ERROR (caught c msg rest w').
Proof. intros Hb. unfold protected. rewrite Hb. reflexivity. Qed.

Lemma queue_caught c msg rest w :
  queueJavaExceptionForDuktapeError (caught c msg rest w) =
  Ok tt (set_env (set_pending (Some (DuktapeException c msg)) (env w))
                 (with_stack rest (caught c msg rest w))).
Proof.
  unfold queueJavaExceptionForDuktapeError, caught. proj.
  rewrite lookup_insert_eq. reflexivity.
Qed.

Lemma run_pushObject_heapptr object w :
  pushObject_heapptr object w = Ok tt (pushed_heapptr object w).
Proof.
  unfold pushObject_heapptr, duk_push_heapptr, pushed_heapptr.
  destruct (bool_decide (object = 0)); reflexivity.
Qed.

Lemma run_CallObjectMethod (f : jni_env -> Z * jni_env) w :
  CallObjectMethod f w = Ok (fst (f (env w))) (set_env (snd (f (env w))) w).
Proof. unfold CallObjectMethod. destruct (f (env w)). reflexivity. Qed.

(** The trap returns the error code as soon as the host method has
    raised: the exception is turned into an engine error object and
    nothing is marshalled. *)
Lemma run_duktape_apply_raises engine w w2 operands cls :
  __duktape_apply_operands engine w = Ok operands w2 ->
  deref (env w2) (apply_object operands) = Some cls ->
  is_DuktapeObject cls = true ->
  is_Some (pending (snd (DuktapeObject_invoke (apply_object operands)
                           (apply_this operands) (apply_args operands) (env w2)))) ->
  __duktape_apply engine w =
  Ok DUK_RET_ERROR
     (set_env (set_pending None
                 (snd (DuktapeObject_invoke (apply_object operands)
                         (apply_this operands) (apply_args operands) (env w2))))
              (caught DUK_ERR_ERROR "Java Exception" (top_of w2) w2)).
Proof.
  intros Hops Hd Hcap Hraise. unfold __duktape_apply.
  rewrite (bind_Ok _ _ _ _ _ Hops).
  erewrite bind_Ok by (unfold GetObjectClass; rewrite Hd; reflexivity).
  rewrite Hcap. cbn [negb].
  erewrite bind_Ok by apply run_CallObjectMethod.
  erewrite (bind_Ok _ _ _ false); [reflexivity|].
  unfold checkRethrowDuktapeError.
  erewrite (bind_Ok _ _ _ true)
    by (unfold ExceptionCheck; proj; rewrite bool_decide_eq_true_2 by exact Hraise;
        reflexivity).
  reflexivity.
Qed.

(** A call during which the host method raises and that no script code
    guards throws the engine error of the trap's return code. *)
Lemma engine_call_raises (n : nat) :
  forall (callee this : jsval) (args : list jsval) (w : world),
    host_raises n callee this args w = true ->
    script_catches n callee this args w = false ->
    exists w3,
      engine_call n callee this args w =
      Throw DUK_ERR_ERROR "error thrown by a native function" w3.
Proof.
  induction n as [|n IH]; intros callee this args w Hr Hc; [discriminate|].
  cbn [host_raises] in Hr. cbn [script_catches] in Hc.
  cbn [engine_call]. unfold engine_call_step.
  destruct callee as [| | | | | p | | |]; try discriminate.
  destruct (heap_of w !! p) as [[k ps fin]|]; try discriminate.
  destruct k as [| | | f nargs | | | t b | f guarded]; try discriminate.
  - destruct f; try discriminate.
    unfold call_cfunction. cbn [run_cfunction].
    cbv zeta in Hr.
    destruct (__duktape_apply_operands (engine_call n) _) as [ops w2| | |] eqn:Hops;
      try discriminate.
    destruct (deref (env w2) (apply_object ops)) as [cls|] eqn:Hd; try discriminate.
    apply andb_prop in Hr as [Hcap Hraise].
    apply bool_decide_eq_true_1 in Hraise.
    rewrite (run_duktape_apply_raises _ _ _ _ _ Hops Hd Hcap Hraise).
    eexists. reflexivity.
  - unfold bind at 1.
    destruct (alloc (new_object (KArray args)) w) as [a w'| | |]; try discriminate.
    exact (IH _ _ _ _ Hr Hc).
  - apply orb_false_elim in Hc as [-> Hc].
    destruct (IH _ _ _ _ Hr Hc) as [w3 ->]. eexists. reflexivity.
Qed.

(** C4: a call during which the host method invoked through the apply
    trap raises, no script code on the way from the callee to the trap
    catching what is thrown.  The apply trap returns the error code at
    once, the raised exception having become an engine error object and
    nothing having been marshalled; the engine error reaches the call
    boundary; [call] and [callProperty] then return null with one
    exception pending for the host, their operands gone from the
    stack. *)
Theorem call_host_exception (n : nat) (w1 : world) (callee this : jsval)
    (args : list jsval) :
  host_raises n callee this args w1 = true ->
  script_catches n callee this args w1 = false ->
  (forall (engine : jsval -> jsval -> list jsval -> M jsval) (w w2 : world)
          (operands : apply_operands) (cls : hostobj),
     __duktape_apply_operands engine w = Ok operands w2 ->
     deref (env w2) (apply_object operands) = Some cls ->
     is_DuktapeObject cls = true ->
     is_Some (pending (snd (DuktapeObject_invoke (apply_object operands)
                              (apply_this operands) (apply_args operands) (env w2)))) ->
     exists w3,
       __duktape_apply engine w = Ok DUK_RET_ERROR w3 /\
       top_of w3 = VObject (heap_next (m_context w2)) :: top_of w2 /\
       heap_of w3 !! heap_next (m_context w2) =
         Some (new_object (KError DUK_ERR_ERROR "Java Exception")))
  /\
  (exists w3,
     engine_call n callee this args w1 =
     Throw DUK_ERR_ERROR "error thrown by a native function" w3)
  /\
  (forall (w : world) (object : Z) (jargs : option (list Z)) (len : nat),
     this = VUndefined ->
     push_arguments (engine_call n) (this_context w) jargs
                    (pushed_heapptr object w) = Ok len w1 ->
     top_of w1 !! len = Some callee ->
     rev (take len (top_of w1)) = args ->
     exists w4 exn,
       call (engine_call n) object jargs w = Ok 0 w4 /\
       pending (env w4) = Some exn /\
       top_of w4 = drop (S len) (top_of w1))
  /\
  (forall (w wb : world) (object property : Z) (jargs : option (list Z))
          (len : nat) (key : jsval) (found : bool),
     pushObject (engine_call n) (this_context w) property
                (pushed_heapptr object w) = Ok tt wb ->
     push_arguments (engine_call n) (this_context w) jargs wb = Ok len w1 ->
     top_of w1 !! len = Some key ->
     drop (S len) (top_of w1) = this :: top_of w ->
     getprop (engine_call n) (Some this) (to_property_key key) w1 =
       Ok (found, callee) w1 ->
     rev (take len (top_of w1)) = args ->
     exists w4 exn,
       callProperty (engine_call n) object property jargs w = Ok 0 w4 /\
       pending (env w4) = Some exn /\
       top_of w4 = top_of w).
Proof.
  intros Hraises Hcatches.
  destruct (engine_call_raises n callee this args w1 Hraises Hcatches) as [w3 Hcall].
  split; [|split; [|split]].
  - intros engine w w2 operands cls Hops Hd Hcap Hraise.
    eexists. split; [exact (run_duktape_apply_raises _ _ _ _ _ Hops Hd Hcap Hraise)|].
    split.
    + reflexivity.
    + unfold caught. proj. apply lookup_insert_eq.
  - exists w3. exact Hcall.
  - intros w object jargs len Hthis Hpush Hfunc Hargs. subst this.
    eexists. eexists. split.
    + unfold call.
      erewrite bind_Ok by apply run_pushObject_heapptr.
      erewrite bind_Ok by exact Hpush.
      erewrite bind_Ok.
      2:{ unfold duk_pcall. rewrite Hfunc. rewrite Hargs.
          apply protected_Throw. exact Hcall. }
      rewrite bool_decide_eq_true_2 by discriminate.
      erewrite bind_Ok by apply queue_caught.
      reflexivity.
    + split; reflexivity.
  - intros w wb object property jargs len key found Hprop_push Hpush Hkey Hrest Hget Hargs.
    assert (Hobj : stack_at (Z.of_nat (length (top_of w))) (top_of w1) = Some this).
    { rewrite <- (take_drop (S len) (top_of w1)), Hrest. apply stack_at_abs. }
    eexists. eexists. split.
    + unfold callProperty.
      erewrite bind_Ok by apply run_pushObject_heapptr.
      erewrite (bind_Ok _ _ _ (Z.of_nat (length (top_of w)))).
      2:{ unfold duk_normalize_index, pushed_heapptr. proj. cbn [length].
          change (-1 <? 0) with true. cbv iota.
          destruct (Z.leb_spec (- -1) (Z.of_nat (S (length (stack (m_context w))))))
            as [_|?]; [|lia].
          f_equal. lia. }
      erewrite bind_Ok by exact Hprop_push.
      erewrite bind_Ok by exact Hpush.
      erewrite bind_Ok.
      2:{ unfold duk_pcall_prop. rewrite Hkey. rewrite Hargs. rewrite Hobj.
          apply protected_Throw.
          rewrite (bind_Ok _ _ _ _ _ Hget). cbn [snd default].
          exact Hcall. }
      rewrite bool_decide_eq_true_2 by discriminate.
      erewrite bind_Ok by apply queue_caught.
      rewrite Hrest.
      erewrite bind_Ok by reflexivity.
      reflexivity.
    + split; reflexivity.
Qed.

End Calls.

Lemma call_host_exception_witness :
  (exists w4 exn,
     call (engine_call 2) 14 None (world_forwarding false) = Ok 0 w4 /\
     pending (env w4) = Some exn /\
     top_of w4 = []) /\
  (exists w4 exn,
     call (engine_call 3) 15 None (world_forwarding false) = Ok 0 w4 /\
     pending (env w4) = Some exn /\
     top_of w4 = []).
Proof.
  split.
  - destruct (call_host_exception 2 (pushed_heapptr 14 (world_forwarding false))
                (VObject 14) VUndefined [])
      as (_ & _ & Hcall & _);
      [ vm_compute; reflexivity | vm_compute; reflexivity | ].
    destruct (Hcall (world_forwarding false) 14 None 0%nat)
      as (w4 & exn & Hrun & Hpending & Htop);
      [ reflexivity | reflexivity | reflexivity | reflexivity | ].
    exists w4, exn. split; [exact Hrun|]. split; [exact Hpending|].
    rewrite Htop. reflexivity.
  - destruct (call_host_exception 3 (pushed_heapptr 15 (world_forwarding false))
                (VObject 15) VUndefined [])
      as (_ & _ & Hcall & _);
      [ vm_compute; reflexivity | vm_compute; reflexivity | ].
    destruct (Hcall (world_forwarding false) 15 None 0%nat)
      as (w4 & exn & Hrun & Hpending & Htop);
      [ reflexivity | reflexivity | reflexivity | reflexivity | ].
    exists w4, exn. split; [exact Hrun|]. split; [exact Hpending|].
    rewrite Htop. reflexivity.
Defined.

(** C4 fails as stated: the engine error the apply trap raises for the
    host exception can be caught by script code on its way to the call
    boundary.  Called on the function at 15, which wraps the call of
    the proxy in [try]/[catch], [call] returns null although the host
    method raised, and nothing is pending for the host. *)
Lemma host_exception_counterexample : ~ host_exception_claim.
Proof.
  intros claim.
  destruct (claim Reference.host 3%nat (world_forwarding true)
              (pushed_heapptr 15 (world_forwarding true)) 15 None 0%nat (VObject 15))
    as (w4 & exn & Hrun & Hpending);
    [ reflexivity | reflexivity | vm_compute; reflexivity | ].
  vm_compute in Hrun. injection Hrun as <-.
  vm_compute in Hpending. discriminate Hpending.
Qed.

(** ** The global stash and the native callbacks *)

Section Stash.

Context `{HostRuntime}.
Variable engine : jsval -> jsval -> list jsval -> M jsval.
Variables (g st : Z) (jd tc : Z).

Local Abbreviation mk tb cf s h nx e := (World (DukContext s h nx g st tb cf) e jd tc).

Lemma run_duk_pop tb cf x s h nx e :
  duk_pop (mk tb cf (x :: s) h nx e) = Ok tt (mk tb cf s h nx e).
Proof. reflexivity. Qed.

Lemma run_read_own h p o k v :
  h !! p = Some o -> lookup_prop k (props o) = Some v ->
  read_prop h p k = (true, v).
Proof.
  intros Hp Hl. unfold read_prop, own_prop. rewrite Hp.
  cbn [mbind option_bind]. rewrite Hl. reflexivity.
Qed.

Lemma run_read_own_none h p o name :
  h !! p = Some o -> lookup_prop (KStr name) (props o) = None ->
  bridge_name name = true ->
  read_prop h p (KStr name) = (false, VUndefined).
Proof.
  intros Hp Hl Hb. apply (read_prop_missing _ _ _ _ Hp Hl).
  apply inherited_bridge_name. exact Hb.
Qed.

Lemma run_getJNIEnv tb cf so vm s h nx e :
  h !! st = Some so -> ordinary so ->
  lookup_prop (KStr JAVA_VM_PROP_NAME) (props so) = Some (VPointer vm) ->
  getJNIEnv engine (mk tb cf s h nx e) = Ok vm (mk tb cf s h nx e).
Proof.
  intros Hst Hso Hl. unfold getJNIEnv.
  erewrite bind_Ok by reflexivity.
  erewrite bind_Ok
    by (eapply run_get_prop_string_own; [reflexivity | exact Hst | exact Hso]).
  proj. rewrite (run_read_own _ _ _ _ _ Hst Hl). cbn [snd fst].
  erewrite (bind_Ok _ _ _ vm) by reflexivity.
  erewrite bind_Ok by reflexivity.
  reflexivity.
Qed.

Lemma run_getDuktapeContext tb cf so ctx s h nx e :
  h !! st = Some so -> ordinary so ->
  lookup_prop (KStr DUKTAPE_CONTEXT_PROP_NAME) (props so) = Some (VPointer ctx) ->
  getDuktapeContext engine (mk tb cf s h nx e) = Ok ctx (mk tb cf s h nx e).
Proof.
  intros Hst Hso Hl. unfold getDuktapeContext.
  erewrite bind_Ok by reflexivity.
  erewrite bind_Ok
    by (eapply run_get_prop_string_own; [reflexivity | exact Hst | exact Hso]).
  proj. rewrite (run_read_own _ _ _ _ _ Hst Hl). cbn [snd fst].
  erewrite (bind_Ok _ _ _ ctx) by reflexivity.
  erewrite bind_Ok by reflexivity.
  reflexivity.
Qed.

Lemma run_getJavaMethod tb f fo m s h nx e :
  h !! f = Some fo -> ordinary fo ->
  lookup_prop (KStr JAVA_METHOD_PROP_NAME) (props fo) = Some (VPointer m) ->
  getJavaMethod engine (mk tb (VObject f) s h nx e) = Ok m (mk tb (VObject f) s h nx e).
Proof.
  intros Hf Hfo Hl. unfold getJavaMethod.
  erewrite bind_Ok by reflexivity.
  erewrite bind_Ok
    by (eapply run_get_prop_string_own; [reflexivity | exact Hf | exact Hfo]).
  proj. rewrite (run_read_own _ _ _ _ _ Hf Hl). cbn [snd fst].
  erewrite (bind_Ok _ _ _ m) by reflexivity.
  erewrite bind_Ok by reflexivity.
  reflexivity.
Qed.

Lemma run_getJavaThis cf o oo r s h nx e :
  h !! o = Some oo -> ordinary oo ->
  lookup_prop (KStr JAVA_THIS_PROP_NAME) (props oo) = Some (VPointer r) ->
  getJavaThis engine (mk (VObject o) cf s h nx e) = Ok r (mk (VObject o) cf s h nx e).
Proof.
  intros Ho Hoo Hl. unfold getJavaThis.
  erewrite bind_Ok by reflexivity.
  erewrite bind_Ok
    by (eapply run_get_prop_string_own; [reflexivity | exact Ho | exact Hoo]).
  proj. rewrite (run_read_own _ _ _ _ _ Ho Hl). cbn [snd fst].
  erewrite (bind_Ok _ _ _ r) by reflexivity.
  erewrite bind_Ok by reflexivity.
  reflexivity.
Qed.

(** A [this] binding without the hidden reference makes [getJavaThis]
    throw, the binding and the value read left on the stack. *)
Lemma run_getJavaThis_detached tb cf s h nx e :
  detached h tb ->
  exists msg s',
    getJavaThis engine (mk tb cf s h nx e) =
    Throw DUK_ERR_TYPE_ERROR msg (mk tb cf s' h nx e).
Proof.
  intros Hd. unfold getJavaThis.
  erewrite bind_Ok by reflexivity.
  destruct tb as [| |b|n|str|o|q|q|q]; cbn [detached] in Hd;
    try (eexists; eexists; reflexivity).
  destruct Hd as (oo & Ho & Hoo & Hl).
  erewrite bind_Ok
    by (eapply run_get_prop_string_own; [reflexivity | exact Ho | exact Hoo]).
  proj. rewrite (run_read_own_none _ _ _ _ Ho Hl eq_refl). cbn [snd fst].
  eexists. eexists. reflexivity.
Qed.

End Stash.

Section Constructor.

Context `{HostRuntime}.
Variable engine : jsval -> jsval -> list jsval -> M jsval.

(** X1: the constructor and the two accessors of the global stash.  On a
    heap whose stash is an ordinary object, the constructor leaves the
    value stack as it found it and records a weak global reference to
    the [Duktape] instance; afterwards [getJNIEnv] answers the JVM
    pointer and [getDuktapeContext] the address of the Context, each
    without changing the state. *)
Theorem constructor_stash_roundtrip (javaVM javaDuktape : Z) (w : world)
    (so : hobject) (o : Z) :
  heap_of w !! global_stash (m_context w) = Some so ->
  ordinary so ->
  referent (env w) javaDuktape = Some o ->
  exists w',
    DuktapeContext javaVM javaDuktape w = Ok tt w' /\
    top_of w' = top_of w /\
    refs (env w') !! m_javaDuktape w' = Some (RefCell WeakGlobalRef (Some o)) /\
    getJNIEnv engine w' = Ok javaVM w' /\
    getDuktapeContext engine w' = Ok (this_context w) w'.
Proof.
  intros Hst Hso Hr.
  destruct w as [[s h nx g st tb cf] e jd tc].
  unfold heap_of, top_of in *. cbn [m_context env heap stack global_stash] in *.
  eexists. split.
  { unfold DuktapeContext.
    erewrite bind_Ok
      by (unfold NewWeakGlobalRef; proj; rewrite Hr; reflexivity).
    erewrite bind_Ok by reflexivity.
    erewrite bind_Ok by reflexivity.
    erewrite bind_Ok by reflexivity.
    erewrite bind_Ok
      by (apply run_put_prop_m2; [exact Hst | exact Hso]).
    erewrite bind_Ok by reflexivity.
    erewrite bind_Ok
      by (apply run_put_prop_m2; [solve_lookup | solve_ordinary]).
    apply run_duk_pop. }
  cbn [top_of m_context stack env refs m_javaDuktape this_context].
  split; [reflexivity|].
  split; [apply lookup_insert_eq|].
  split.
  - eapply run_getJNIEnv.
    + apply lookup_insert_eq.
    + apply ordinary_with_props, ordinary_with_props, Hso.
    + cbn [with_props props].
      rewrite lookup_store_prop_ne by (vm_compute; discriminate).
      apply lookup_store_prop_eq.
  - eapply run_getDuktapeContext.
    + apply lookup_insert_eq.
    + apply ordinary_with_props, ordinary_with_props, Hso.
    + cbn [with_props props]. apply lookup_store_prop_eq.
Qed.

(** X2: a bound method called from script.  When the running function
    carries a method descriptor and the [this] binding the hidden host
    reference, the handler hands exactly these two to
    [JavaMethod::invoke], on the state it was entered in: finding them
    leaves nothing on the value stack. *)
Theorem javaMethodHandler_dispatch (w : world) (f o m r vm ctx : Z)
    (fo oo : hobject) :
  current_function (m_context w) = VObject f ->
  heap_of w !! f = Some fo -> ordinary fo ->
  lookup_prop (KStr JAVA_METHOD_PROP_NAME) (props fo) = Some (VPointer m) ->
  m <> 0 ->
  this_binding (m_context w) = VObject o ->
  heap_of w !! o = Some oo -> ordinary oo ->
  lookup_prop (KStr JAVA_THIS_PROP_NAME) (props oo) = Some (VPointer r) ->
  stash_ready (m_context w) vm ctx ->
  javaMethodHandler engine w = JavaMethod_invoke m r w.
Proof.
  intros Hcf Hf Hfo Hm Hm0 Htb Ho Hoo Hr (so & Hst & Hso & Hvm & _).
  destruct w as [[s h nx g st tb cf] e jd tc].
  unfold heap_of in *.
  cbn [m_context heap current_function this_binding global_stash] in *.
  subst cf tb.
  unfold javaMethodHandler.
  erewrite bind_Ok by (eapply run_getJavaMethod; eassumption).
  rewrite bool_decide_eq_true_2 by exact Hm0.
  erewrite bind_Ok by (eapply run_getJNIEnv; eassumption).
  erewrite bind_Ok by (eapply run_getJavaThis; eassumption).
  reflexivity.
Qed.

(** X3: a bound method called on a receiver that is not the bound
    object.  When the [this] binding carries no hidden host reference
    (a method taken off its object and called bare, or put on another
    object), the handler throws a [TypeError] before it reaches the
    host: the heap and the JVM are as they were. *)
Theorem javaMethodHandler_detached (w : world) (f m vm ctx : Z) (fo : hobject) :
  current_function (m_context w) = VObject f ->
  heap_of w !! f = Some fo -> ordinary fo ->
  lookup_prop (KStr JAVA_METHOD_PROP_NAME) (props fo) = Some (VPointer m) ->
  m <> 0 ->
  detached (heap_of w) (this_binding (m_context w)) ->
  stash_ready (m_context w) vm ctx ->
  exists msg w',
    javaMethodHandler engine w = Throw DUK_ERR_TYPE_ERROR msg w' /\
    heap_of w' = heap_of w /\ env w' = env w.
Proof.
  intros Hcf Hf Hfo Hm Hm0 Hd (so & Hst & Hso & Hvm & _).
  destruct w as [[s h nx g st tb cf] e jd tc].
  unfold heap_of in *.
  cbn [m_context heap current_function this_binding global_stash] in *.
  subst cf.
  destruct (run_getJavaThis_detached engine g st jd tc tb (VObject f) s h nx e Hd)
    as (msg & s' & Hthis).
  exists msg. eexists. split.
  - unfold javaMethodHandler.
    erewrite bind_Ok by (eapply run_getJavaMethod; eassumption).
    rewrite bool_decide_eq_true_2 by exact Hm0.
    erewrite bind_Ok by (eapply run_getJNIEnv; eassumption).
    unfold bind. rewrite Hthis. reflexivity.
  - split; reflexivity.
Qed.

End Constructor.

Lemma constructor_stash_roundtrip_witness :
  exists w',
    DuktapeContext 1000 50 (Reference.world0 true) = Ok tt w' /\
    top_of w' = [] /\
    refs (env w') !! m_javaDuktape w' = Some (RefCell WeakGlobalRef (Some 100)) /\
    getJNIEnv (engine_call 0) w' = Ok 1000 w' /\
    getDuktapeContext (engine_call 0) w' = Ok 2000 w'.
Proof.
  destruct (constructor_stash_roundtrip (engine_call 0) 1000 50 (Reference.world0 true)
              (HObject KPlain [(KStr JAVA_VM_PROP_NAME, VPointer 1000);
                               (KStr DUKTAPE_CONTEXT_PROP_NAME, VPointer 2000)] VUndefined)
              100) as (w' & Hrun & Htop & Href & Hvm & Hctx);
    [ reflexivity | apply ordinary_plain | reflexivity | ].
  exists w'.
  split; [exact Hrun|]. split; [exact Htop|]. split; [exact Href|].
  split; [exact Hvm | exact Hctx].
Defined.

Lemma javaMethodHandler_dispatch_witness :
  javaMethodHandler (engine_call 0)
    (native_frame 12 (VObject 10) [] world_bound) =
  JavaMethod_invoke 200 201
    (native_frame 12 (VObject 10) [] world_bound).
Proof.
  apply (javaMethodHandler_dispatch (engine_call 0)
           (native_frame 12 (VObject 10) [] world_bound)
           12 10 200 201 1000 2000
           (HObject (KCFunction fn_javaMethodHandler DUK_VARARGS)
                    [(KStr JAVA_METHOD_PROP_NAME, VPointer 200)] VUndefined)
           (HObject KPlain [(KStr "m0", VObject 12);
                            (KStr JAVA_THIS_PROP_NAME, VPointer 201)] (VObject 11)));
    [ reflexivity | vm_compute; reflexivity | intros t b; discriminate
    | reflexivity | lia | reflexivity | vm_compute; reflexivity
    | apply ordinary_plain | reflexivity | ].
  exists (HObject KPlain [(KStr JAVA_VM_PROP_NAME, VPointer 1000);
                          (KStr DUKTAPE_CONTEXT_PROP_NAME, VPointer 2000)] VUndefined).
  split; [vm_compute; reflexivity|].
  split; [apply ordinary_plain|]. split; reflexivity.
Defined.

Lemma javaMethodHandler_detached_witness :
  exists msg w',
    javaMethodHandler (engine_call 0)
      (native_frame 12 VUndefined [] world_bound) =
    Throw DUK_ERR_TYPE_ERROR msg w' /\
    heap_of w' =
      heap_of (native_frame 12 VUndefined [] world_bound) /\
    env w' =
      env (native_frame 12 VUndefined [] world_bound).
Proof.
  apply (javaMethodHandler_detached (engine_call 0)
           (native_frame 12 VUndefined [] world_bound)
           12 200 1000 2000
           (HObject (KCFunction fn_javaMethodHandler DUK_VARARGS)
                    [(KStr JAVA_METHOD_PROP_NAME, VPointer 200)] VUndefined));
    [ reflexivity | vm_compute; reflexivity | intros t b; discriminate
    | reflexivity | lia | exact I | ].
  exists (HObject KPlain [(KStr JAVA_VM_PROP_NAME, VPointer 1000);
                          (KStr DUKTAPE_CONTEXT_PROP_NAME, VPointer 2000)] VUndefined).
  split; [vm_compute; reflexivity|].
  split; [apply ordinary_plain|]. split; reflexivity.
Defined.

(** ** The get trap and the finalizer at their edges *)

Section GetTrap.

Context `{HostRuntime}.
Variable engine : jsval -> jsval -> list jsval -> M jsval.

Lemma run_duktape_get_operands g st jd tc tb cf recv prop t ot r s h nx e :
  h !! t = Some ot -> ordinary ot ->
  lookup_prop (KStr JAVA_THIS_PROP_NAME) (props ot) = Some (VPointer r) ->
  __duktape_get_operands engine
    (World (DukContext (recv :: VString prop :: VObject t :: s) h nx g st tb cf) e jd tc) =
  Ok (Some prop, r) (World (DukContext (VObject t :: s) h nx g st tb cf) e jd tc).
Proof.
  intros Ht Hot Hr. unfold __duktape_get_operands.
  erewrite bind_Ok by reflexivity.
  erewrite bind_Ok by reflexivity.
  erewrite bind_Ok by reflexivity.
  erewrite bind_Ok
    by (eapply run_get_prop_string_own; [reflexivity | solve_lookup | exact Hot]).
  proj. rewrite (run_read_own _ _ _ _ _ Ht Hr). cbn [snd fst].
  erewrite bind_Ok by reflexivity.
  erewrite bind_Ok by reflexivity.
  reflexivity.
Qed.

(** X4: the get trap on a target that is not bound to a host object.  A
    hidden reference that is null ends in [fatalErrorHandler], which is
    handed the null reference for [udata]: the run ends by the
    [std::runtime_error] "DuktapeObject is null" in a build with
    [NDEBUG] and at the read through the null pointer in a build
    without.  A target without the hidden reference makes the trap
    throw a [TypeError], the value it read still on the stack.  In both
    cases the host is not reached. *)
Theorem duktape_get_unbound_target (w : world) (recv : jsval) (prop : string)
    (t : Z) (ot : hobject) (rest : list jsval) :
  top_of w = recv :: VString prop :: VObject t :: rest ->
  heap_of w !! t = Some ot ->
  ordinary ot ->
  (lookup_prop (KStr JAVA_THIS_PROP_NAME) (props ot) = Some (VPointer 0) ->
   __duktape_get engine w =
   Fatal (trap_fatal "DuktapeObject is null") (with_stack (VObject t :: rest) w))
  /\
  (lookup_prop (KStr JAVA_THIS_PROP_NAME) (props ot) = None ->
   __duktape_get engine w =
   Throw DUK_ERR_TYPE_ERROR "pointer required"
         (with_stack (VUndefined :: VObject t :: rest) w)).
Proof.
  intros Htop Ht Hot.
  destruct w as [[s h nx g st tb cf] e jd tc].
  unfold top_of, heap_of in *. cbn [m_context stack heap] in *. subst s.
  split; intros Hl.
  - unfold __duktape_get.
    erewrite bind_Ok by (eapply run_duktape_get_operands; eassumption).
    cbn [snd]. rewrite bool_decide_eq_true_2 by reflexivity.
    unfold bind at 1. rewrite run_fatalErrorHandler_trap. reflexivity.
  - unfold __duktape_get, __duktape_get_operands.
    unfold bind at 1.
    erewrite bind_Ok by reflexivity.
    erewrite bind_Ok by reflexivity.
    erewrite bind_Ok by reflexivity.
    erewrite bind_Ok
      by (eapply run_get_prop_string_own; [reflexivity | solve_lookup | exact Hot]).
    proj. rewrite (run_read_own_none _ _ _ _ Ht Hl eq_refl). cbn [snd fst].
    reflexivity.
Qed.

(** X5: the get trap does not look for a host exception.  Whatever
    [DuktapeObject.get] returned is marshalled by [pushObject] and the
    trap answers 1, a value; in particular, when the getter returned
    null, as it does when it raised, the script reads [null] and the
    exception is still pending for the host. *)
Theorem duktape_get_marshals_unchecked (w : world) (recv : jsval) (prop : string)
    (t r vm ctx : Z) (ot : hobject) (cls : hostobj) (rest : list jsval) :
  top_of w = recv :: VString prop :: VObject t :: rest ->
  heap_of w !! t = Some ot ->
  ordinary ot ->
  lookup_prop (KStr JAVA_THIS_PROP_NAME) (props ot) = Some (VPointer r) ->
  prop <> "__java_this" ->
  stash_ready (m_context w) vm ctx ->
  deref (env w) r = Some cls ->
  is_DuktapeObject cls = true ->
  let res := DuktapeObject_get r prop (env w) in
  __duktape_get engine w =
    bind (pushObject engine ctx (fst res)) (fun _ => ret 1)
         (set_env (snd res) (with_stack (VObject t :: rest) w))
  /\
  (fst res = 0 ->
   __duktape_get engine w =
   Ok 1 (set_env (snd res) (with_stack (VNull :: VObject t :: rest) w))).
Proof.
  intros Htop Ht Hot Hr Hprop (so & Hst & Hso & Hvm & Hctx) Hd Hcap res.
  destruct w as [[s h nx g st tb cf] e jd tc].
  unfold top_of, heap_of in *.
  cbn [m_context stack heap env global_stash] in *. subst s.
  assert (Hr0 : r <> 0) by (eapply deref_nonnull; exact Hd).
  assert (Hrun :
    __duktape_get engine
      (World (DukContext (recv :: VString prop :: VObject t :: rest) h nx g st tb cf)
             e jd tc) =
    bind (pushObject engine ctx (fst res)) (fun _ => ret 1)
         (World (DukContext (VObject t :: rest) h nx g st tb cf) (snd res) jd tc)).
  { unfold __duktape_get.
    erewrite bind_Ok by (eapply run_duktape_get_operands; eassumption).
    cbn [snd fst].
    rewrite bool_decide_eq_false_2 by exact Hr0.
    rewrite bool_decide_eq_false_2 by exact Hprop.
    erewrite bind_Ok by (eapply run_getJNIEnv; eassumption).
    erewrite bind_Ok by (unfold GetObjectClass; proj; rewrite Hd; reflexivity).
    rewrite Hcap. cbn [negb].
    erewrite bind_Ok by apply run_CallObjectMethod.
    proj.
    erewrite bind_Ok by (eapply run_getDuktapeContext; eassumption).
    reflexivity. }
  split.
  - exact Hrun.
  - intros Hnull. rewrite Hrun, Hnull.
    unfold pushObject. rewrite bool_decide_eq_true_2 by reflexivity.
    reflexivity.
Qed.

(** The finalizer on an object without the hidden reference throws. *)
Lemma run_javaObjectFinalizer_unbound g st tb cf jd tc p o s h nx e :
  h !! p = Some o -> ordinary o ->
  lookup_prop (KStr JAVA_THIS_PROP_NAME) (props o) = None ->
  javaObjectFinalizer engine
    (World (DukContext (VObject p :: s) h nx g st tb cf) e jd tc) =
  Throw DUK_ERR_TYPE_ERROR "not object coercible"
        (World (DukContext (VUndefined :: VObject p :: s) h nx g st tb cf) e jd tc).
Proof.
  intros Hp Ho Hl.
  unfold javaObjectFinalizer.
  erewrite bind_Ok
    by (eapply run_get_prop_string_own; [reflexivity | exact Hp | exact Ho]).
  proj. rewrite (run_read_own_none _ _ _ _ Hp Hl eq_refl). cbn [snd fst].
  reflexivity.
Qed.

(** X6: the finalizer on an object without the hidden reference.  The
    [undefined] read by the first test is not popped, so the
    enumeration is asked for on it and throws a [TypeError]: no
    reference is deleted and no descriptor destroyed, whatever methods
    the object holds. *)
Theorem javaObjectFinalizer_unbound (w : world) (p : Z) (o : hobject)
    (rest : list jsval) :
  top_of w = VObject p :: rest ->
  heap_of w !! p = Some o ->
  ordinary o ->
  lookup_prop (KStr JAVA_THIS_PROP_NAME) (props o) = None ->
  javaObjectFinalizer engine w =
  Throw DUK_ERR_TYPE_ERROR "not object coercible"
        (with_stack (VUndefined :: VObject p :: rest) w).
Proof.
  intros Htop Hp Ho Hl.
  destruct w as [[s h nx g st tb cf] e jd tc].
  unfold top_of, heap_of in *. cbn [m_context stack heap] in *. subst s.
  eapply run_javaObjectFinalizer_unbound; eassumption.
Qed.

End GetTrap.

Lemma duktape_get_unbound_target_witness :
  __duktape_get (engine_call 0)
    (with_stack [VObject 4; VString "x"; VObject 4] (Reference.world0 true)) =
  Throw DUK_ERR_TYPE_ERROR "pointer required"
        (with_stack [VUndefined; VObject 4]
           (with_stack [VObject 4; VString "x"; VObject 4] (Reference.world0 true)))
  /\
  __duktape_get (engine_call 0)
    (with_stack [VObject 8; VString "x"; VObject 8] world_dangling) =
  Fatal "DuktapeObject is null"
        (with_stack [VObject 8]
           (with_stack [VObject 8; VString "x"; VObject 8] world_dangling))
  /\
  @__duktape_get Reference.debug_host (@engine_call Reference.debug_host 0)
    (with_stack [VObject 8; VString "x"; VObject 8] world_dangling) =
  Fatal invalid_udata
        (with_stack [VObject 8]
           (with_stack [VObject 8; VString "x"; VObject 8] world_dangling)).
Proof.
  split; [|split].
  - apply (duktape_get_unbound_target (engine_call 0)
             (with_stack [VObject 4; VString "x"; VObject 4] (Reference.world0 true))
             (VObject 4) "x" 4 (new_object KPlain) []);
      [ reflexivity | reflexivity | apply ordinary_plain | reflexivity ].
  - refine (proj1 (duktape_get_unbound_target (engine_call 0)
                     (with_stack [VObject 8; VString "x"; VObject 8] world_dangling)
                     (VObject 8) "x" 8
                     (HObject KPlain [(KStr JAVA_THIS_PROP_NAME, VPointer 0)] VUndefined)
                     [] _ _ _) _);
      [ reflexivity | reflexivity | apply ordinary_plain | reflexivity ].
  - refine (proj1 (@duktape_get_unbound_target Reference.debug_host
                     (@engine_call Reference.debug_host 0)
                     (with_stack [VObject 8; VString "x"; VObject 8] world_dangling)
                     (VObject 8) "x" 8
                     (HObject KPlain [(KStr JAVA_THIS_PROP_NAME, VPointer 0)] VUndefined)
                     [] _ _ _) _);
      [ reflexivity | reflexivity | apply ordinary_plain | reflexivity ].
Defined.

Lemma duktape_get_marshals_unchecked_witness :
  exists w',
    __duktape_get (engine_call 0)
      (with_stack [VObject 14; VString "x"; VObject 10]
         (default (Reference.world0 true)
            (world_of (pushObject (engine_call 1) 2000 53 (Reference.world0 true))))) =
    Ok 1 w' /\
    top_of w' = [VNull; VObject 10] /\
    pending (env w') = Some (HostException 1).
Proof.
  eexists. split.
  - apply (duktape_get_marshals_unchecked (engine_call 0)
             (with_stack [VObject 14; VString "x"; VObject 10]
                (default (Reference.world0 true)
                   (world_of (pushObject (engine_call 1) 2000 53
                                         (Reference.world0 true)))))
             (VObject 14) "x" 10 200 1000 2000 (proxy_config 200 10)
             (HDuktapeObject 1) []);
      [ reflexivity | vm_compute; reflexivity | apply ordinary_plain | reflexivity
      | discriminate | | vm_compute; reflexivity | reflexivity | reflexivity ].
    exists (HObject KPlain [(KStr JAVA_VM_PROP_NAME, VPointer 1000);
                            (KStr DUKTAPE_CONTEXT_PROP_NAME, VPointer 2000)] VUndefined).
    split; [vm_compute; reflexivity|].
    split; [apply ordinary_plain|]. split; reflexivity.
  - split; vm_compute; reflexivity.
Defined.

Lemma javaObjectFinalizer_unbound_witness :
  javaObjectFinalizer (engine_call 0)
    (with_stack [VObject 4] (Reference.world0 true)) =
  Throw DUK_ERR_TYPE_ERROR "not object coercible"
        (with_stack [VUndefined; VObject 4]
           (with_stack [VObject 4] (Reference.world0 true))).
Proof.
  apply (javaObjectFinalizer_unbound (engine_call 0)
           (with_stack [VObject 4] (Reference.world0 true)) 4 (new_object KPlain) []);
    [ reflexivity | reflexivity | apply ordinary_plain | reflexivity ].
Defined.

(** ** [pushObject]: the adapter and the missing factory *)

Section PushMore.

Context `{HostRuntime}.

(** X7: a host object that is neither a native type nor a
    [DuktapeObject] crosses wrapped.  [pushObject] allocates a
    [JavaObject] adapter around it and binds the proxy to the adapter:
    the hidden reference of the configuration object is a new global
    reference to the adapter, not to the object that was passed. *)
Theorem pushObject_plain_adapter (n : nat) (this X o : Z) (cls : hostobj) (b : bool)
    (w : world) :
  deref (env w) X = Some cls ->
  referent (env w) X = Some o ->
  JavaValues_get cls = false ->
  is_DuktapeObject cls = false ->
  has_makeProxy (m_context w) b ->
  heap_fresh (m_context w) ->
  0 < jni_next (env w) ->
  let a := jni_next (env w) in
  let nx := heap_next (m_context w) in
  exists w',
    pushObject (engine_call (S n)) this X w = Ok tt w' /\
    top_of w' = VObject (nx + 4) :: top_of w /\
    heap_of w' !! (nx + 4) = Some (new_object (KProxy nx b)) /\
    heap_of w' !! nx = Some (proxy_config (a + 2) nx) /\
    refs (env w') !! (a + 2) = Some (RefCell GlobalRef (Some a)) /\
    objects (env w') !! a = Some (HJavaObject o) /\
    pending (env w') = pending (env w).
Proof.
  intros Hd Hr Hn Hcap Hmp Hfresh Hnext a nx.
  destruct w as [[s h nx0 g st tb cf] e jd tc].
  cbn [m_context env heap_next] in *. subst a nx.
  assert (Hjs : is_JavaScriptObject cls = false).
  { destruct cls; try reflexivity. discriminate Hcap. }
  eexists. split.
  { erewrite pushObject_not_native; [| exact Hd | exact Hn].
    rewrite Hjs, Hcap. cbn [negb].
    erewrite bind_Ok
      by (unfold NewObject, new_ref; proj; rewrite Hr; reflexivity).
    cbn [default].
    eapply run_pushObject_proxy with (o := jni_next e).
    - exact Hmp.
    - exact Hfresh.
    - unfold referent. cbn [refs]. rewrite bool_decide_eq_false_2 by lia.
      rewrite lookup_insert_eq. reflexivity. }
  unfold with_global_ref. proj.
  replace (jni_next e + 1 + 1) with (jni_next e + 2) by lia.
  split; [reflexivity|].
  split; [apply proxy_heap_proxy|].
  split; [apply proxy_heap_config|].
  split; [apply lookup_insert_eq|].
  split; [apply lookup_insert_eq|].
  reflexivity.
Qed.

(** X8: [pushObject] when the script has not defined [__makeProxy].
    The protected call of the missing factory fails, the error is queued
    for the host as a pending exception and popped: the call returns
    with no value pushed, although the global reference for the
    configuration object was already made. *)
Theorem pushObject_missing_factory (n : nat) (this X o : Z) (cls : hostobj)
    (go : hobject) (w : world) :
  deref (env w) X = Some cls ->
  referent (env w) X = Some o ->
  JavaValues_get cls = false ->
  proxied_as_is this cls ->
  heap_of w !! global_object (m_context w) = Some go ->
  ordinary go ->
  lookup_prop (KStr "__makeProxy") (props go) = None ->
  exists w',
    pushObject (engine_call (S n)) this X w = Ok tt w' /\
    top_of w' = top_of w /\
    pending (env w') = Some (DuktapeException DUK_ERR_TYPE_ERROR "not callable") /\
    refs (env w') !! jni_next (env w) = Some (RefCell GlobalRef (Some o)).
Proof.
  intros Hd Hr Hn Has_is Hg Hgo Hmp.
  destruct w as [[s h nx g st tb cf] e jd tc].
  unfold heap_of, top_of in *.
  cbn [m_context env heap stack global_object] in *.
  eexists. split.
  { erewrite pushObject_as_is; [| exact Hd | exact Hn | exact Has_is].
    unfold pushObject_proxy.
    erewrite bind_Ok by (eapply run_get_global_string; eassumption).
    rewrite (run_read_own_none _ _ _ _ Hg Hmp eq_refl). cbn [snd fst].
    erewrite bind_Ok by apply run_push_object.
    erewrite bind_Ok by apply run_normalize_abs.
    erewrite bind_Ok by (apply run_NewGlobalRef; eassumption).
    erewrite bind_Ok by reflexivity.
    erewrite bind_Ok
      by (apply run_put_prop_abs with (pre := []); [solve_lookup | solve_ordinary]).
    erewrite bind_Ok by apply run_push_c_function.
    erewrite bind_Ok by (apply run_set_finalizer_abs with (pre := []); solve_lookup).
    erewrite bind_Ok by apply run_push_c_function.
    erewrite bind_Ok
      by (apply run_put_prop_abs with (pre := []); [solve_lookup | solve_ordinary]).
    erewrite bind_Ok by apply run_push_c_function.
    erewrite bind_Ok
      by (apply run_put_prop_abs with (pre := []); [solve_lookup | solve_ordinary]).
    erewrite bind_Ok.
    2:{ unfold duk_pcall. proj.
        change ((VObject nx :: VUndefined :: s) !! 1%nat) with (Some VUndefined).
        apply protected_Throw. reflexivity. }
    rewrite bool_decide_eq_true_2 by discriminate.
    apply queue_caught. }
  unfold caught, with_global_ref. proj.
  split; [reflexivity|].
  split; [reflexivity|].
  apply lookup_insert_eq.
Qed.

End PushMore.

Lemma pushObject_plain_adapter_witness :
  exists w',
    pushObject (engine_call 1) 2000 51 (Reference.world0 true) = Ok tt w' /\
    top_of w' = [VObject 14] /\
    heap_of w' !! 14 = Some (new_object (KProxy 10 true)) /\
    heap_of w' !! 10 = Some (proxy_config 202 10) /\
    refs (env w') !! 202 = Some (RefCell GlobalRef (Some 200)) /\
    objects (env w') !! 200 = Some (HJavaObject 101) /\
    pending (env w') = None.
Proof.
  apply (pushObject_plain_adapter 0 2000 51 101 (HPlain 7) true (Reference.world0 true));
    [ reflexivity | reflexivity | reflexivity | reflexivity
    | apply (reference_has_makeProxy true []) | apply (reference_heap_fresh true [])
    | vm_compute; reflexivity ].
Defined.

Lemma pushObject_missing_factory_witness :
  exists w',
    pushObject (engine_call 1) 2000 52
      (set_duk (set_heap (<[1 := new_object KPlain]> (Reference.heap0 true))
                         (Reference.duk0 true))
               (Reference.world0 true)) = Ok tt w' /\
    top_of w' = [] /\
    pending (env w') = Some (DuktapeException DUK_ERR_TYPE_ERROR "not callable") /\
    refs (env w') !! 200 = Some (RefCell GlobalRef (Some 102)).
Proof.
  apply (pushObject_missing_factory 0 2000 52 102 (HDuktapeObject 0)
           (new_object KPlain)
           (set_duk (set_heap (<[1 := new_object KPlain]> (Reference.heap0 true))
                              (Reference.duk0 true))
                    (Reference.world0 true)));
    [ reflexivity | reflexivity | reflexivity
    | split; [reflexivity | left; reflexivity]
    | vm_compute; reflexivity | apply ordinary_plain | reflexivity ].
Defined.

(** ** Handles of script objects *)

Section Handles.

Context `{HostRuntime}.
Variable engine : jsval -> jsval -> list jsval -> M jsval.







End Handles.



(** ** [call] and [callProperty] at their edges *)

Section CallEdges.

Context `{HostRuntime}.

Lemma engine_call_not_callable n callee this args w :
  not_callable (heap_of w) callee ->
  engine_call (S n) callee this args w = Throw DUK_ERR_TYPE_ERROR "not callable" w.
Proof.
  intros Hnc. cbn [engine_call]. unfold engine_call_step.
  destruct callee as [| |b|k|str|p|q|q|q]; try reflexivity.
  destruct Hnc as (o & Hp & Hk). rewrite Hp.
  destruct o as [[] ? ?]; cbn [kind] in Hk; first [reflexivity | contradiction Hk].
Qed.

(** [popObject] on [null] or [undefined]: the value is popped and the
    result is null. *)
Lemma popObject_nullish engine (w : world) (v : jsval) (rest : list jsval) :
  top_of w = v :: rest ->
  v = VNull \/ v = VUndefined ->
  popObject engine w = Ok 0 (with_stack rest w).
Proof.
  intros Htop Hv.
  unfold popObject, bind, duk_check_type_mask, duk_is_array, duk_get_type, bind, ret.
  destruct Hv as [-> | ->]; simpl;
    repeat (rewrite ?Htop; simpl);
    unfold duk_pop, duk_pop_n, with_stack, put_stack; rewrite Htop; reflexivity.
Qed.

(** X11: a call of something that is not callable.  [call] on a handle
    pointer that is null or designates a plain object, and
    [callProperty] on a property that is missing or holds such a value,
    return null with a [TypeError] pending for the host as a
    [DuktapeException]; the callee, the key and the arguments are gone
    from the value stack. *)
Theorem call_not_callable (n : nat) (w w1 : world) (jargs : option (list Z))
    (len : nat) :
  (forall (object : Z) (callee : jsval),
     push_arguments (engine_call (S n)) (this_context w) jargs
                    (pushed_heapptr object w) = Ok len w1 ->
     top_of w1 !! len = Some callee ->
     not_callable (heap_of w1) callee ->
     exists w4,
       call (engine_call (S n)) object jargs w = Ok 0 w4 /\
       pending (env w4) = Some (DuktapeException DUK_ERR_TYPE_ERROR "not callable") /\
       top_of w4 = drop (S len) (top_of w1))
  /\
  (forall (wb : world) (object property : Z) (key this f : jsval) (found : bool),
     pushObject (engine_call (S n)) (this_context w) property
                (pushed_heapptr object w) = Ok tt wb ->
     push_arguments (engine_call (S n)) (this_context w) jargs wb = Ok len w1 ->
     top_of w1 !! len = Some key ->
     drop (S len) (top_of w1) = this :: top_of w ->
     getprop (engine_call (S n)) (Some this) (to_property_key key) w1 =
       Ok (found, f) w1 ->
     not_callable (heap_of w1) f ->
     exists w4,
       callProperty (engine_call (S n)) object property jargs w = Ok 0 w4 /\
       pending (env w4) = Some (DuktapeException DUK_ERR_TYPE_ERROR "not callable") /\
       top_of w4 = top_of w).
Proof.
  split.
  - intros object callee Hpush Hfunc Hnc.
    eexists. split.
    + unfold call.
      erewrite bind_Ok by apply run_pushObject_heapptr.
      erewrite bind_Ok by exact Hpush.
      erewrite bind_Ok.
      2:{ unfold duk_pcall. rewrite Hfunc.
          apply protected_Throw. apply engine_call_not_callable. exact Hnc. }
      rewrite bool_decide_eq_true_2 by discriminate.
      erewrite bind_Ok by apply queue_caught.
      reflexivity.
    + split; reflexivity.
  - intros wb object property key this f found Hprop_push Hpush Hkey Hrest Hget Hnc.
    assert (Hobj : stack_at (Z.of_nat (length (top_of w))) (top_of w1) = Some this).
    { rewrite <- (take_drop (S len) (top_of w1)), Hrest. apply stack_at_abs. }
    eexists. split.
    + unfold callProperty.
      erewrite bind_Ok by apply run_pushObject_heapptr.
      erewrite (bind_Ok _ _ _ (Z.of_nat (length (top_of w)))).
      2:{ unfold duk_normalize_index, pushed_heapptr. proj. cbn [length].
          change (-1 <? 0) with true. cbv iota.
          destruct (Z.leb_spec (- -1) (Z.of_nat (S (length (stack (m_context w))))))
            as [_|?]; [|lia].
          f_equal. lia. }
      erewrite bind_Ok by exact Hprop_push.
      erewrite bind_Ok by exact Hpush.
      erewrite bind_Ok.
      2:{ unfold duk_pcall_prop. rewrite Hkey. rewrite Hobj.
          apply protected_Throw.
          rewrite (bind_Ok _ _ _ _ _ Hget). cbn [snd default].
          apply engine_call_not_callable. exact Hnc. }
      rewrite bool_decide_eq_true_2 by discriminate.
      erewrite bind_Ok by apply queue_caught.
      rewrite Hrest.
      erewrite bind_Ok by reflexivity.
      reflexivity.
    + split; reflexivity.
Qed.

(** The apply trap when the host method returned without raising: the
    result is marshalled and the trap answers 1. *)
Lemma run_duktape_apply_returns engine w w2 operands cls :
  __duktape_apply_operands engine w = Ok operands w2 ->
  deref (env w2) (apply_object operands) = Some cls ->
  is_DuktapeObject cls = true ->
  pending (snd (DuktapeObject_invoke (apply_object operands)
                  (apply_this operands) (apply_args operands) (env w2))) = None ->
  __duktape_apply engine w =
  bind (pushObject engine (apply_context operands)
          (fst (DuktapeObject_invoke (apply_object operands)
                  (apply_this operands) (apply_args operands) (env w2))))
       (fun _ => ret 1)
       (set_env (snd (DuktapeObject_invoke (apply_object operands)
                        (apply_this operands) (apply_args operands) (env w2))) w2).
Proof.
  intros Hops Hd Hcap Hquiet. unfold __duktape_apply.
  rewrite (bind_Ok _ _ _ _ _ Hops).
  erewrite bind_Ok by (unfold GetObjectClass; rewrite Hd; reflexivity).
  rewrite Hcap. cbn [negb].
  erewrite bind_Ok by apply run_CallObjectMethod.
  erewrite (bind_Ok _ _ _ true); [reflexivity|].
  unfold checkRethrowDuktapeError.
  erewrite (bind_Ok _ _ _ false); [reflexivity|].
  unfold ExceptionCheck. proj. rewrite Hquiet.
  rewrite bool_decide_eq_false_2 by (intros [? ?]; discriminate).
  reflexivity.
Qed.

(** The engine calling a proxy whose apply trap answers 1: the call
    returns the value the trap left on top of its stack. *)
Lemma engine_call_proxy_value n w p t fa b pps pfin fps ffin this args w3 :
  heap_of w !! p = Some (HObject (KProxy t b) pps pfin) ->
  own_prop (heap_of w) t (KStr "__duktape_apply") = Some (VObject fa) ->
  heap_of w !! fa = Some (HObject (KCFunction fn_duktape_apply 3) fps ffin) ->
  fa <> heap_next (m_context w) ->
  __duktape_apply (engine_call n) (apply_frame t fa this args w) = Ok 1 w3 ->
  engine_call (S (S n)) (VObject p) this args w =
  Ok (default VUndefined (head (top_of w3))) (leave (m_context w) w3).
Proof.
  intros Hp Hprop Hfa Hfresh Htrap.
  destruct w as [[s h nx g st tb cf] e jd tc].
  unfold heap_of in *. cbn [m_context heap heap_next] in *.
  cbn [engine_call]. unfold engine_call_step at 1. proj. rewrite Hp.
  erewrite bind_Ok by reflexivity.
  unfold read_prop. rewrite Hprop. cbn [snd].
  unfold engine_call_step at 1. proj.
  rewrite lookup_insert_ne by (intros E; apply Hfresh; symmetry; exact E).
  rewrite Hfa.
  unfold call_cfunction. cbn [run_cfunction].
  unfold apply_frame in Htrap. proj.
  unfold adjust_arguments. change (3 <? 0) with false. cbv iota.
  change (Z.to_nat 3) with 3%nat. cbn [app replicate take rev].
  unfold set_duk in Htrap. cbn [m_context env heap heap_next global_object global_stash
                                m_javaDuktape this_context] in Htrap.
  rewrite Htrap. reflexivity.
Qed.

(** X12: a call whose callee is a proxy, the host method behind the
    proxy returning null without raising.  The trap marshals the null,
    [call] pops it and returns null with no exception pending, and the
    callee and the arguments are gone from the value stack. *)
Theorem call_host_null (n : nat) (w w1 w2 : world) (p t fa object : Z) (b : bool)
    (pps fps : list (propkey * jsval)) (pfin ffin : jsval)
    (jargs : option (list Z)) (len : nat)
    (operands : apply_operands) (cls : hostobj) :
  push_arguments (engine_call (S (S n))) (this_context w) jargs
                 (pushed_heapptr object w) = Ok len w1 ->
  top_of w1 !! len = Some (VObject p) ->
  heap_of w1 !! p = Some (HObject (KProxy t b) pps pfin) ->
  own_prop (heap_of w1) t (KStr "__duktape_apply") = Some (VObject fa) ->
  heap_of w1 !! fa = Some (HObject (KCFunction fn_duktape_apply 3) fps ffin) ->
  fa <> heap_next (m_context w1) ->
  __duktape_apply_operands (engine_call n)
    (apply_frame t fa VUndefined (rev (take len (top_of w1))) w1) = Ok operands w2 ->
  deref (env w2) (apply_object operands) = Some cls ->
  is_DuktapeObject cls = true ->
  fst (DuktapeObject_invoke (apply_object operands)
         (apply_this operands) (apply_args operands) (env w2)) = 0 ->
  pending (snd (DuktapeObject_invoke (apply_object operands)
                  (apply_this operands) (apply_args operands) (env w2))) = None ->
  exists w4,
    call (engine_call (S (S n))) object jargs w = Ok 0 w4 /\
    pending (env w4) = None /\
    top_of w4 = drop (S len) (top_of w1).
Proof.
  intros Hpush Hfunc Hp Hprop Hfa Hfresh Hops Hd Hcap Hnull Hquiet.
  pose proof (run_duktape_apply_returns _ _ _ _ _ Hops Hd Hcap Hquiet) as Htrap.
  rewrite Hnull in Htrap.
  unfold pushObject in Htrap.
  rewrite bool_decide_eq_true_2 in Htrap by reflexivity.
  change (bind duk_push_null (fun _ => ret 1)
            (set_env (snd (DuktapeObject_invoke (apply_object operands)
                             (apply_this operands) (apply_args operands) (env w2))) w2))
    with (@Ok Z 1 (with_stack (VNull :: top_of w2)
            (set_env (snd (DuktapeObject_invoke (apply_object operands)
                             (apply_this operands) (apply_args operands) (env w2))) w2)))
    in Htrap.
  pose proof (engine_call_proxy_value _ _ _ _ _ _ _ _ _ _ _ _ _
                Hp Hprop Hfa Hfresh Htrap) as Hcall.
  eexists. split.
  - unfold call.
    erewrite bind_Ok by apply run_pushObject_heapptr.
    erewrite bind_Ok by exact Hpush.
    erewrite bind_Ok.
    2:{ unfold duk_pcall. rewrite Hfunc. unfold protected. rewrite Hcall.
        reflexivity. }
    rewrite bool_decide_eq_false_2 by (intros Hne; apply Hne; reflexivity).
    eapply popObject_nullish; [reflexivity | left; reflexivity].
  - split; [exact Hquiet | reflexivity].
Qed.

End CallEdges.

Lemma call_not_callable_witness :
  (exists w4,
     call (engine_call 1) 4 None (Reference.world0 true) = Ok 0 w4 /\
     pending (env w4) = Some (DuktapeException DUK_ERR_TYPE_ERROR "not callable") /\
     top_of w4 = []) /\
  (exists w4,
     callProperty (engine_call 1) 4 54 None (Reference.world0 true) = Ok 0 w4 /\
     pending (env w4) = Some (DuktapeException DUK_ERR_TYPE_ERROR "not callable") /\
     top_of w4 = []).
Proof.
  split.
  - destruct (call_not_callable 0 (Reference.world0 true)
                (pushed_heapptr 4 (Reference.world0 true)) None 0%nat)
      as [Hcall _].
    destruct (Hcall 4 (VObject 4)) as (w4 & Hrun & Hpending & Htop);
      [ reflexivity | reflexivity
      | exists (new_object KPlain); split; [reflexivity | exact I] | ].
    exists w4. split; [exact Hrun|]. split; [exact Hpending | exact Htop].
  - destruct (call_not_callable 0 (Reference.world0 true)
                (with_stack [VNumber 5; VObject 4] (Reference.world0 true)) None 0%nat)
      as [_ Hprop].
    destruct (Hprop (with_stack [VNumber 5; VObject 4] (Reference.world0 true))
                    4 54 (VNumber 5) (VObject 4) VUndefined false)
      as (w4 & Hrun & Hpending & Htop);
      [ vm_compute; reflexivity | reflexivity | reflexivity | reflexivity
      | vm_compute; reflexivity | exact I | ].
    exists w4. split; [exact Hrun|]. split; [exact Hpending | exact Htop].
Defined.

Lemma call_host_null_witness :
  exists w4,
    call (engine_call 2) 14 None
      (with_stack []
         (default (Reference.world0 true)
            (world_of (pushObject (engine_call 1) 2000 52 (Reference.world0 true))))) =
    Ok 0 w4 /\
    pending (env w4) = None /\
    top_of w4 = [].
Proof.
  pose (wP := default (Reference.world0 true)
                (world_of (pushObject (engine_call 1) 2000 52 (Reference.world0 true)))).
  pose (w := with_stack [] wP).
  pose (w2 := default w
                (world_of (__duktape_apply_operands (engine_call 0)
                             (apply_frame 10 13 VUndefined [] (pushed_heapptr 14 w))))).
  destruct (call_host_null 0 w (pushed_heapptr 14 w) w2 14 10 13 14 true [] []
              VUndefined VUndefined None 0%nat (ApplyOperands 2000 [] 0 200)
              (HDuktapeObject 0))
    as (w4 & Hrun & Hpending & Htop);
    [ reflexivity | reflexivity | vm_compute; reflexivity | vm_compute; reflexivity
    | vm_compute; reflexivity | vm_compute; discriminate | vm_compute; reflexivity
    | vm_compute; reflexivity | reflexivity | vm_compute; reflexivity
    | vm_compute; reflexivity | ].
  exists w4. split; [exact Hrun|]. split; [exact Hpending | exact Htop].
Defined.

(** ** [set]: binding the methods *)

Section BindMethods.

Context `{HostRuntime}.
Variables (g st : Z) (tb cf : jsval) (jd tc : Z).

Local Abbreviation mk s h nx e := (World (DukContext s h nx g st tb cf) e jd tc).

(** The host answers for a method do not depend on what the bridge
    itself changes in the JVM: [name] is the name of a method in every
    JVM with the host objects [objs] and the references [rfs]. *)
Variable name : Z -> string.
Variables (objs : gmap Z hostobj) (rfs : gmap Z refcell).
Hypothesis Hname :
  forall m e, objects e = objs -> refs e = rfs -> Method_getName m e = name m.

Lemma bind_methods_step iname obj o m rest s h nx e :
  h !! obj = Some o -> ordinary o -> obj <> nx ->
  objects e = objs -> refs e = rfs ->
  JavaMethod_invalid m e = None ->
  bind_methods iname (Z.of_nat (length (VObject g :: s))) (m :: rest)
               (mk (VObject obj :: VObject g :: s) h nx e) =
  bind_methods iname (Z.of_nat (length (VObject g :: s))) rest
    (mk (VObject obj :: VObject g :: s)
        (<[obj := with_props (store_prop (KStr (name m)) (VObject nx)) o]>
           (<[nx := method_function (jni_next e)]>
              (<[nx := new_object (KCFunction fn_javaMethodHandler DUK_VARARGS)]> h)))
        (nx + 1) (with_method m e)).
Proof.
  intros Hobj Ho Hne Hobjs Hrfs Hvalid.
  cbn [bind_methods]. proj. rewrite Hvalid, (Hname _ _ Hobjs Hrfs).
  erewrite bind_Ok by reflexivity.
  erewrite bind_Ok by apply run_push_c_function.
  erewrite bind_Ok by reflexivity.
  erewrite bind_Ok
    by (apply run_put_prop_abs with (pre := []); [solve_lookup | solve_ordinary]).
  erewrite bind_Ok
    by (apply run_put_prop_abs with (pre := []); [solve_lookup | exact Ho]).
  reflexivity.
Qed.

Lemma methods_bound_nil obj nx h o e :
  h !! obj = Some o -> methods_bound name [] obj nx h h o o e e.
Proof.
  intros Hobj. unfold methods_bound. cbn [length].
  repeat split; try reflexivity; try assumption.
  - intros m Hm. apply elem_of_nil in Hm. contradiction.
  - lia.
Qed.

Lemma bind_methods_valid iname ms :
  forall tail obj o s h nx e,
    h !! obj = Some o -> ordinary o -> obj < nx ->
    objects e = objs -> refs e = rfs ->
    (forall m e', m ∈ ms -> objects e' = objs -> refs e' = rfs ->
                  JavaMethod_invalid m e' = None) ->
    exists h' e' o',
      bind_methods iname (Z.of_nat (length (VObject g :: s))) (ms ++ tail)
                   (mk (VObject obj :: VObject g :: s) h nx e) =
      bind_methods iname (Z.of_nat (length (VObject g :: s))) tail
                   (mk (VObject obj :: VObject g :: s) h'
                       (nx + Z.of_nat (length ms)) e') /\
      ordinary o' /\
      methods_bound name ms obj nx h h' o o' e e'.
Proof.
  induction ms as [|m rest IH]; intros tail obj o s h nx e Hobj Ho Hlt Hobjs Hrfs Hvalid.
  - exists h, e, o. cbn [app length]. replace (nx + Z.of_nat 0) with nx by lia.
    split; [reflexivity|]. split; [exact Ho|]. apply methods_bound_nil. exact Hobj.
  - assert (Hm : JavaMethod_invalid m e = None)
      by (apply Hvalid; [apply list_elem_of_here | assumption | assumption]).
    pose proof (bind_methods_step iname obj o m (rest ++ tail) s h nx e
                  Hobj Ho ltac:(lia) Hobjs Hrfs Hm) as Hstep.
    set (h1 := <[obj := with_props (store_prop (KStr (name m)) (VObject nx)) o]>
                 (<[nx := method_function (jni_next e)]>
                    (<[nx := new_object (KCFunction fn_javaMethodHandler DUK_VARARGS)]> h)))
      in *.
    set (o1 := with_props (store_prop (KStr (name m)) (VObject nx)) o) in *.
    assert (Hobj1 : h1 !! obj = Some o1) by (subst h1; apply lookup_insert_eq).
    destruct (IH tail obj o1 s h1 (nx + 1) (with_method m e) Hobj1
                 (ordinary_with_props _ _ Ho) ltac:(lia) Hobjs Hrfs)
      as (h' & e' & o' & Hrun & Ho' & Hb).
    { intros m0 e0 Hin. apply Hvalid. apply list_elem_of_further. exact Hin. }
    destruct Hb as (Hb1 & Hb2 & Hb3 & Hb4 & Hb5 & Hb6 & Hb7 & Hb8 & Hb9 & Hb10
                    & Hb11 & Hb12 & Hb13).
    cbn [objects refs pending released destroyed jni_next methods with_method] in *.
    exists h', e', o'. split.
    { cbn [app]. rewrite Hstep. rewrite Hrun. cbn [length].
      replace (nx + 1 + Z.of_nat (length rest))
        with (nx + Z.of_nat (S (length rest))) by lia.
      reflexivity. }
    split; [exact Ho'|].
    unfold methods_bound.
    split; [exact Hb1|]. split; [rewrite Hb2; reflexivity|].
    split; [rewrite Hb3; reflexivity|].
    split.
    { intros k Hk. rewrite fmap_cons in Hk. apply not_elem_of_cons in Hk.
      destruct Hk as [Hk1 Hk2].
      rewrite (Hb4 k Hk2). subst o1. cbn [with_props props].
      apply lookup_store_prop_ne. exact Hk1. }
    split.
    { intros m0 Hin.
      destruct (decide (KStr (name m0) ∈ (fun m => KStr (name m)) <$> rest))
        as [Hrest|Hrest].
      - apply list_elem_of_fmap in Hrest. destruct Hrest as (m1 & Hn1 & Hin1).
        destruct (Hb5 m1 Hin1) as (f & ptr & m' & Hl & Hf & Hmt & Hnm & Hfb & Hpb).
        exists f, ptr, m'. rewrite Hn1.
        split; [exact Hl|]. split; [exact Hf|]. split; [exact Hmt|].
        split; [congruence|]. split; lia.
      - apply elem_of_cons in Hin. destruct Hin as [->|Hin].
        2:{ exfalso. apply Hrest. apply list_elem_of_fmap. exists m0.
            split; [reflexivity | exact Hin]. }
        exists nx, (jni_next e), m.
        split.
        { rewrite (Hb4 _ Hrest). subst o1. cbn [with_props props].
          apply lookup_store_prop_eq. }
        split.
        { rewrite (Hb6 nx) by lia. subst h1.
          rewrite lookup_insert_ne by lia. apply lookup_insert_eq. }
        split.
        { rewrite (Hb13 (jni_next e)) by lia. apply lookup_insert_eq. }
        split; [reflexivity|]. split; lia. }
    split.
    { intros k Hk Hko. rewrite (Hb6 k) by lia. subst h1.
      rewrite lookup_insert_ne by (intros E; apply Hko; symmetry; exact E).
      rewrite !lookup_insert_ne by lia. reflexivity. }
    split; [exact Hb7|]. split; [exact Hb8|]. split; [exact Hb9|].
    split; [exact Hb10|]. split; [exact Hb11|].
    split.
    { rewrite Hb12. cbn [length]. lia. }
    intros k Hk. rewrite (Hb13 k) by lia. apply lookup_insert_ne. lia.
Qed.

End BindMethods.

Section BindObjectMethods.

Context `{HostRuntime}.
Variable engine : jsval -> jsval -> list jsval -> M jsval.

Lemma referent_same_refs e e' r : refs e' = refs e -> referent e' r = referent e r.
Proof. intros E. unfold referent. rewrite E. reflexivity. Qed.

Lemma heap_fresh_below s h nx g st tb cf k o :
  heap_fresh (DukContext s h nx g st tb cf) -> h !! k = Some o -> k < nx.
Proof.
  intros Hfresh Hk. destruct (Z.lt_ge_cases k nx) as [?|Hge]; [assumption|].
  unfold heap_fresh in Hfresh. cbn [heap heap_next] in Hfresh.
  rewrite (Hfresh k Hge) in Hk. discriminate.
Qed.

(** X13: [set] on a free name with methods the marshaller accepts.  The
    name is free when the global object neither has it nor inherits it,
    which is what the engine's [in] of the duplicate test asks; the
    method names are names a plain object does not inherit, so that
    writing them creates properties of the new object.  The global of
    that name is then a new object whose finalizer is
    [javaObjectFinalizer] and whose hidden reference is a new global
    reference to the host object; every method of the list is reachable
    on it under its name, as a function carrying a live descriptor for a
    method of that name.  The value stack is balanced and no exception
    is queued. *)
Theorem set_binds_object (name : Z -> string) (iname : string) (object target : Z)
    (ms : list Z) (w : world) (go : hobject) :
  heap_of w !! global_object (m_context w) = Some go ->
  ordinary go ->
  lookup_prop (KStr iname) (props go) = None ->
  inherited_property (kind go) iname = None ->
  (forall m, m ∈ ms -> inherited_property KPlain (name m) = None) ->
  heap_fresh (m_context w) ->
  referent (env w) object = Some target ->
  (forall m e, objects e = objects (env w) -> refs e = refs (env w) ->
               Method_getName m e = name m) ->
  (forall m e, m ∈ ms -> objects e = objects (env w) -> refs e = refs (env w) ->
               JavaMethod_invalid m e = None) ->
  (forall m, m ∈ ms -> name m <> JAVA_THIS_PROP_NAME) ->
  let p := heap_next (m_context w) in
  exists w' o' r,
    set iname object ms w = Ok tt w' /\
    top_of w' = top_of w /\
    pending (env w') = pending (env w) /\
    own_prop (heap_of w') (global_object (m_context w)) (KStr iname) =
      Some (VObject p) /\
    heap_of w' !! p = Some o' /\
    finalizer o' = VObject (p + 1) /\
    heap_of w' !! (p + 1) = Some (new_object (KCFunction fn_javaObjectFinalizer 1)) /\
    lookup_prop (KStr JAVA_THIS_PROP_NAME) (props o') = Some (VPointer r) /\
    refs (env w') !! r = Some (RefCell GlobalRef (Some target)) /\
    forall m, m ∈ ms ->
      exists f ptr m',
        lookup_prop (KStr (name m)) (props o') = Some (VObject f) /\
        heap_of w' !! f = Some (method_function ptr) /\
        methods (env w') !! ptr = Some m' /\ name m' = name m.
Proof.
  intros Hg Hgo Hfree Hinh _ Hfresh Href Hname Hvalid Hhidden p.
  destruct w as [[s h nx g st tb cf] e jd tc].
  unfold heap_of, top_of in *.
  cbn [m_context env stack heap heap_next global_object] in *. subst p.
  pose proof (heap_fresh_below _ _ _ _ _ _ _ _ _ Hfresh Hg) as Hgnx.
  set (h2 := <[nx := HObject KPlain [] (VObject (nx + 1))]>
               (<[nx + 1 := new_object (KCFunction fn_javaObjectFinalizer 1)]>
                  (<[nx := new_object KPlain]> h))).
  destruct (bind_methods_valid g st tb cf jd tc name (objects e) (refs e) Hname
              iname ms [] nx (HObject KPlain [] (VObject (nx + 1))) s h2 (nx + 1 + 1) e)
    as (h' & e' & o' & Hrun & Ho' & Hb);
    [ subst h2; apply lookup_insert_eq | apply ordinary_plain | lia
    | reflexivity | reflexivity | exact Hvalid | ].
  rewrite app_nil_r in Hrun.
  destruct Hb as (Hb1 & Hb2 & Hb3 & Hb4 & Hb5 & Hb6 & Hb7 & Hb8 & Hb9 & Hb10
                  & Hb11 & Hb12 & Hb13).
  cbn [finalizer] in Hb3.
  assert (Hg' : h' !! g = Some go).
  { rewrite (Hb6 g) by lia. subst h2. rewrite !lookup_insert_ne by lia. exact Hg. }
  eexists. exists (with_props (store_prop (KStr JAVA_THIS_PROP_NAME)
                                          (VPointer (jni_next e'))) o').
  exists (jni_next e'). split.
  { unfold set.
    erewrite bind_Ok by reflexivity. proj.
    erewrite bind_Ok by (eapply run_has_prop; eassumption).
    rewrite (has_property_missing _ _ _ _ Hg Hfree Hinh).
    erewrite bind_Ok by apply run_push_object.
    erewrite bind_Ok by apply run_normalize_abs.
    erewrite bind_Ok by apply run_push_c_function.
    erewrite bind_Ok by (apply run_set_finalizer_abs with (pre := []); solve_lookup).
    cbn [app kind props new_object]. fold h2.
    unfold bind at 1. rewrite Hrun. cbn [bind_methods]. unfold ret at 1.
    erewrite bind_Ok.
    2:{ apply run_NewGlobalRef. rewrite (referent_same_refs _ _ _ Hb8). exact Href. }
    erewrite bind_Ok by reflexivity.
    erewrite bind_Ok
      by (apply run_put_prop_abs with (pre := []); [exact Hb1 | exact Ho']).
    erewrite bind_Ok.
    2:{ apply run_put_prop_m2; [| exact Hgo].
        rewrite lookup_insert_ne by lia. exact Hg'. }
    apply run_duk_pop. }
  cbn [m_context env stack heap refs pending methods with_global_ref].
  split; [reflexivity|].
  split; [exact Hb9|].
  split.
  { unfold own_prop. rewrite lookup_insert_eq. cbn [mbind option_bind with_props props].
    apply lookup_store_prop_eq. }
  split; [rewrite lookup_insert_ne by lia; apply lookup_insert_eq|].
  split; [cbn [with_props finalizer]; exact Hb3|].
  split.
  { rewrite !lookup_insert_ne by lia. rewrite (Hb6 (nx + 1)) by lia.
    subst h2. rewrite lookup_insert_ne by lia. apply lookup_insert_eq. }
  split; [cbn [with_props props]; apply lookup_store_prop_eq|].
  split; [apply lookup_insert_eq|].
  intros m Hin.
  destruct (Hb5 m Hin) as (f & ptr & m' & Hl & Hf & Hmt & Hnm & Hfb & _).
  exists f, ptr, m'.
  split.
  { cbn [with_props props]. rewrite lookup_store_prop_ne; [exact Hl|].
    intros E. injection E as E. exact (Hhidden m Hin E). }
  split; [rewrite !lookup_insert_ne by lia; exact Hf|].
  split; [exact Hmt | exact Hnm].
Qed.

(** X14: [set] on a free name, one the global object neither has nor
    inherits, with a method the marshaller rejects.  The exception
    names the instance and the method; the value stack is balanced, the
    global object is untouched and no reference to the host object is
    taken.  The descriptors of the methods bound before the rejected
    one stay allocated: nothing destroys them here, and the finalizer
    of the abandoned object, which was given no hidden reference,
    throws before it reaches them. *)
Theorem set_invalid_method (name : Z -> string) (iname what : string) (object bad : Z)
    (good rest : list Z) (w : world) (go : hobject) :
  heap_of w !! global_object (m_context w) = Some go ->
  ordinary go ->
  lookup_prop (KStr iname) (props go) = None ->
  inherited_property (kind go) iname = None ->
  heap_fresh (m_context w) ->
  (forall m e, objects e = objects (env w) -> refs e = refs (env w) ->
               Method_getName m e = name m) ->
  (forall m e, m ∈ good -> objects e = objects (env w) -> refs e = refs (env w) ->
               JavaMethod_invalid m e = None) ->
  (forall e, objects e = objects (env w) -> refs e = refs (env w) ->
             JavaMethod_invalid bad e = Some what) ->
  (forall m, m ∈ good -> name m <> JAVA_THIS_PROP_NAME) ->
  let p := heap_next (m_context w) in
  exists w',
    set iname object (good ++ bad :: rest) w = Ok tt w' /\
    top_of w' = top_of w /\
    pending (env w') =
      Some (IllegalArgumentException (invalid_method_message iname (name bad) what)) /\
    heap_of w' !! global_object (m_context w) = Some go /\
    refs (env w') = refs (env w) /\
    destroyed (env w') = destroyed (env w) /\
    (forall m, m ∈ good ->
       exists ptr m', jni_next (env w) <= ptr /\
                      methods (env w') !! ptr = Some m' /\ name m' = name m) /\
    javaObjectFinalizer engine (with_stack [VObject p] w') =
      Throw DUK_ERR_TYPE_ERROR "not object coercible"
            (with_stack [VUndefined; VObject p] w').
Proof.
  intros Hg Hgo Hfree Hinh Hfresh Hname Hvalid Hbad Hhidden p.
  destruct w as [[s h nx g st tb cf] e jd tc].
  unfold heap_of, top_of in *.
  cbn [m_context env stack heap heap_next global_object] in *. subst p.
  pose proof (heap_fresh_below _ _ _ _ _ _ _ _ _ Hfresh Hg) as Hgnx.
  set (h2 := <[nx := HObject KPlain [] (VObject (nx + 1))]>
               (<[nx + 1 := new_object (KCFunction fn_javaObjectFinalizer 1)]>
                  (<[nx := new_object KPlain]> h))).
  destruct (bind_methods_valid g st tb cf jd tc name (objects e) (refs e) Hname
              iname good (bad :: rest) nx (HObject KPlain [] (VObject (nx + 1)))
              s h2 (nx + 1 + 1) e)
    as (h' & e' & o' & Hrun & Ho' & Hb);
    [ subst h2; apply lookup_insert_eq | apply ordinary_plain | lia
    | reflexivity | reflexivity | exact Hvalid | ].
  destruct Hb as (Hb1 & Hb2 & Hb3 & Hb4 & Hb5 & Hb6 & Hb7 & Hb8 & Hb9 & Hb10
                  & Hb11 & Hb12 & Hb13).
  assert (Hg' : h' !! g = Some go).
  { rewrite (Hb6 g) by lia. subst h2. rewrite !lookup_insert_ne by lia. exact Hg. }
  eexists. split.
  { unfold set.
    erewrite bind_Ok by reflexivity. proj.
    erewrite bind_Ok by (eapply run_has_prop; eassumption).
    rewrite (has_property_missing _ _ _ _ Hg Hfree Hinh).
    erewrite bind_Ok by apply run_push_object.
    erewrite bind_Ok by apply run_normalize_abs.
    erewrite bind_Ok by apply run_push_c_function.
    erewrite bind_Ok by (apply run_set_finalizer_abs with (pre := []); solve_lookup).
    cbn [app kind props new_object]. fold h2.
    unfold bind at 1. rewrite Hrun. cbn [bind_methods]. proj.
    rewrite (Hbad e' Hb7 Hb8), (Hname bad e' Hb7 Hb8).
    erewrite bind_Ok by reflexivity.
    erewrite bind_Ok by reflexivity.
    reflexivity. }
  proj. cbn [set_pending refs pending destroyed methods drop].
  split; [reflexivity|].
  split; [reflexivity|].
  split; [exact Hg'|].
  split; [exact Hb8|].
  split; [exact Hb11|].
  split.
  { intros m Hin.
    destruct (Hb5 m Hin) as (f & ptr & m' & _ & _ & Hmt & Hnm & _ & Hpb).
    exists ptr, m'. split; [exact Hpb|]. split; [exact Hmt | exact Hnm]. }
  eapply run_javaObjectFinalizer_unbound; [exact Hb1 | exact Ho' |].
  destruct (lookup_prop (KStr JAVA_THIS_PROP_NAME) (props o')) as [v|] eqn:Hl;
    [| reflexivity].
  rewrite Hb4 in Hl; [discriminate Hl|].
  intros Hin. apply list_elem_of_fmap in Hin. destruct Hin as (m & E & Hm).
  injection E as E. apply (Hhidden m Hm). symmetry. exact E.
Qed.

(** X24: a name the global object only inherits is a taken name.  The
    duplicate test of [set] is the engine's [in], which looks along the
    prototype chain: for a name the global object has no property of
    its own for but inherits, [set] queues the same
    [IllegalArgumentException] as for a global of that name and does
    nothing else. *)
Theorem set_inherited_name (iname : string) (object : Z) (ms : list Z)
    (w : world) (go : hobject) (v : jsval) :
  heap_of w !! global_object (m_context w) = Some go ->
  ordinary go ->
  lookup_prop (KStr iname) (props go) = None ->
  inherited_property (kind go) iname = Some v ->
  exists w',
    set iname object ms w = Ok tt w' /\
    m_context w' = m_context w /\
    env w' = set_pending
               (Some (IllegalArgumentException (duplicate_global_message iname)))
               (env w).
Proof.
  intros Hg Hgo _ Hinh.
  destruct w as [[s h nx g st tb cf] e jd tc].
  unfold heap_of in Hg. cbn [m_context heap global_object] in Hg.
  eexists. split.
  - unfold set.
    erewrite bind_Ok by reflexivity. proj.
    erewrite bind_Ok by (eapply run_has_prop; eassumption).
    rewrite (has_property_inherited _ _ _ _ _ Hg Hinh).
    erewrite bind_Ok by reflexivity.
    reflexivity.
  - split; reflexivity.
Qed.

End BindObjectMethods.

(** ** The finalizer on a bound object *)

Lemma remove_prop_absent k ps : lookup_prop k ps = None -> remove_prop k ps = ps.
Proof.
  unfold lookup_prop, remove_prop.
  induction ps as [|[k0 v0] ps IH]; [reflexivity|].
  cbn [find fst]. destruct (bool_decide_reflect (k0 = k)) as [E|Hne].
  - discriminate.
  - intros Hl. rewrite filter_cons_True by exact Hne. rewrite (IH Hl). reflexivity.
Qed.

Lemma destroy_all_cons d ds e :
  destroy_all (d :: ds) e =
  destroy_all ds (JniEnv (objects e) (refs e) (jni_next e) (pending e) (released e)
                         (delete d (methods e)) (d :: destroyed e)).
Proof. reflexivity. Qed.

Lemma destroyed_destroy_all ds : forall e,
  destroyed (destroy_all ds e) = (rev ds ++ destroyed e)%list.
Proof.
  induction ds as [|d ds IH]; intros e; [reflexivity|].
  rewrite destroy_all_cons. cbn [rev].
  rewrite IH. cbn [destroyed]. rewrite <- app_assoc. reflexivity.
Qed.

Lemma released_destroy_all ds : forall e,
  released (destroy_all ds e) = released e /\
  refs (destroy_all ds e) = refs e /\
  pending (destroy_all ds e) = pending e.
Proof.
  induction ds as [|d ds IH]; intros e; [repeat split|].
  rewrite destroy_all_cons.
  destruct (IH (JniEnv (objects e) (refs e) (jni_next e) (pending e) (released e)
                       (delete d (methods e)) (d :: destroyed e))) as (E1 & E2 & E3).
  rewrite E1, E2, E3. repeat split.
Qed.

Lemma methods_destroy_all_keep ds : forall e d,
  methods e !! d = None -> methods (destroy_all ds e) !! d = None.
Proof.
  induction ds as [|d0 ds IH]; intros e d Hd; [exact Hd|].
  rewrite destroy_all_cons. apply IH.
  cbn [methods]. destruct (decide (d0 = d)) as [->|Hne].
  - apply lookup_delete_eq.
  - rewrite lookup_delete_ne by exact Hne. exact Hd.
Qed.

Lemma methods_destroy_all ds : forall e d,
  d ∈ ds -> methods (destroy_all ds e) !! d = None.
Proof.
  induction ds as [|d0 ds IH]; intros e d Hin.
  - apply elem_of_nil in Hin. contradiction.
  - rewrite destroy_all_cons.
    apply elem_of_cons in Hin. destruct Hin as [->|Hin].
    + apply methods_destroy_all_keep. cbn [methods]. apply lookup_delete_eq.
    + apply IH. exact Hin.
Qed.

Section FinalizerRun.

Context `{HostRuntime}.
Variable engine : jsval -> jsval -> list jsval -> M jsval.
Variables (g st : Z) (tb cf : jsval) (jd tc : Z).

Local Abbreviation mk s h nx e := (World (DukContext s h nx g st tb cf) e jd tc).

Lemma bound_method_heap h h' ps E p k d :
  (forall f, f <> E -> h' !! f = h !! f) ->
  bound_method h ps E p k d -> bound_method h' ps E p k d.
Proof.
  intros Hsame (f & fo & Hl & Hf & Hfo & Hm & Hd & HfE & Hfp).
  exists f, fo. rewrite (Hsame f HfE). repeat split; assumption.
Qed.

(** The loop of the finalizer over keys that are bound methods: one
    descriptor destroyed per key, the stack back at the enumerator,
    which is left with the keys that follow. *)
Lemma run_finalizer_loop p o E :
  forall keys tail ds s hE nx e,
    Forall2 (bound_method hE (props o) E p) keys ds ->
    hE !! p = Some o -> ordinary o -> p <> E ->
    hE !! E = Some (HObject (KEnum p (keys ++ tail)) [] VUndefined) ->
    exists hE',
      javaObjectFinalizer_loop engine (keys ++ tail)
        (mk (VObject E :: VObject p :: s) hE nx e) =
      javaObjectFinalizer_loop engine tail
        (mk (VObject E :: VObject p :: s) hE' nx (destroy_all ds e)) /\
      hE' !! E = Some (HObject (KEnum p tail) [] VUndefined) /\
      (forall k, k <> E -> hE' !! k = hE !! k).
Proof.
  induction keys as [|k keys IH]; intros tail ds s hE nx e Hall Hp Ho HpE HE.
  - apply Forall2_nil_inv_l in Hall. subst ds.
    exists hE. split; [reflexivity|]. split; [exact HE|]. reflexivity.
  - apply Forall2_cons_inv_l in Hall.
    destruct Hall as (d & ds' & Hb & Hall & ->).
    pose proof Hb as (f & fo & Hl & Hf & Hfo & Hm & Hd & HfE & Hfp).
    set (h1 := <[E := HObject (KEnum p (keys ++ tail)) [] VUndefined]> hE).
    assert (Hsame : forall x, x <> E -> h1 !! x = hE !! x).
    { intros x Hx. subst h1. apply lookup_insert_ne.
      intros Eq. apply Hx. symmetry. exact Eq. }
    destruct (IH tail ds' s h1 nx
                 (JniEnv (objects e) (refs e) (jni_next e) (pending e) (released e)
                         (delete d (methods e)) (d :: destroyed e)))
      as (hE' & Hrun & HE' & Hkeep).
    { eapply Forall2_impl; [exact Hall|].
      intros x y Hxy. eapply bound_method_heap; [exact Hsame | exact Hxy]. }
    { rewrite (Hsame p HpE). exact Hp. }
    { exact Ho. }
    { exact HpE. }
    { subst h1. apply lookup_insert_eq. }
    exists hE'. split; [|split].
    + cbn [app javaObjectFinalizer_loop].
      erewrite (bind_Ok _ _ _ true).
      2:{ unfold duk_next. proj.
          change (stack_at (-1) (VObject E :: VObject p :: s)) with (Some (VObject E)).
          cbv iota. rewrite HE. cbn [app next_key].
          unfold own_prop. rewrite Hp. cbn [mbind option_bind]. rewrite Hl.
          erewrite bind_Ok by reflexivity.
          erewrite bind_Ok by reflexivity.
          erewrite bind_Ok by reflexivity.
          reflexivity. }
      cbv iota. proj. fold h1.
      erewrite bind_Ok.
      2:{ eapply run_get_prop_string_own; [reflexivity | | exact Hfo].
          rewrite (Hsame f HfE). exact Hf. }
      rewrite (run_read_own _ _ _ _ _ (eq_trans (Hsame f HfE) Hf) Hm).
      cbn [fst snd negb].
      erewrite (bind_Ok _ _ _ d) by reflexivity.
      erewrite bind_Ok.
      2:{ unfold delete_JavaMethod. rewrite bool_decide_eq_false_2 by exact Hd.
          reflexivity. }
      erewrite bind_Ok by reflexivity.
      proj. cbn [drop key_value].
      exact Hrun.
    + exact HE'.
    + intros x Hx. rewrite (Hkeep x Hx). apply Hsame. exact Hx.
Qed.

(** The finalizer up to its loop, on an object that holds the hidden
    reference: the reference is deleted and the enumerator made. *)
Lemma run_finalizer_prefix p o r so vm rest h nx e
    (k : unit -> M Z) :
  h !! p = Some o -> ordinary o ->
  lookup_prop (KStr JAVA_THIS_PROP_NAME) (props o) = Some (VPointer r) ->
  lookup_prop (KStr JAVA_METHOD_PROP_NAME) (props o) = None ->
  h !! st = Some so -> ordinary so ->
  lookup_prop (KStr JAVA_VM_PROP_NAME) (props so) = Some (VPointer vm) ->
  bind (duk_get_prop_string engine (-1) JAVA_THIS_PROP_NAME)
       (fun found =>
          bind (if found then
                  getJNIEnv engine;;
                  r ← duk_require_pointer (-1);
                  DeleteGlobalRef r;;
                  duk_pop;;
                  duk_del_prop_string (-1) JAVA_METHOD_PROP_NAME;;
                  ret tt
                else ret tt)
               (fun _ => bind (duk_enum (-1)) k))
       (mk (VObject p :: rest) h nx e) =
  k tt (mk (VObject nx :: VObject p :: rest)
           (<[nx := new_object
                      (KEnum p (filter (fun k => is_hidden k = false)
                                       (fst <$> props o)))]>
              (<[p := o]> h))
           (nx + 1) (without_ref r e)).
Proof.
  intros Hp Ho Hr Hm Hst Hso Hvm.
  assert (Ho' : with_props (remove_prop (KStr JAVA_METHOD_PROP_NAME)) o = o).
  { destruct o as [kd ps fin]. unfold with_props. cbn [kind props finalizer] in *.
    rewrite (remove_prop_absent _ _ Hm). reflexivity. }
  erewrite bind_Ok
    by (eapply run_get_prop_string_own; [reflexivity | exact Hp | exact Ho]).
  rewrite (run_read_own _ _ _ _ _ Hp Hr). cbn [fst snd].
  erewrite bind_Ok.
  2:{ erewrite bind_Ok by (eapply run_getJNIEnv; eassumption).
      erewrite (bind_Ok _ _ _ r) by reflexivity.
      erewrite bind_Ok by reflexivity.
      erewrite bind_Ok by reflexivity.
      erewrite bind_Ok.
      2:{ unfold duk_del_prop_string. proj.
          change (stack_at (-1) (drop 1 (VPointer r :: VObject p :: rest)))
            with (Some (VObject p)).
          cbn [base_of]. rewrite (holder_ordinary _ _ _ Hp Ho), Hp. rewrite Ho'.
          reflexivity. }
      reflexivity. }
  erewrite bind_Ok; [reflexivity|].
  unfold duk_enum. proj. cbn [drop].
  change (stack_at (-1) (VObject p :: rest)) with (Some (VObject p)).
  cbn [base_of].
  assert (Hp1 : <[p := o]> h !! p = Some o) by apply lookup_insert_eq.
  rewrite (holder_ordinary _ _ _ Hp1 Ho), Hp1.
  erewrite bind_Ok by reflexivity.
  reflexivity.
Qed.

End FinalizerRun.

Section FinalizerBound.

Context `{HostRuntime}.
Variable engine : jsval -> jsval -> list jsval -> M jsval.

Lemma finalizer_heap_same (h : gmap Z hobject) p o nx (x : hobject) :
  h !! p = Some o ->
  forall k, k <> nx -> <[nx := x]> (<[p := o]> h) !! k = h !! k.
Proof.
  intros Hp k Hk.
  rewrite lookup_insert_ne by (intros E; apply Hk; symmetry; exact E).
  destruct (decide (p = k)) as [<-|Hne].
  - rewrite lookup_insert_eq. symmetry. exact Hp.
  - apply lookup_insert_ne. exact Hne.
Qed.

(** X15: the finalizer on a bound object, run once.  The global
    reference to the host object is deleted once, and for every
    enumerable property, in the order of their insertion, the
    descriptor of the method function is destroyed once and is no
    longer live; the pending exception is left alone, the value stack
    is emptied of the argument and the finalizer answers 0. *)
Theorem javaObjectFinalizer_releases (w : world) (p r vm ctx : Z) (o : hobject)
    (ds : list Z) (rest : list jsval) :
  top_of w = VObject p :: rest ->
  heap_of w !! p = Some o ->
  ordinary o ->
  lookup_prop (KStr JAVA_THIS_PROP_NAME) (props o) = Some (VPointer r) ->
  lookup_prop (KStr JAVA_METHOD_PROP_NAME) (props o) = None ->
  stash_ready (m_context w) vm ctx ->
  p <> heap_next (m_context w) ->
  Forall2 (bound_method (heap_of w) (props o) (heap_next (m_context w)) p)
          (filter (fun k => is_hidden k = false) (fst <$> props o)) ds ->
  exists w',
    javaObjectFinalizer engine w = Ok 0 w' /\
    top_of w' = rest /\
    env w' = destroy_all ds (without_ref r (env w)) /\
    released (env w') = r :: released (env w) /\
    destroyed (env w') = (rev ds ++ destroyed (env w))%list /\
    pending (env w') = pending (env w) /\
    forall d, d ∈ ds -> methods (env w') !! d = None.
Proof.
  intros Htop Hp Ho Hr Hm (so & Hst & Hso & Hvm & _) Hpnx Hall.
  destruct w as [[s h nx g st tb cf] e jd tc].
  unfold top_of, heap_of in *.
  cbn [m_context env stack heap heap_next global_stash] in *. subst s.
  set (keys := filter (fun k => is_hidden k = false) (fst <$> props o)) in *.
  set (h2 := <[nx := new_object (KEnum p keys)]> (<[p := o]> h)).
  pose proof (finalizer_heap_same h p o nx (new_object (KEnum p keys)) Hp) as Hsame.
  destruct (run_finalizer_loop engine g st tb cf jd tc p o nx keys [] ds rest h2 (nx + 1)
              (without_ref r e))
    as (hE' & Hloop & HE' & _).
  { eapply Forall2_impl; [exact Hall|].
    intros x y Hxy. eapply bound_method_heap; [exact Hsame | exact Hxy]. }
  { subst h2. rewrite (Hsame p Hpnx). exact Hp. }
  { exact Ho. }
  { exact Hpnx. }
  { subst h2. rewrite app_nil_r. apply lookup_insert_eq. }
  rewrite app_nil_r in Hloop.
  eexists. split.
  { unfold javaObjectFinalizer.
    erewrite (run_finalizer_prefix engine g st tb cf jd tc p o r so vm rest h nx e);
      try eassumption.
    fold keys. fold h2.
    erewrite bind_Ok.
    2:{ unfold enum_remaining. proj.
        change (stack_at (-1) (VObject nx :: VObject p :: rest)) with (Some (VObject nx)).
        cbv iota. subst h2. rewrite lookup_insert_eq. cbn [new_object].
        rewrite Hloop. cbn [javaObjectFinalizer_loop].
        erewrite (bind_Ok _ _ _ false).
        2:{ unfold duk_next. proj.
            change (stack_at (-1) (VObject nx :: VObject p :: rest))
              with (Some (VObject nx)).
            cbv iota. rewrite HE'. cbn [next_key]. reflexivity. }
        reflexivity. }
    erewrite bind_Ok by reflexivity.
    reflexivity. }
  proj. cbn [drop].
  destruct (released_destroy_all ds (without_ref r e)) as (E1 & E2 & E3).
  split; [reflexivity|].
  split; [reflexivity|].
  split; [rewrite E1; reflexivity|].
  split; [rewrite destroyed_destroy_all; reflexivity|].
  split; [rewrite E3; reflexivity|].
  intros d Hd. apply methods_destroy_all. exact Hd.
Qed.

(** The loop of the finalizer at a key whose value is no bound method:
    the value and the [undefined] read from it are popped, the key is
    not, and the next [duk_next] throws. *)
Lemma run_finalizer_loop_foreign g st tb cf jd tc p o E kn v post s hE nx e :
  hE !! p = Some o ->
  hE !! E = Some (HObject (KEnum p (KStr kn :: post)) [] VUndefined) ->
  lookup_prop (KStr kn) (props o) = Some v ->
  no_descriptor hE E v ->
  exists msg s' h',
    javaObjectFinalizer_loop engine (KStr kn :: post)
      (World (DukContext (VObject E :: VObject p :: s) hE nx g st tb cf) e jd tc) =
    Throw DUK_ERR_TYPE_ERROR msg (World (DukContext s' h' nx g st tb cf) e jd tc).
Proof.
  intros Hp HE Hk Hv.
  cbn [javaObjectFinalizer_loop].
  erewrite (bind_Ok _ _ _ true).
  2:{ unfold duk_next. proj.
      change (stack_at (-1) (VObject E :: VObject p :: s)) with (Some (VObject E)).
      cbv iota. rewrite HE. cbn [next_key].
      unfold own_prop. rewrite Hp. cbn [mbind option_bind]. rewrite Hk.
      erewrite bind_Ok by reflexivity.
      erewrite bind_Ok by reflexivity.
      erewrite bind_Ok by reflexivity.
      reflexivity. }
  cbv iota. proj. cbn [key_value].
  destruct v as [| |b|n|str|f|q|q|q]; cbn [no_descriptor] in Hv;
    try (destruct post; eexists; eexists; eexists; reflexivity).
  destruct Hv as (fo & Hf & Hfo & Hm & HfE).
  erewrite bind_Ok.
  2:{ eapply run_get_prop_string_own; [reflexivity | | exact Hfo].
      rewrite lookup_insert_ne by (intros Eq; apply HfE; symmetry; exact Eq).
      exact Hf. }
  erewrite run_read_own_none;
    [| rewrite lookup_insert_ne by (intros Eq; apply HfE; symmetry; exact Eq); exact Hf
     | exact Hm | reflexivity].
  cbn [fst snd negb].
  erewrite bind_Ok by reflexivity.
  destruct post; eexists; eexists; eexists; reflexivity.
Qed.

(** X16: a property that is not a bound method aborts the finalizer.
    When an enumerable property of the object holds a value without a
    method descriptor (one the script added, or a trap of a proxy
    configuration), the loop pops two of the three slots it pushed, and
    the next [duk_next] finds the key where the enumerator should be
    and throws a [TypeError].  The reference and the descriptors of the
    methods enumerated before are released; no descriptor of a later
    property is. *)
Theorem javaObjectFinalizer_foreign_property (w : world) (p r vm ctx : Z)
    (o : hobject) (pre post : list propkey) (kn : string) (v : jsval)
    (ds : list Z) (rest : list jsval) :
  top_of w = VObject p :: rest ->
  heap_of w !! p = Some o ->
  ordinary o ->
  lookup_prop (KStr JAVA_THIS_PROP_NAME) (props o) = Some (VPointer r) ->
  lookup_prop (KStr JAVA_METHOD_PROP_NAME) (props o) = None ->
  stash_ready (m_context w) vm ctx ->
  p <> heap_next (m_context w) ->
  filter (fun k => is_hidden k = false) (fst <$> props o) =
    (pre ++ KStr kn :: post)%list ->
  Forall2 (bound_method (heap_of w) (props o) (heap_next (m_context w)) p) pre ds ->
  lookup_prop (KStr kn) (props o) = Some v ->
  no_descriptor (heap_of w) (heap_next (m_context w)) v ->
  exists msg w',
    javaObjectFinalizer engine w = Throw DUK_ERR_TYPE_ERROR msg w' /\
    env w' = destroy_all ds (without_ref r (env w)) /\
    released (env w') = r :: released (env w) /\
    destroyed (env w') = (rev ds ++ destroyed (env w))%list.
Proof.
  intros Htop Hp Ho Hr Hm (so & Hst & Hso & Hvm & _) Hpnx Hkeys Hall Hk Hv.
  destruct w as [[s h nx g st tb cf] e jd tc].
  unfold top_of, heap_of in *.
  cbn [m_context env stack heap heap_next global_stash] in *. subst s.
  set (h2 := <[nx := new_object (KEnum p (pre ++ KStr kn :: post)%list)]> (<[p := o]> h)).
  pose proof (finalizer_heap_same h p o nx
                (new_object (KEnum p (pre ++ KStr kn :: post)%list)) Hp) as Hsame.
  destruct (run_finalizer_loop engine g st tb cf jd tc p o nx pre (KStr kn :: post) ds
              rest h2 (nx + 1) (without_ref r e))
    as (hE' & Hloop & HE' & Hkeep).
  { eapply Forall2_impl; [exact Hall|].
    intros x y Hxy. eapply bound_method_heap; [exact Hsame | exact Hxy]. }
  { subst h2. rewrite (Hsame p Hpnx). exact Hp. }
  { exact Ho. }
  { exact Hpnx. }
  { subst h2. apply lookup_insert_eq. }
  assert (Hback : forall x, x <> nx -> hE' !! x = h !! x).
  { intros x Hx. rewrite (Hkeep x Hx). subst h2. apply Hsame. exact Hx. }
  destruct (run_finalizer_loop_foreign g st tb cf jd tc p o nx kn v post rest hE' (nx + 1)
              (destroy_all ds (without_ref r e)))
    as (msg & s' & h' & Hthrow).
  { rewrite (Hback p Hpnx). exact Hp. }
  { exact HE'. }
  { exact Hk. }
  { destruct v; cbn [no_descriptor] in *; try exact I.
    destruct Hv as (fo & Hf & Hfo & Hmf & Hne).
    exists fo. rewrite (Hback _ Hne). repeat split; assumption. }
  exists msg. eexists. split.
  { unfold javaObjectFinalizer.
    erewrite (run_finalizer_prefix engine g st tb cf jd tc p o r so vm rest h nx e);
      try eassumption.
    rewrite Hkeys. fold h2.
    unfold bind at 1. unfold enum_remaining. proj.
    change (stack_at (-1) (VObject nx :: VObject p :: rest)) with (Some (VObject nx)).
    cbv iota. subst h2. rewrite lookup_insert_eq. cbn [new_object].
    rewrite Hloop, Hthrow. reflexivity. }
  cbn [env].
  destruct (released_destroy_all ds (without_ref r e)) as (E1 & E2 & E3).
  split; [reflexivity|].
  split; [rewrite E1; reflexivity|].
  rewrite destroyed_destroy_all. reflexivity.
Qed.

End FinalizerBound.

Lemma reference_method_tag e e' m :
  objects e' = objects e -> refs e' = refs e ->
  Reference.method_tag e' m = Reference.method_tag e m.
Proof.
  intros Ho Hr. unfold Reference.method_tag, deref, referent. rewrite Ho, Hr.
  reflexivity.
Defined.

Lemma set_binds_object_witness :
  exists w' o' r,
    set "svc" 52 [57] (Reference.world0 true) = Ok tt w' /\
    top_of w' = top_of (Reference.world0 true) /\
    pending (env w') = pending (env (Reference.world0 true)) /\
    own_prop (heap_of w') (global_object (m_context (Reference.world0 true)))
             (KStr "svc") =
      Some (VObject (heap_next (m_context (Reference.world0 true)))) /\
    heap_of w' !! heap_next (m_context (Reference.world0 true)) = Some o' /\
    finalizer o' = VObject (heap_next (m_context (Reference.world0 true)) + 1) /\
    heap_of w' !! (heap_next (m_context (Reference.world0 true)) + 1) =
      Some (new_object (KCFunction fn_javaObjectFinalizer 1)) /\
    lookup_prop (KStr JAVA_THIS_PROP_NAME) (props o') = Some (VPointer r) /\
    refs (env w') !! r = Some (RefCell GlobalRef (Some 102)) /\
    forall m, m ∈ [57] ->
      exists f ptr m',
        lookup_prop (KStr (reference_name Reference.env0 m)) (props o') =
          Some (VObject f) /\
        heap_of w' !! f = Some (method_function ptr) /\
        methods (env w') !! ptr = Some m' /\
        reference_name Reference.env0 m' = reference_name Reference.env0 m.
Proof.
  apply (set_binds_object (reference_name Reference.env0) "svc" 52 102 [57]
           (Reference.world0 true)
           (HObject KPlain [(KStr "__makeProxy", VObject 3)] VUndefined)).
  - reflexivity.
  - apply ordinary_plain.
  - reflexivity.
  - reflexivity.
  - intros m Hin. apply list_elem_of_singleton in Hin. subst m.
    vm_compute. reflexivity.
  - apply (reference_heap_fresh true []).
  - reflexivity.
  - intros m e Ho Hr. cbn [Method_getName Reference.host]. unfold reference_name.
    rewrite (reference_method_tag Reference.env0 e m Ho Hr). reflexivity.
  - intros m e Hin Ho Hr. apply list_elem_of_singleton in Hin. subst m.
    cbn [JavaMethod_invalid Reference.host].
    rewrite (reference_method_tag Reference.env0 e 57 Ho Hr). reflexivity.
  - intros m Hin. apply list_elem_of_singleton in Hin. subst m.
    vm_compute. discriminate.
Defined.

Lemma set_inherited_name_witness :
  exists w',
    set "makeProxy" 52 [57] (Reference.world0 true) = Ok tt w' /\
    m_context w' = m_context (Reference.world0 true) /\
    pending (env w') =
      Some (IllegalArgumentException "A global object called makeProxy already exists").
Proof.
  destruct (set_inherited_name "makeProxy" 52 [57] (Reference.world0 true)
              (HObject KPlain [(KStr "__makeProxy", VObject 3)] VUndefined)
              (VObject 3))
    as (w' & Hrun & Hduk & Henv);
    [ reflexivity | apply ordinary_plain | reflexivity | reflexivity | ].
  exists w'. split; [exact Hrun|]. split; [exact Hduk|].
  rewrite Henv. reflexivity.
Defined.

Lemma set_invalid_method_witness :
  exists w',
    set "svc" 52 ([57] ++ 60 :: []) world_rejecting = Ok tt w' /\
    top_of w' = top_of world_rejecting /\
    pending (env w') =
      Some (IllegalArgumentException
              (invalid_method_message "svc" (reference_name (env world_rejecting) 60)
                                      "Unsupported Java type")) /\
    heap_of w' !! global_object (m_context world_rejecting) =
      Some (HObject KPlain [(KStr "__makeProxy", VObject 3)] VUndefined) /\
    refs (env w') = refs (env world_rejecting) /\
    destroyed (env w') = destroyed (env world_rejecting) /\
    (forall m, m ∈ [57] ->
       exists ptr m', jni_next (env world_rejecting) <= ptr /\
                      methods (env w') !! ptr = Some m' /\
                      reference_name (env world_rejecting) m' =
                      reference_name (env world_rejecting) m) /\
    javaObjectFinalizer (engine_call 0)
      (with_stack [VObject (heap_next (m_context world_rejecting))] w') =
      Throw DUK_ERR_TYPE_ERROR "not object coercible"
            (with_stack [VUndefined; VObject (heap_next (m_context world_rejecting))] w').
Proof.
  apply (set_invalid_method (engine_call 0) (reference_name (env world_rejecting))
           "svc" "Unsupported Java type" 52 60 [57] [] world_rejecting
           (HObject KPlain [(KStr "__makeProxy", VObject 3)] VUndefined)).
  - reflexivity.
  - apply ordinary_plain.
  - reflexivity.
  - reflexivity.
  - apply (reference_heap_fresh true []).
  - intros m e Ho Hr. cbn [Method_getName Reference.host]. unfold reference_name.
    rewrite (reference_method_tag (env world_rejecting) e m Ho Hr). reflexivity.
  - intros m e Hin Ho Hr. apply list_elem_of_singleton in Hin. subst m.
    cbn [JavaMethod_invalid Reference.host].
    rewrite (reference_method_tag (env world_rejecting) e 57 Ho Hr). reflexivity.
  - intros e Ho Hr. cbn [JavaMethod_invalid Reference.host].
    rewrite (reference_method_tag (env world_rejecting) e 60 Ho Hr). reflexivity.
  - intros m Hin. apply list_elem_of_singleton in Hin. subst m.
    vm_compute. discriminate.
Defined.

Lemma javaObjectFinalizer_releases_witness :
  exists w',
    javaObjectFinalizer (engine_call 0) (with_stack [VObject 10] world_bound) = Ok 0 w' /\
    top_of w' = [] /\
    env w' = destroy_all [200] (without_ref 201 (env (with_stack [VObject 10] world_bound))) /\
    released (env w') = 201 :: released (env (with_stack [VObject 10] world_bound)) /\
    destroyed (env w') =
      (rev [200] ++ destroyed (env (with_stack [VObject 10] world_bound)))%list /\
    pending (env w') = pending (env (with_stack [VObject 10] world_bound)) /\
    forall d, d ∈ [200] -> methods (env w') !! d = None.
Proof.
  apply (javaObjectFinalizer_releases (engine_call 0)
           (with_stack [VObject 10] world_bound) 10 201 1000 2000
           (HObject KPlain [(KStr "m0", VObject 12);
                            (KStr JAVA_THIS_PROP_NAME, VPointer 201)] (VObject 11))
           [200] []).
  - reflexivity.
  - vm_compute. reflexivity.
  - apply ordinary_plain.
  - reflexivity.
  - reflexivity.
  - exists (HObject KPlain [(KStr JAVA_VM_PROP_NAME, VPointer 1000);
                            (KStr DUKTAPE_CONTEXT_PROP_NAME, VPointer 2000)] VUndefined).
    split; [vm_compute; reflexivity|].
    split; [apply ordinary_plain|]. split; reflexivity.
  - vm_compute. discriminate.
  - replace (filter (fun k => is_hidden k = false)
               (fst <$> props (HObject KPlain
                                 [(KStr "m0", VObject 12);
                                  (KStr JAVA_THIS_PROP_NAME, VPointer 201)] (VObject 11))))
      with [KStr "m0"] by (vm_compute; reflexivity).
    constructor; [| constructor].
    exists 12, (method_function 200).
    split; [reflexivity|].
    split; [vm_compute; reflexivity|].
    split; [intros t b; discriminate|].
    split; [reflexivity|].
    split; [lia|].
    split; vm_compute; discriminate.
Defined.

Lemma javaObjectFinalizer_foreign_property_witness :
  exists msg w',
    javaObjectFinalizer (engine_call 0) (with_stack [VObject 10] world_proxied) =
      Throw DUK_ERR_TYPE_ERROR msg w' /\
    env w' =
      destroy_all [] (without_ref 200 (env (with_stack [VObject 10] world_proxied))) /\
    released (env w') = 200 :: released (env (with_stack [VObject 10] world_proxied)) /\
    destroyed (env w') =
      (rev [] ++ destroyed (env (with_stack [VObject 10] world_proxied)))%list.
Proof.
  apply (javaObjectFinalizer_foreign_property (engine_call 0)
           (with_stack [VObject 10] world_proxied) 10 200 1000 2000
           (proxy_config 200 10) [] [KStr "__duktape_apply"] "__duktape_get"
           (VObject 12) [] []).
  - reflexivity.
  - vm_compute. reflexivity.
  - apply ordinary_plain.
  - reflexivity.
  - reflexivity.
  - exists (HObject KPlain [(KStr JAVA_VM_PROP_NAME, VPointer 1000);
                            (KStr DUKTAPE_CONTEXT_PROP_NAME, VPointer 2000)] VUndefined).
    split; [vm_compute; reflexivity|].
    split; [apply ordinary_plain|]. split; reflexivity.
  - vm_compute. discriminate.
  - vm_compute. reflexivity.
  - constructor.
  - reflexivity.
  - exists (new_object (KCFunction fn_duktape_get 3)).
    split; [vm_compute; reflexivity|].
    split; [intros t b; discriminate|].
    split; [reflexivity | vm_compute; discriminate].
Defined.

(** ** The property surface: [getKey...] and [setGlobalProperty] *)

Lemma to_uarridx_small index : 0 <= index < 2 ^ 32 -> to_uarridx index = index.
Proof. intros Hr. unfold to_uarridx. apply Z.mod_small. exact Hr. Qed.

Lemma to_uarridx_negative index :
  - 2 ^ 31 <= index < 0 -> to_uarridx index = index + 2 ^ 32.
Proof.
  intros Hr. unfold to_uarridx.
  rewrite <- (Z_mod_plus_full index 1 (2 ^ 32)).
  apply Z.mod_small. lia.
Qed.

Section Keys.

Context `{HostRuntime}.
Variable engine : jsval -> jsval -> list jsval -> M jsval.

Lemma run_push_heapptr g st tb cf jd tc p s h nx e :
  p <> 0 ->
  pushObject_heapptr p (World (DukContext s h nx g st tb cf) e jd tc) =
  Ok tt (World (DukContext (VObject p :: s) h nx g st tb cf) e jd tc).
Proof.
  intros Hp. unfold pushObject_heapptr, duk_push_heapptr.
  rewrite bool_decide_eq_false_2 by exact Hp. reflexivity.
Qed.

(** [popObject2] on [null] or [undefined] above the indexed object. *)
Lemma run_popObject2_nullish g st tb cf jd tc v x s h nx e :
  v = VNull \/ v = VUndefined ->
  popObject2 engine (World (DukContext (v :: x :: s) h nx g st tb cf) e jd tc) =
  Ok 0 (World (DukContext s h nx g st tb cf) e jd tc).
Proof.
  intros Hv. unfold popObject2.
  erewrite bind_Ok by (eapply popObject_nullish; [reflexivity | exact Hv]).
  erewrite bind_Ok by reflexivity.
  reflexivity.
Qed.

(** X17: [getKeyString] and the property it reads.  On a script object
    that neither has the property nor inherits it, or that holds [null]
    under it, the result is null and nothing changes, the value stack
    included.  A property the object only inherits is read like one of
    its own: its value is what [popObject] then marshals.  On a null
    object pointer the engine throws a [TypeError] that [getKeyString]
    does not catch, and the [undefined] pushed for the pointer is still
    on the stack. *)
Theorem getKeyString_edges (w : world) (key : string) :
  (forall (p : Z) (o : hobject),
     heap_of w !! p = Some o ->
     ordinary o ->
     is_array_object (heap_of w) (VObject p) = false ->
     p <> 0 ->
     (lookup_prop (KStr key) (props o) = None /\
      inherited_property (kind o) key = None) \/
     lookup_prop (KStr key) (props o) = Some VNull ->
     getKeyString engine p key w = Ok 0 w)
  /\
  (forall (p : Z) (o : hobject) (v : jsval),
     heap_of w !! p = Some o ->
     ordinary o ->
     is_array_object (heap_of w) (VObject p) = false ->
     p <> 0 ->
     lookup_prop (KStr key) (props o) = None ->
     inherited_property (kind o) key = Some v ->
     getKeyString engine p key w =
     popObject2 engine (with_stack (v :: VObject p :: top_of w) w))
  /\
  getKeyString engine 0 key w =
  Throw DUK_ERR_TYPE_ERROR "cannot read property"
        (with_stack (VUndefined :: top_of w) w).
Proof.
  destruct w as [[s h nx g st tb cf] e jd tc].
  unfold heap_of, top_of. cbn [m_context heap stack].
  split; [|split].
  - intros p o Hp Ho _ Hp0 Hl. unfold getKeyString.
    erewrite bind_Ok by (apply run_push_heapptr; exact Hp0).
    erewrite bind_Ok
      by (eapply run_get_prop_string_own; [reflexivity | exact Hp | exact Ho]).
    destruct Hl as [[Hl Hi]|Hl].
    + rewrite (read_prop_missing _ _ _ _ Hp Hl Hi). cbn [snd].
      apply run_popObject2_nullish. right. reflexivity.
    + rewrite (read_prop_own _ _ _ _ _ Hp Hl). cbn [snd].
      apply run_popObject2_nullish. left. reflexivity.
  - intros p o v Hp Ho _ Hp0 Hl Hi. unfold getKeyString.
    erewrite bind_Ok by (apply run_push_heapptr; exact Hp0).
    erewrite bind_Ok
      by (eapply run_get_prop_string_own; [reflexivity | exact Hp | exact Ho]).
    unfold read_prop, own_prop. rewrite Hp. cbn [mbind option_bind].
    rewrite Hl, Hi. reflexivity.
  - reflexivity.
Qed.

Lemma run_get_prop_uarridx_array g st tb cf jd tc p elems ps fin i s h nx e :
  h !! p = Some (HObject (KArray elems) ps fin) ->
  0 <= i ->
  duk_get_prop_uarridx engine (-1) i
    (World (DukContext (VObject p :: s) h nx g st tb cf) e jd tc) =
  Ok (bool_decide (is_Some (elems !! Z.to_nat i)))
     (World (DukContext (default VUndefined (elems !! Z.to_nat i) :: VObject p :: s)
                        h nx g st tb cf) e jd tc).
Proof.
  intros Hp Hi. unfold duk_get_prop_uarridx.
  erewrite bind_Ok by reflexivity.
  erewrite (bind_Ok _ _ _ (bool_decide (is_Some (elems !! Z.to_nat i)),
                           default VUndefined (elems !! Z.to_nat i))).
  2:{ unfold getprop_value. proj.
      change (stack_at (-1) (VObject p :: s)) with (Some (VObject p)). cbv iota.
      rewrite Hp.
      destruct (Z.leb_spec 0 i) as [_|?]; [|lia].
      destruct (elems !! Z.to_nat i) as [v|]; cbn [default].
      - rewrite bool_decide_eq_true_2 by (eexists; reflexivity). reflexivity.
      - rewrite bool_decide_eq_false_2 by (intros [? ?]; discriminate). reflexivity. }
  reflexivity.
Qed.

(** X18: [getKeyInteger] on an array.  An index inside the array reads
    that element, which is then popped to the host like any result.  An
    index outside it, a negative one included, which the cast to the
    engine's unsigned index wraps to at least 2^31, reads [undefined]:
    the result is null, with no error and nothing changed. *)
Theorem getKeyInteger_array (w : world) (p index : Z) (elems : list jsval)
    (ps : list (propkey * jsval)) (fin : jsval) :
  heap_of w !! p = Some (HObject (KArray elems) ps fin) ->
  p <> 0 ->
  - 2 ^ 31 <= index < 2 ^ 31 ->
  Z.of_nat (length elems) <= 2 ^ 31 ->
  (index < 0 \/ Z.of_nat (length elems) <= index ->
   getKeyInteger engine p index w = Ok 0 w)
  /\
  (forall v, 0 <= index -> elems !! Z.to_nat index = Some v ->
   getKeyInteger engine p index w =
   popObject2 engine (with_stack (v :: VObject p :: top_of w) w)).
Proof.
  intros Hp Hp0 Hint Hlen.
  destruct w as [[s h nx g st tb cf] e jd tc].
  unfold heap_of, top_of in *. cbn [m_context heap stack] in *.
  assert (Hnn : 0 <= to_uarridx index).
  { unfold to_uarridx. apply Z.mod_pos_bound. lia. }
  split.
  - intros Hout.
    assert (Hnone : elems !! Z.to_nat (to_uarridx index) = None).
    { apply lookup_ge_None.
      destruct (Z.lt_ge_cases index 0) as [Hneg|Hpos].
      - rewrite to_uarridx_negative by lia. lia.
      - rewrite to_uarridx_small by lia. lia. }
    unfold getKeyInteger.
    erewrite bind_Ok by (apply run_push_heapptr; exact Hp0).
    erewrite bind_Ok by (eapply run_get_prop_uarridx_array; [exact Hp | exact Hnn]).
    rewrite Hnone. cbn [default].
    apply run_popObject2_nullish. right. reflexivity.
  - intros v Hpos Hv.
    unfold getKeyInteger.
    erewrite bind_Ok by (apply run_push_heapptr; exact Hp0).
    erewrite bind_Ok by (eapply run_get_prop_uarridx_array; [exact Hp | exact Hnn]).
    rewrite to_uarridx_small by lia. rewrite Hv. cbn [default].
    reflexivity.
Qed.

(** X19: [setGlobalProperty] stores without asking.  With the key and
    the value as [pushObject] marshals them, the property written is
    the one named by the string the key converts to: the string itself
    for a string key, ["[object Object]"] for a key that is a plain
    script object.  Where the global object does not inherit that name,
    it holds the value under it afterwards, whether or not the name was
    taken before (unlike [set], which refuses a taken name); its other
    properties, the other objects and the JVM are as [pushObject] left
    them and the value stack is balanced. *)
Theorem setGlobalProperty_stores (w w1 w2 : world) (property value : Z)
    (key v : jsval) (name : string) (go : hobject) :
  pushObject engine (this_context w) property
             (with_stack (VObject (global_object (m_context w)) :: top_of w) w) =
    Ok tt w1 ->
  top_of w1 = key :: VObject (global_object (m_context w)) :: top_of w ->
  pushObject engine (this_context w) value w1 = Ok tt w2 ->
  top_of w2 = v :: top_of w1 ->
  heap_of w2 !! global_object (m_context w) = Some go ->
  ordinary go ->
  property_name (to_property_key key) w2 = Ok name w2 ->
  inherited_property (kind go) name = None ->
  exists w',
    setGlobalProperty engine property value w = Ok tt w' /\
    top_of w' = top_of w /\
    own_prop (heap_of w') (global_object (m_context w)) (KStr name) = Some v /\
    (forall k, k <> KStr name ->
       own_prop (heap_of w') (global_object (m_context w)) k = lookup_prop k (props go)) /\
    (forall q, q <> global_object (m_context w) -> heap_of w' !! q = heap_of w2 !! q) /\
    env w' = env w2.
Proof.
  intros Hkey Htop1 Hval Htop2 Hg Hgo Hname _.
  destruct w as [[s h nx g st tb cf] e jd tc].
  destruct w2 as [[s2 h2 nx2 g2 st2 tb2 cf2] e2 jd2 tc2].
  unfold heap_of, top_of in *.
  cbn [m_context env heap stack global_object this_context] in *.
  rewrite Htop1 in Htop2. subst s2.
  eexists. split.
  { unfold setGlobalProperty. cbn [this_context].
    erewrite bind_Ok by reflexivity.
    erewrite bind_Ok by exact Hkey.
    erewrite bind_Ok by exact Hval.
    erewrite bind_Ok.
    2:{ unfold duk_put_prop. proj.
        change (stack_at (-3) (v :: key :: VObject g :: s)) with (Some (VObject g)).
        cbn [base_of].
        erewrite bind_Ok by exact Hname. proj.
        rewrite (holder_ordinary _ _ _ Hg Hgo), Hg. reflexivity. }
    apply run_duk_pop. }
  proj.
  split; [reflexivity|].
  split.
  { unfold own_prop. rewrite lookup_insert_eq. cbn [mbind option_bind with_props props].
    apply lookup_store_prop_eq. }
  split.
  { intros k Hk. unfold own_prop. rewrite lookup_insert_eq.
    cbn [mbind option_bind with_props props].
    apply lookup_store_prop_ne. exact Hk. }
  split; [|reflexivity].
  intros q Hq. apply lookup_insert_ne. intros E. apply Hq. symmetry. exact E.
Qed.

(** X20: a null key names the property ["null"].  On an object that is
    no proxy, [getKeyObject] with a null key reference is
    [getKeyString] with the key ["null"]: same result, same final
    state. *)
Theorem getKeyObject_null_key (w : world) (p : Z) (o : hobject) :
  heap_of w !! p = Some o ->
  ordinary o ->
  p <> 0 ->
  getKeyObject engine p 0 w = getKeyString engine p "null" w.
Proof.
  intros Hp Ho Hp0.
  destruct w as [[s h nx g st tb cf] e jd tc].
  unfold heap_of in *. cbn [m_context heap] in *.
  unfold getKeyObject, getKeyString. cbn [this_context].
  erewrite bind_Ok by (apply run_push_heapptr; exact Hp0).
  erewrite bind_Ok
    by (unfold pushObject; rewrite bool_decide_eq_true_2 by reflexivity; reflexivity).
  erewrite bind_Ok.
  2:{ unfold duk_get_prop. proj.
      erewrite bind_Ok by reflexivity.
      erewrite bind_Ok.
      2:{ unfold getprop_value. proj.
          change (stack_at (-2) (VNull :: VObject p :: s)) with (Some (VObject p)).
          cbv iota. cbn [to_property_key].
          eapply getprop_own; [exact Hp | exact Ho]. }
      erewrite bind_Ok by reflexivity.
      reflexivity. }
  erewrite (bind_Ok (pushObject_heapptr p)) by (apply run_push_heapptr; exact Hp0).
  erewrite (bind_Ok (duk_get_prop_string engine (-1) "null"))
    by (eapply run_get_prop_string_own; [reflexivity | exact Hp | exact Ho]).
  reflexivity.
Qed.

End Keys.

Lemma getKeyString_edges_witness :
  getKeyString (engine_call 0) 4 "x" (Reference.world0 true) =
    Ok 0 (Reference.world0 true) /\
  exists j w',
    getKeyString (engine_call 0) 4 "makeProxy" (Reference.world0 true) = Ok j w' /\
    deref (env w') j = Some (HJavaScriptObject 2000 3).
Proof.
  split.
  - destruct (getKeyString_edges (engine_call 0) (Reference.world0 true) "x")
      as [Hmissing _].
    apply (Hmissing 4 (new_object KPlain));
      [ reflexivity | apply ordinary_plain | reflexivity | lia
      | left; split; reflexivity ].
  - destruct (getKeyString_edges (engine_call 0) (Reference.world0 true) "makeProxy")
      as (_ & Hinherited & _).
    rewrite (Hinherited 4 (new_object KPlain) (VObject 3));
      [ | reflexivity | apply ordinary_plain | reflexivity | lia | reflexivity
        | reflexivity ].
    eexists. eexists. split; vm_compute; reflexivity.
Defined.

Lemma getKeyInteger_array_witness :
  getKeyInteger (engine_call 0) 8 (-1) world_array = Ok 0 world_array /\
  getKeyInteger (engine_call 0) 8 1 world_array =
  popObject2 (engine_call 0)
    (with_stack (VNumber 7 :: VObject 8 :: top_of world_array) world_array).
Proof.
  destruct (getKeyInteger_array (engine_call 0) world_array 8 (-1)
              [VNull; VNumber 7] [] VUndefined) as [Hout _];
    [ reflexivity | lia | lia | vm_compute; discriminate | ].
  destruct (getKeyInteger_array (engine_call 0) world_array 8 1
              [VNull; VNumber 7] [] VUndefined) as [_ Hin];
    [ reflexivity | lia | lia | vm_compute; discriminate | ].
  split.
  - apply Hout. left. lia.
  - apply (Hin (VNumber 7)); [lia | reflexivity].
Defined.

Lemma setGlobalProperty_stores_witness :
  exists w',
    setGlobalProperty (engine_call 0) 55 54 (Reference.world0 true) = Ok tt w' /\
    top_of w' = [] /\
    own_prop (heap_of w') 1 (KStr "[object Object]") = Some (VNumber 5) /\
    own_prop (heap_of w') 1 (KStr "__makeProxy") = Some (VObject 3).
Proof.
  pose (w1 := with_stack [VObject 4; VObject 1] (Reference.world0 true)).
  pose (w2 := with_stack [VNumber 5; VObject 4; VObject 1] (Reference.world0 true)).
  destruct (setGlobalProperty_stores (engine_call 0) (Reference.world0 true) w1 w2
              55 54 (VObject 4) (VNumber 5) "[object Object]"
              (HObject KPlain [(KStr "__makeProxy", VObject 3)] VUndefined))
    as (w' & Hrun & Htop & Hnew & Hold & _);
    [ vm_compute; reflexivity | reflexivity | vm_compute; reflexivity | reflexivity
    | reflexivity | apply ordinary_plain | vm_compute; reflexivity | reflexivity | ].
  exists w'. split; [exact Hrun|]. split; [exact Htop|]. split; [exact Hnew|].
  refine (Hold (KStr "__makeProxy") _). discriminate.
Defined.

Lemma getKeyObject_null_key_witness :
  getKeyObject (engine_call 0) 4 0 (Reference.world0 true) =
  getKeyString (engine_call 0) 4 "null" (Reference.world0 true).
Proof.
  apply (getKeyObject_null_key (engine_call 0) (Reference.world0 true) 4
           (new_object KPlain));
    [ reflexivity | apply ordinary_plain | lia ].
Defined.

(** ** The arguments of a call *)

Section Arguments.

Context `{HostRuntime}.
Variable engine : jsval -> jsval -> list jsval -> M jsval.

Lemma run_pushObject_pure this r v w :
  marshals_pure this (env w) r v ->
  pushObject engine this r w = Ok tt (with_stack (v :: top_of w) w).
Proof.
  intros [[-> ->] | (p & Hd & Hn & Hp & ->)].
  - unfold pushObject. rewrite bool_decide_eq_true_2 by reflexivity. reflexivity.
  - erewrite pushObject_not_native; [| exact Hd | exact Hn].
    cbn [is_JavaScriptObject contextField pointerField].
    rewrite bool_decide_eq_true_2 by reflexivity.
    unfold duk_push_heapptr. rewrite bool_decide_eq_false_2 by exact Hp.
    reflexivity.
Qed.

Lemma run_pushObjects_pure this rs :
  forall vs w,
    Forall2 (marshals_pure this (env w)) rs vs ->
    pushObjects engine this rs w = Ok tt (with_stack (rev vs ++ top_of w) w).
Proof.
  induction rs as [|r rs IH]; intros vs w Hall.
  - apply Forall2_nil_inv_l in Hall. subst vs.
    destruct w as [[s h nx g st tb cf] e jd tc]. reflexivity.
  - apply Forall2_cons_inv_l in Hall. destruct Hall as (v & vs' & Hv & Hall & ->).
    cbn [pushObjects].
    erewrite bind_Ok by (apply run_pushObject_pure; exact Hv).
    rewrite (IH vs' (with_stack (v :: top_of w) w)) by exact Hall.
    destruct w as [[s h nx g st tb cf] e jd tc]. proj.
    cbn [rev]. rewrite <- app_assoc. reflexivity.
Qed.

(** X21: the arguments of [call] reach the callee in order.  With
    arguments that are null or handles of this Context, [call] is the
    protected call of the callee, on an [undefined] [this], with the
    marshalled arguments in the order of the array; the error or the
    result then lies directly on what was on the stack before. *)
Theorem call_arguments_in_order (w : world) (object : Z) (args : list Z)
    (vs : list jsval) :
  Forall2 (marshals_pure (this_context w) (env w)) args vs ->
  let callee := if bool_decide (object = 0) then VUndefined else VObject object in
  call engine object (Some args) w =
  bind (protected (engine callee VUndefined vs) (top_of w))
       (fun rc =>
          if bool_decide (rc <> DUK_EXEC_SUCCESS)
          then bind queueJavaExceptionForDuktapeError (fun _ => ret 0)
          else popObject engine)
       (with_stack (rev vs ++ callee :: top_of w) w).
Proof.
  intros Hall callee.
  pose proof (Forall2_length _ _ _ Hall) as Hlen.
  unfold call.
  erewrite bind_Ok by apply run_pushObject_heapptr.
  unfold push_arguments.
  erewrite bind_Ok.
  2:{ erewrite bind_Ok; [reflexivity|].
      apply run_pushObjects_pure.
      destruct w as [[s h nx g st tb cf] e jd tc]. exact Hall. }
  fold callee.
  destruct w as [[s h nx g st tb cf] e jd tc].
  unfold pushed_heapptr. proj. fold callee.
  unfold bind at 1. unfold duk_pcall at 1. proj.
  assert (Hrl : length (rev vs) = length args)
    by (rewrite length_rev; symmetry; exact Hlen).
  rewrite lookup_app_r by lia.
  replace (length args - length (rev vs))%nat with 0%nat by lia.
  cbn [lookup list_lookup].
  rewrite take_app_length' by (symmetry; exact Hrl).
  rewrite rev_involutive.
  replace (drop (S (length args)) (rev vs ++ callee :: s)) with s.
  2:{ rewrite <- Hrl.
      replace (S (length (rev vs))) with (length (rev vs) + 1)%nat by lia.
      rewrite drop_app_add' by reflexivity. reflexivity. }
  reflexivity.
Qed.

End Arguments.

Lemma call_arguments_in_order_witness :
  call (engine_call 1) 4 (Some [55; 0; 58]) (Reference.world0 true) =
  bind (protected (engine_call 1 (VObject 4) VUndefined [VObject 4; VNull; VObject 5])
                  (top_of (Reference.world0 true)))
       (fun rc =>
          if bool_decide (rc <> DUK_EXEC_SUCCESS)
          then bind queueJavaExceptionForDuktapeError (fun _ => ret 0)
          else popObject (engine_call 1))
       (with_stack (rev [VObject 4; VNull; VObject 5] ++
                      VObject 4 :: top_of (Reference.world0 true))
                   (Reference.world0 true)).
Proof.
  apply (call_arguments_in_order (engine_call 1) (Reference.world0 true) 4
           [55; 0; 58] [VObject 4; VNull; VObject 5]).
  constructor; [| constructor; [| constructor; [| constructor]]].
  - right. exists 4. split; [reflexivity|]. split; [reflexivity|].
    split; [lia | reflexivity].
  - left. split; reflexivity.
  - right. exists 5. split; [reflexivity|]. split; [reflexivity|].
    split; [lia | reflexivity].
Defined.

(** ** Binding an object and finalizing it *)

Lemma lookup_prop_app k ps qs :
  lookup_prop k (ps ++ qs)%list =
  match lookup_prop k ps with
  | Some v => Some v
  | None => lookup_prop k qs
  end.
Proof.
  unfold lookup_prop.
  induction ps as [|[k0 v0] ps IH]; [reflexivity|].
  cbn [app find fst]. destruct (bool_decide (k0 = k)); [reflexivity | exact IH].
Qed.

Lemma store_prop_fresh k v ps :
  lookup_prop k ps = None -> store_prop k v ps = (ps ++ [(k, v)])%list.
Proof.
  unfold lookup_prop.
  induction ps as [|[k0 v0] ps IH]; [reflexivity|].
  cbn [find fst store_prop app].
  destruct (decide (k0 = k)) as [->|Hne].
  - rewrite bool_decide_eq_true_2 by reflexivity. discriminate.
  - rewrite bool_decide_eq_false_2 by exact Hne. intros Hl. rewrite (IH Hl).
    reflexivity.
Qed.

(** In a property list without repeated keys, every entry is the one a
    lookup of its key finds. *)
Lemma lookup_prop_NoDup ps k v :
  NoDup (fst <$> ps) -> (k, v) ∈ ps -> lookup_prop k ps = Some v.
Proof.
  unfold lookup_prop.
  induction ps as [|[k0 v0] ps IH]; intros Hnd Hin.
  - apply elem_of_nil in Hin. contradiction.
  - rewrite fmap_cons in Hnd. apply NoDup_cons in Hnd. destruct Hnd as [Hfresh Hnd].
    cbn [find fst]. apply elem_of_cons in Hin. destruct Hin as [E|Hin].
    + injection E as -> ->. rewrite bool_decide_eq_true_2 by reflexivity. reflexivity.
    + destruct (decide (k0 = k)) as [->|Hne].
      * exfalso. apply Hfresh. cbn [fst].
        apply list_elem_of_fmap. exists (k, v). split; [reflexivity | exact Hin].
      * rewrite bool_decide_eq_false_2 by exact Hne. apply IH; assumption.
Qed.

Lemma method_triples_keys (name : Z -> string) ms : forall nx jn,
  fst <$> (method_entry name <$> method_triples ms nx jn) =
  (fun m => KStr (name m)) <$> ms.
Proof.
  induction ms as [|m ms IH]; intros nx jn; [reflexivity|].
  cbn [method_triples fmap list_fmap]. f_equal. apply IH.
Qed.

Lemma method_triples_descriptors_length ms : forall nx jn,
  length (method_triples ms nx jn) = length ms.
Proof.
  induction ms as [|m ms IH]; intros nx jn; [reflexivity|].
  cbn [method_triples length]. f_equal. apply IH.
Qed.

Lemma with_methods_facts ms : forall e,
  objects (with_methods ms e) = objects e /\
  refs (with_methods ms e) = refs e /\
  pending (with_methods ms e) = pending e /\
  released (with_methods ms e) = released e /\
  destroyed (with_methods ms e) = destroyed e /\
  jni_next (with_methods ms e) = jni_next e + Z.of_nat (length ms).
Proof.
  induction ms as [|m ms IH]; intros e.
  - cbn [with_methods length]. repeat split. lia.
  - cbn [with_methods length].
    destruct (IH (with_method m e)) as (E1 & E2 & E3 & E4 & E5 & E6).
    rewrite E1, E2, E3, E4, E5, E6. cbn [with_method objects refs pending released
                                          destroyed jni_next].
    repeat split. lia.
Qed.

Lemma filter_method_keys (name : Z -> string) (ms : list Z) (hk : propkey) :
  (forall m, m ∈ ms -> is_hidden (KStr (name m)) = false) ->
  is_hidden hk = true ->
  filter (fun k => is_hidden k = false)
         (((fun m => KStr (name m)) <$> ms) ++ [hk])%list =
  (fun m => KStr (name m)) <$> ms.
Proof.
  intros Hvis Hhid.
  induction ms as [|m ms IH].
  - cbn [fmap list_fmap app]. rewrite filter_cons_False by (rewrite Hhid; discriminate).
    reflexivity.
  - cbn [fmap list_fmap app].
    rewrite filter_cons_True by (apply Hvis; apply list_elem_of_here).
    f_equal. apply IH. intros m' Hin. apply Hvis. apply list_elem_of_further. exact Hin.
Qed.

Section BindExact.

Context `{HostRuntime}.
Variables (g st : Z) (tb cf : jsval) (jd tc : Z).

Local Abbreviation mk s h nx e := (World (DukContext s h nx g st tb cf) e jd tc).

Variable name : Z -> string.
Variables (objs : gmap Z hostobj) (rfs : gmap Z refcell).
Hypothesis Hname :
  forall m e, objects e = objs -> refs e = rfs -> Method_getName m e = name m.

(** The loop of [set] over methods of different names, none of them a
    property of the object yet: the object gains one property per
    method, in order, each a function of its own with a descriptor of
    its own. *)
Lemma bind_methods_exact iname ms :
  forall tail obj o s h nx e,
    h !! obj = Some o -> ordinary o -> obj < nx ->
    objects e = objs -> refs e = rfs ->
    (forall m e', m ∈ ms -> objects e' = objs -> refs e' = rfs ->
                  JavaMethod_invalid m e' = None) ->
    NoDup ((fun m => KStr (name m)) <$> ms) ->
    (forall m, m ∈ ms -> lookup_prop (KStr (name m)) (props o) = None) ->
    exists h' o',
      bind_methods iname (Z.of_nat (length (VObject g :: s))) (ms ++ tail)%list
                   (mk (VObject obj :: VObject g :: s) h nx e) =
      bind_methods iname (Z.of_nat (length (VObject g :: s))) tail
                   (mk (VObject obj :: VObject g :: s) h'
                       (nx + Z.of_nat (length ms)) (with_methods ms e)) /\
      ordinary o' /\
      h' !! obj = Some o' /\
      finalizer o' = finalizer o /\
      props o' =
        (props o ++ (method_entry name <$> method_triples ms nx (jni_next e)))%list /\
      Forall (fun t => h' !! t.1.2 = Some (method_function t.2) /\
                       nx <= t.1.2 < nx + Z.of_nat (length ms) /\
                       jni_next e <= t.2)
             (method_triples ms nx (jni_next e)) /\
      (forall k, k < nx -> k <> obj -> h' !! k = h !! k).
Proof.
  induction ms as [|m rest IH];
    intros tail obj o s h nx e Hobj Ho Hlt Hobjs Hrfs Hvalid Hnd Hfree.
  - exists h, o. cbn [app length method_triples with_methods fmap list_fmap].
    replace (nx + Z.of_nat 0) with nx by lia. rewrite app_nil_r.
    split; [reflexivity|]. split; [exact Ho|]. split; [exact Hobj|].
    split; [reflexivity|]. split; [reflexivity|]. split; [constructor|].
    reflexivity.
  - rewrite fmap_cons in Hnd. apply NoDup_cons in Hnd. destruct Hnd as [Hfresh Hnd].
    assert (Hm : JavaMethod_invalid m e = None)
      by (apply Hvalid; [apply list_elem_of_here | assumption | assumption]).
    pose proof (bind_methods_step g st tb cf jd tc name objs rfs Hname
                  iname obj o m (rest ++ tail) s h nx e
                  Hobj Ho ltac:(lia) Hobjs Hrfs Hm) as Hstep.
    set (o1 := with_props (store_prop (KStr (name m)) (VObject nx)) o) in *.
    set (h1 := <[obj := o1]>
                 (<[nx := method_function (jni_next e)]>
                    (<[nx := new_object (KCFunction fn_javaMethodHandler DUK_VARARGS)]> h)))
      in *.
    assert (Hobj1 : h1 !! obj = Some o1) by (subst h1; apply lookup_insert_eq).
    assert (Hprops1 : props o1 = (props o ++ [(KStr (name m), VObject nx)])%list).
    { subst o1. cbn [with_props props]. apply store_prop_fresh.
      apply Hfree. apply list_elem_of_here. }
    destruct (IH tail obj o1 s h1 (nx + 1) (with_method m e) Hobj1
                 (ordinary_with_props _ _ Ho) ltac:(lia) Hobjs Hrfs)
      as (h' & o' & Hrun & Ho' & Hobj' & Hfin & Hprops & Hall & Hframe).
    { intros m0 e0 Hin. apply Hvalid. apply list_elem_of_further. exact Hin. }
    { exact Hnd. }
    { intros m0 Hin. rewrite Hprops1, lookup_prop_app.
      rewrite (Hfree m0) by (apply list_elem_of_further; exact Hin).
      unfold lookup_prop. cbn [find fst].
      rewrite bool_decide_eq_false_2; [reflexivity|].
      intros E. apply Hfresh. rewrite E.
      apply list_elem_of_fmap. exists m0. split; [reflexivity | exact Hin]. }
    cbn [jni_next with_method] in Hprops, Hall.
    exists h', o'. split.
    { cbn [app]. rewrite Hstep. rewrite Hrun. cbn [length with_methods].
      replace (nx + 1 + Z.of_nat (length rest))
        with (nx + Z.of_nat (S (length rest))) by lia.
      reflexivity. }
    split; [exact Ho'|]. split; [exact Hobj'|].
    split; [rewrite Hfin; reflexivity|].
    split.
    { rewrite Hprops, Hprops1. cbn [method_triples fmap list_fmap].
      rewrite <- app_assoc. reflexivity. }
    split.
    { cbn [method_triples]. constructor.
      - cbn [fst snd]. split.
        + rewrite (Hframe nx) by lia. subst h1.
          rewrite lookup_insert_ne by lia. apply lookup_insert_eq.
        + cbn [length]. lia.
      - eapply Forall_impl; [exact Hall|].
        intros t (Ht1 & Ht2 & Ht3). split; [exact Ht1|]. cbn [length]. lia. }
    intros k Hk Hko. rewrite (Hframe k) by lia. subst h1.
    rewrite lookup_insert_ne by (intros E; apply Hko; symmetry; exact E).
    rewrite !lookup_insert_ne by lia. reflexivity.
Qed.

End BindExact.

Lemma method_triples_descriptors ms : forall nx jn,
  snd <$> method_triples ms nx jn = seqZ jn (Z.of_nat (length ms)).
Proof.
  induction ms as [|m ms IH]; intros nx jn.
  - cbn [method_triples length fmap list_fmap]. rewrite seqZ_nil by lia. reflexivity.
  - cbn [method_triples length fmap list_fmap snd].
    rewrite seqZ_cons by lia. f_equal.
    rewrite (IH (nx + 1) (jn + 1)). f_equal; lia.
Qed.

Lemma lookup_prop_entries_None (name : Z -> string) k ts :
  (forall t, t ∈ ts -> KStr (name t.1.1) <> k) ->
  lookup_prop k (method_entry name <$> ts) = None.
Proof.
  unfold lookup_prop.
  induction ts as [|t ts IH]; intros Hne; [reflexivity|].
  cbn [fmap list_fmap find method_entry fst].
  rewrite bool_decide_eq_false_2 by (apply Hne; apply list_elem_of_here).
  apply IH. intros t' Hin. apply Hne. apply list_elem_of_further. exact Hin.
Qed.

Lemma method_triples_methods ms : forall nx jn t,
  t ∈ method_triples ms nx jn -> t.1.1 ∈ ms.
Proof.
  induction ms as [|m ms IH]; intros nx jn t Hin.
  - apply elem_of_nil in Hin. contradiction.
  - cbn [method_triples] in Hin. apply elem_of_cons in Hin. destruct Hin as [->|Hin].
    + apply list_elem_of_here.
    + apply list_elem_of_further. eapply IH. exact Hin.
Qed.

Section BindFinalize.

Context `{HostRuntime}.
Variable engine : jsval -> jsval -> list jsval -> M jsval.

(** X22: what [set] allocates, one run of the finalizer frees.  On a
    free name, one the global object neither has nor inherits, and for
    methods of different names, none of them hidden and none a name a
    plain object inherits, [set] followed by
    the finalizer of the bound object deletes the global reference
    [set] took, destroys every descriptor [set] allocated, in the order
    of the methods, leaves none of them live, and ends with an empty
    stack; the pending exception is as it was before [set]. *)
Theorem set_then_finalize (name : Z -> string) (iname : string)
    (object target vm ctx : Z) (ms : list Z) (w : world) (go : hobject) :
  heap_of w !! global_object (m_context w) = Some go ->
  ordinary go ->
  lookup_prop (KStr iname) (props go) = None ->
  inherited_property (kind go) iname = None ->
  (forall m, m ∈ ms -> inherited_property KPlain (name m) = None) ->
  heap_fresh (m_context w) ->
  stash_ready (m_context w) vm ctx ->
  global_object (m_context w) <> global_stash (m_context w) ->
  referent (env w) object = Some target ->
  0 < jni_next (env w) ->
  (forall m e, objects e = objects (env w) -> refs e = refs (env w) ->
               Method_getName m e = name m) ->
  (forall m e, m ∈ ms -> objects e = objects (env w) -> refs e = refs (env w) ->
               JavaMethod_invalid m e = None) ->
  NoDup (name <$> ms) ->
  (forall m, m ∈ ms -> is_hidden (KStr (name m)) = false) ->
  let p := heap_next (m_context w) in
  let jn := jni_next (env w) in
  let n := Z.of_nat (length ms) in
  exists w1 w2,
    set iname object ms w = Ok tt w1 /\
    javaObjectFinalizer engine (with_stack [VObject p] w1) = Ok 0 w2 /\
    top_of w2 = [] /\
    released (env w2) = (jn + n) :: released (env w) /\
    refs (env w2) !! (jn + n) = None /\
    destroyed (env w2) = (rev (seqZ jn n) ++ destroyed (env w))%list /\
    (forall d, jn <= d < jn + n -> methods (env w2) !! d = None) /\
    pending (env w2) = pending (env w).
Proof.
  intros Hg Hgo Hfree Hinh _ Hfresh (so & Hst & Hso & Hvm & _) Hgst Href Hjn Hname Hvalid
         Hnd Hvis p jn n.
  destruct w as [[s h nx g st tb cf] e jd tc].
  unfold heap_of, top_of in *.
  cbn [m_context env stack heap heap_next global_object global_stash] in *.
  subst p jn n.
  pose proof (heap_fresh_below _ _ _ _ _ _ _ _ _ Hfresh Hg) as Hgnx.
  pose proof (heap_fresh_below _ _ _ _ _ _ _ _ _ Hfresh Hst) as Hstnx.
  assert (Hnd' : NoDup ((fun m => KStr (name m)) <$> ms)).
  { change (fun m => KStr (name m)) with (KStr ∘ name). rewrite list_fmap_compose.
    apply NoDup_fmap_2; [| exact Hnd]. intros x y E. injection E as E. exact E. }
  set (h2 := <[nx := HObject KPlain [] (VObject (nx + 1))]>
               (<[nx + 1 := new_object (KCFunction fn_javaObjectFinalizer 1)]>
                  (<[nx := new_object KPlain]> h))).
  destruct (bind_methods_exact g st tb cf jd tc name (objects e) (refs e) Hname
              iname ms [] nx (HObject KPlain [] (VObject (nx + 1))) s h2 (nx + 1 + 1) e)
    as (h' & o' & Hrun & Ho' & Hobj' & Hfin & Hprops & Hall & Hframe);
    [ subst h2; apply lookup_insert_eq | apply ordinary_plain | lia
    | reflexivity | reflexivity | exact Hvalid | exact Hnd'
    | intros m _; reflexivity | ].
  rewrite app_nil_r in Hrun. cbn [props app] in Hprops.
  destruct (with_methods_facts ms e) as (E1 & E2 & E3 & E4 & E5 & E6).
  set (e' := with_methods ms e) in *.
  set (ts := method_triples ms (nx + 1 + 1) (jni_next e)) in *.
  set (r := jni_next e') in *.
  set (oF := with_props (store_prop (KStr JAVA_THIS_PROP_NAME) (VPointer r)) o').
  set (hF := <[g := with_props (store_prop (KStr iname) (VObject nx)) go]>
               (<[nx := oF]> h')).
  set (nxF := nx + 1 + 1 + Z.of_nat (length ms)).
  assert (Hg' : h' !! g = Some go).
  { rewrite (Hframe g) by lia. subst h2. rewrite !lookup_insert_ne by lia. exact Hg. }
  assert (Hset : set iname object ms
                   (World (DukContext s h nx g st tb cf) e jd tc) =
                 Ok tt (World (DukContext s hF nxF g st tb cf)
                              (with_global_ref target e') jd tc)).
  { unfold set.
    erewrite bind_Ok by reflexivity. proj.
    erewrite bind_Ok by (eapply run_has_prop; eassumption).
    rewrite (has_property_missing _ _ _ _ Hg Hfree Hinh).
    erewrite bind_Ok by apply run_push_object.
    erewrite bind_Ok by apply run_normalize_abs.
    erewrite bind_Ok by apply run_push_c_function.
    erewrite bind_Ok by (apply run_set_finalizer_abs with (pre := []); solve_lookup).
    cbn [app kind props new_object]. fold h2.
    unfold bind at 1. rewrite Hrun. cbn [bind_methods]. unfold ret at 1.
    erewrite bind_Ok.
    2:{ apply run_NewGlobalRef. rewrite (referent_same_refs _ _ _ E2). exact Href. }
    erewrite bind_Ok by reflexivity.
    erewrite bind_Ok
      by (apply run_put_prop_abs with (pre := []); [exact Hobj' | exact Ho']).
    erewrite bind_Ok.
    2:{ apply run_put_prop_m2; [| exact Hgo].
        rewrite lookup_insert_ne by lia. exact Hg'. }
    apply run_duk_pop. }
  (* the bound object as the finalizer finds it *)
  assert (HpF : hF !! nx = Some oF).
  { subst hF. rewrite lookup_insert_ne by lia. apply lookup_insert_eq. }
  assert (HoF : ordinary oF) by (apply ordinary_with_props; exact Ho').
  assert (Hthis_free : lookup_prop (KStr JAVA_THIS_PROP_NAME) (props o') = None).
  { rewrite Hprops. apply lookup_prop_entries_None.
    intros t Hin E. pose proof (Hvis _ (method_triples_methods _ _ _ _ Hin)) as Hv.
    rewrite E in Hv. discriminate Hv. }
  assert (HpropsF : props oF =
                    ((method_entry name <$> ts) ++
                       [(KStr JAVA_THIS_PROP_NAME, VPointer r)])%list).
  { subst oF. cbn [with_props props].
    rewrite (store_prop_fresh _ _ _ Hthis_free). rewrite Hprops. reflexivity. }
  assert (Hr : lookup_prop (KStr JAVA_THIS_PROP_NAME) (props oF) = Some (VPointer r)).
  { subst oF. cbn [with_props props]. apply lookup_store_prop_eq. }
  assert (Hm : lookup_prop (KStr JAVA_METHOD_PROP_NAME) (props oF) = None).
  { rewrite HpropsF, lookup_prop_app.
    rewrite lookup_prop_entries_None; [reflexivity|].
    intros t Hin E. pose proof (Hvis _ (method_triples_methods _ _ _ _ Hin)) as Hv.
    rewrite E in Hv. discriminate Hv. }
  assert (HstF : hF !! st = Some so).
  { subst hF. rewrite lookup_insert_ne by exact Hgst.
    rewrite lookup_insert_ne by lia. rewrite (Hframe st) by lia.
    subst h2. rewrite !lookup_insert_ne by lia. exact Hst. }
  assert (Hkeys : filter (fun k => is_hidden k = false) (fst <$> props oF) =
                  fst <$> (method_entry name <$> ts)).
  { rewrite HpropsF, fmap_app. subst ts. rewrite method_triples_keys.
    apply filter_method_keys; [exact Hvis | reflexivity]. }
  set (keys := fst <$> (method_entry name <$> ts)) in *.
  set (hX := <[nxF := new_object (KEnum nx keys)]> (<[nx := oF]> hF)).
  pose proof (finalizer_heap_same hF nx oF nxF (new_object (KEnum nx keys)) HpF)
    as Hsame.
  assert (Hbound : Forall2 (bound_method hX (props oF) nxF nx) keys (snd <$> ts)).
  { subst keys. rewrite <- list_fmap_compose. apply Forall2_fmap.
    apply Forall_Forall2_diag. apply Forall_forall. intros t Hin.
    pose proof (proj1 (Forall_forall _ _) Hall t Hin) as (Hf & Hfb & Hdb).
    exists t.1.2, (method_function t.2).
    split.
    { rewrite HpropsF, lookup_prop_app.
      erewrite lookup_prop_NoDup; [reflexivity | |].
      - subst ts. rewrite method_triples_keys. exact Hnd'.
      - apply list_elem_of_fmap. exists t. split; [reflexivity | exact Hin]. }
    split.
    { rewrite Hsame by (subst nxF; lia). subst hF.
      rewrite !lookup_insert_ne by lia. exact Hf. }
    split; [intros ? ?; discriminate|].
    split; [reflexivity|].
    split; [lia|]. split; subst nxF; lia. }
  destruct (run_finalizer_loop engine g st tb cf jd tc nx oF nxF keys [] (snd <$> ts) []
              hX (nxF + 1) (without_ref r (with_global_ref target e')))
    as (hE' & Hloop & HE' & _).
  { exact Hbound. }
  { subst hX. rewrite Hsame by (subst nxF; lia). exact HpF. }
  { exact HoF. }
  { subst nxF. lia. }
  { subst hX. rewrite app_nil_r. apply lookup_insert_eq. }
  rewrite app_nil_r in Hloop.
  eexists. eexists. split; [exact Hset|]. split.
  { proj. unfold javaObjectFinalizer.
    erewrite (run_finalizer_prefix engine g st tb cf jd tc nx oF r so vm [] hF nxF
                (with_global_ref target e')); try eassumption.
    rewrite Hkeys. fold hX.
    erewrite bind_Ok.
    2:{ unfold enum_remaining. proj.
        change (stack_at (-1) [VObject nxF; VObject nx]) with (Some (VObject nxF)).
        cbv iota. subst hX. rewrite lookup_insert_eq. cbn [new_object].
        rewrite Hloop. cbn [javaObjectFinalizer_loop].
        erewrite (bind_Ok _ _ _ false).
        2:{ unfold duk_next. proj.
            change (stack_at (-1) [VObject nxF; VObject nx]) with (Some (VObject nxF)).
            cbv iota. rewrite HE'. cbn [next_key]. reflexivity. }
        reflexivity. }
    erewrite bind_Ok by reflexivity.
    reflexivity. }
  proj. cbn [drop].
  destruct (released_destroy_all (snd <$> ts) (without_ref r (with_global_ref target e')))
    as (F1 & F2 & F3).
  assert (Hds : snd <$> ts = seqZ (jni_next e) (Z.of_nat (length ms)))
    by (subst ts; apply method_triples_descriptors).
  assert (Hrval : r = jni_next e + Z.of_nat (length ms)) by (subst r; exact E6).
  split; [reflexivity|].
  split.
  { rewrite F1. cbn [without_ref with_global_ref released]. rewrite E4, Hrval.
    reflexivity. }
  split.
  { rewrite F2. cbn [without_ref with_global_ref refs]. rewrite <- Hrval.
    apply lookup_delete_eq. }
  split.
  { rewrite destroyed_destroy_all, Hds.
    cbn [without_ref with_global_ref destroyed]. rewrite E5. reflexivity. }
  split.
  { intros d Hd. apply methods_destroy_all. rewrite Hds.
    apply elem_of_seqZ. lia. }
  rewrite F3. cbn [without_ref with_global_ref pending]. exact E3.
Qed.

End BindFinalize.

Lemma set_then_finalize_witness :
  exists w1 w2,
    set "svc" 52 [57] (Reference.world0 true) = Ok tt w1 /\
    javaObjectFinalizer (engine_call 0) (with_stack [VObject 10] w1) = Ok 0 w2 /\
    top_of w2 = [] /\
    released (env w2) = [201] /\
    refs (env w2) !! 201 = None /\
    destroyed (env w2) = [200] /\
    (forall d, 200 <= d < 201 -> methods (env w2) !! d = None) /\
    pending (env w2) = None.
Proof.
  destruct (set_then_finalize (engine_call 0) (reference_name Reference.env0) "svc"
              52 102 1000 2000 [57] (Reference.world0 true)
              (HObject KPlain [(KStr "__makeProxy", VObject 3)] VUndefined))
    as (w1 & w2 & Hset & Hfin & Htop & Hrel & Hrefs & Hdes & Hmt & Hpen).
  - reflexivity.
  - apply ordinary_plain.
  - reflexivity.
  - reflexivity.
  - intros m Hin. apply list_elem_of_singleton in Hin. subst m.
    vm_compute. reflexivity.
  - apply (reference_heap_fresh true []).
  - exists (HObject KPlain [(KStr JAVA_VM_PROP_NAME, VPointer 1000);
                            (KStr DUKTAPE_CONTEXT_PROP_NAME, VPointer 2000)] VUndefined).
    split; [reflexivity|]. split; [apply ordinary_plain|]. split; reflexivity.
  - vm_compute. discriminate.
  - reflexivity.
  - vm_compute. reflexivity.
  - intros m e Ho Hr. cbn [Method_getName Reference.host]. unfold reference_name.
    rewrite (reference_method_tag Reference.env0 e m Ho Hr). reflexivity.
  - intros m e Hin Ho Hr. apply list_elem_of_singleton in Hin. subst m.
    cbn [JavaMethod_invalid Reference.host].
    rewrite (reference_method_tag Reference.env0 e 57 Ho Hr). reflexivity.
  - apply NoDup_singleton.
  - intros m Hin. apply list_elem_of_singleton in Hin. subst m.
    vm_compute. reflexivity.
  - exists w1, w2.
    split; [exact Hset|]. split; [exact Hfin|]. split; [exact Htop|].
    split; [exact Hrel|]. split; [exact Hrefs|]. split; [exact Hdes|].
    split; [exact Hmt | exact Hpen].
Defined.
